(** * videonetworkapp: the capture / score / graph pipeline of
      [app2/video/video_run.py]

    A shallow embedding of the three stage functions [capture_images],
    [compute_metrics] and [graph_metrics], of the window lookup
    [get_zoom_window_id] and of the orchestrator [run_video_processes],
    followed by the properties of the pipeline.

    Conventions of the embedding.
    - A Python [float] is a primitive IEEE binary64 float; a [datetime] is
      its number of microseconds on the time line, a [timedelta] the signed
      number of microseconds between two of them.
    - A call that may raise returns a [result]; a stage returns how it ended
      ([outcome]) together with what it did (the items it put on its queue,
      in order).
    - What the outside world supplies is an argument: the window list of
      Quartz, the successive readings of [datetime.now()], what each call of
      [capture_image] does (it returns a pixel buffer or raises), what
      [time.sleep] does with a pause (it returns or raises), the scoring
      function [get_no_ref_score], the members of the enumeration
      [MetricType], what [savefig] does with a figure and a file name, and
      what each blocking [get] on a queue yields.
    - An exception is the class that a handler tests: [ValueError] stands
      for [ValueError] and its subclasses, [OtherError] for a class that is
      none of those listed.
    - A queue holds any number of items and a [put] does not wait.
    - [print] calls are not recorded. *)

From Stdlib Require Import ZArith List String Uint63 Floats Sorted Lia.
From stdpp Require Import base option list functions sorting gmap strings.

Local Open Scope Z_scope.
#[local] Set Warnings "-clear-no-such-hyp".
#[local] Set Default Proof Using "Type".

(** ** Python exceptions and results *)

Inductive exn : Type :=
| ValueError
| KeyError
| TypeError
| AttributeError
| ZeroDivisionError
| RuntimeError
| OverflowError
| OSError
| OtherError (name : string).

Inductive result (A : Type) : Type :=
| Ok (a : A)
| Raise (e : exn).
Arguments Ok {A} a.
Arguments Raise {A} e.

(** How a stage function ended: it returned, an exception left it, or it has
    not ended (it waits in a blocking [get] that nothing will answer, or its
    loop is still running when the fuel of the model is spent). *)
Inductive outcome : Type :=
| Returned
| Raised (e : exn)
| Unfinished.

(** The three ways out of the body of a [while True: try: ...] iteration. *)
Inductive flow (A : Type) : Type :=
| Next (a : A)
| Brk
| Exc (e : exn).
Arguments Next {A} a.
Arguments Brk {A}.
Arguments Exc {A} e.

(** [except ValueError: ...; break] *)
Definition except_ValueError {A : Type} (f : flow A) : flow A :=
  match f with
  | Exc ValueError => Brk
  | _ => f
  end.

(** ** Time *)

Abbreviation datetime := Z.
Abbreviation timedelta := Z.

Definition float_of_Z (z : Z) : float :=
  match z with
  | Zneg p => PrimFloat.opp (PrimFloat.of_uint63 (Uint63.of_Z (Zpos p)))
  | _ => PrimFloat.of_uint63 (Uint63.of_Z z)
  end.

(** [timedelta.total_seconds()]: the true division of two integers, the
    microseconds by [10**6], which Python rounds once, to the nearest
    float, ties to even. The division of the two integers is carried out on
    their exact values, whatever their size, and rounded to binary64. *)
Definition total_seconds (td : timedelta) : float :=
  SF2Prim
    (SFdiv prec emax
       match td with
       | Z0 => S754_zero false
       | Zpos p => S754_finite false p 0
       | Zneg p => S754_finite true p 0
       end
       (S754_finite false 1000000 0)).

(** ** [get_zoom_window_id] *)

(** One dictionary of [CGWindowListCopyWindowInfo]: a key that is absent is
    [None]. *)
Record window : Type := {
  kCGWindowOwnerName : option string;
  kCGWindowName : option string;
  kCGWindowNumber : option Z
}.

(** [win[k]] raises [KeyError] on an absent key, [win.get(k, '')] does not;
    [int('')] raises [ValueError]. *)
Fixpoint get_zoom_window_id (windows : list window) : result Z :=
  match windows with
  | [] => Ok (-1)
  | win :: windows' =>
    match kCGWindowOwnerName win with
    | None => Raise KeyError
    | Some owner =>
      if String.eqb owner "zoom.us"
         && String.eqb (default EmptyString (kCGWindowName win)) "Zoom Meeting"
      then match kCGWindowNumber win with
           | Some n => Ok n
           | None => Raise ValueError
           end
      else get_zoom_window_id windows'
    end
  end.

(** close until no more to capture *)
Definition FINISH : Z := 1.

Section Pipeline.

(** The enumeration [MetricType] of [app2.video.metrics.image_score], its
    members in definition order (what [for metric_type in MetricType]
    yields) and the text of each member's [value]. *)
Context {MetricType : Type} `{Countable MetricType}.
Variable members : list MetricType.
Variable value : MetricType -> string.

(** The pixel buffer [np.ndarray] that [capture_image] returns. *)
Context {ndarray : Type}.

(** ** Data model *)

(** [video_metrics.py]: [@dataclass class VideoMetrics]. *)
Record VideoMetrics : Type := {
  time : datetime;
  metrics : gmap MetricType float
}.

(** The values that travel on the two queues: the integer sentinel, the pair
    [(image_start_time, raw_data)] and a [VideoMetrics] record. *)
Inductive pyval : Type :=
| PyInt (n : Z)
| PyTuple2 (t : datetime) (a : ndarray)
| PyVideoMetrics (r : VideoMetrics).

(** What one blocking [queue.get()] does. *)
Inductive get_result : Type :=
| Got (v : pyval)
| GetRaises (e : exn).

(** [type(v) == int and v == FINISH] *)
Definition is_FINISH (v : pyval) : bool :=
  match v with
  | PyInt n => n =? FINISH
  | _ => false
  end.

(** ** [capture_images] *)

(** What the capture process does to the outside: a [put] on its queue, a
    [time.sleep] that has returned, the [close] of its queue. *)
Inductive event : Type :=
| Put (v : pyval)
| Sleep (seconds : float)
| Close.

Definition puts (evs : list event) : list pyval :=
  omap (fun ev => match ev with Put v => Some v | _ => None end) evs.

Definition sleeps (evs : list event) : list float :=
  omap (fun ev => match ev with Sleep d => Some d | _ => None end) evs.

Section Capture.

(** [now k] is what the [k]-th call of [datetime.now()] in the capture
    process returns (counted from 0); [capture_image w i] is what the
    [i]-th call of [capture_image], on window [w], does: the Quartz and
    numpy calls in it return a buffer or raise; [time_sleep d] is what
    [time.sleep(d)] does: it returns after the pause or raises (a pause that
    is too long for the clock of the platform, say). *)
Variable windows : list window.
Variable now : nat -> datetime.
Variable capture_image : Z -> nat -> result ndarray.
Variable time_sleep : float -> result unit.

(** The body of the [while] loop, lines 63-70; [k] clock readings and [tick]
    captures have been made before it. What it did, and the exception that
    left it, if one did. *)
Definition capture_tick (window_num : Z) (time_between_frame : float)
    (k tick : nat) : list event * result unit :=
  let image_start_time := now k in
  match capture_image window_num tick with
  | Raise e => ([], Raise e)
  | Ok raw_data =>
    let image_finish_time := now (S k) in
    let diff := total_seconds (image_finish_time - image_start_time) in
    if PrimFloat.ltb diff time_between_frame
    then match time_sleep (PrimFloat.sub time_between_frame diff) with
         | Ok _ =>
           ([Put (PyTuple2 image_start_time raw_data);
             Sleep (PrimFloat.sub time_between_frame diff)], Ok tt)
         | Raise e => ([Put (PyTuple2 image_start_time raw_data)], Raise e)
         end
    else ([Put (PyTuple2 image_start_time raw_data)], Ok tt)
  end.

Fixpoint capture_loop (fuel : nat) (window_num : Z) (time_between_frame : float)
    (capture_start_time : datetime) (k tick : nat) : outcome * list event :=
  match fuel with
  | O => (Unfinished, [])
  | S fuel' =>
    if PrimFloat.leb (total_seconds (now k - capture_start_time)) 5
    then
      match capture_tick window_num time_between_frame (S k) tick with
      | (tick_evs, Ok _) =>
        let '(o, evs) :=
          capture_loop fuel' window_num time_between_frame capture_start_time
                       (3 + k)%nat (S tick) in
        (o, tick_evs ++ evs)
      | (tick_evs, Raise e) => (Raised e, tick_evs)
      end
    else (Returned, [Put (PyInt FINISH); Close])
  end.

(** [frame_rate] is the number handed to [1/frame_rate]; the integer 30 of
    [run_video_processes] is the float 30. *)
Definition capture_images (fuel : nat) (frame_rate : float)
    : outcome * list event :=
  match get_zoom_window_id windows with
  | Raise e => (Raised e, [])
  | Ok window_num =>
    if PrimFloat.eqb frame_rate 0
    then (Raised ZeroDivisionError, [])
    else
      let time_between_frame := PrimFloat.div 1 frame_rate in
      let capture_start_time := now 0 in
      capture_loop fuel window_num time_between_frame capture_start_time 1 0
  end.

End Capture.

(** ** [compute_metrics] *)

Section Scoring.

Variable get_no_ref_score : ndarray -> MetricType -> result float.

(** The dictionary comprehension of line 85, one key after the other. *)
Fixpoint metrics_comprehension (image_data : ndarray) (ms : list MetricType)
    (acc : gmap MetricType float) : result (gmap MetricType float) :=
  match ms with
  | [] => Ok acc
  | metric_type :: ms' =>
    match get_no_ref_score image_data metric_type with
    | Ok score => metrics_comprehension image_data ms' (<[metric_type := score]> acc)
    | Raise e => Raise e
    end
  end.

(** The [try] block, lines 79-87: unpacking anything but the pair raises
    [TypeError]. *)
Definition compute_metrics_try (g : get_result) : flow pyval :=
  match g with
  | GetRaises e => Exc e
  | Got res =>
    if is_FINISH res then Brk
    else match res with
         | PyTuple2 image_capture_time image_data =>
           match metrics_comprehension image_data members ∅ with
           | Ok d => Next (PyVideoMetrics {| time := image_capture_time; metrics := d |})
           | Raise e => Exc e
           end
         | _ => Exc TypeError
         end
  end.

(** [gets] lists what the successive [data_queue.get(block=True)] yield; the
    second component is what is put on [result_queue], in order. *)
Fixpoint compute_metrics (gets : list get_result) : outcome * list pyval :=
  match gets with
  | [] => (Unfinished, [])
  | g :: gets' =>
    match except_ValueError (compute_metrics_try g) with
    | Next metric_record =>
      let '(o, out) := compute_metrics gets' in (o, metric_record :: out)
    | Brk => (Returned, [PyInt FINISH])
    | Exc e => (Raised e, [])
    end
  end.

End Scoring.

(** ** [graph_metrics] *)

(** The two accumulators of lines 96-97: [times] and the
    [defaultdict(list)] [image_scores]. *)
Record timeline : Type := {
  times : list datetime;
  image_scores : gmap MetricType (list float)
}.

Definition timeline_empty : timeline :=
  {| times := []; image_scores := ∅ |}.

(** Lines 106-107. [image_scores[metric_type]] is evaluated first and, the
    dictionary being a [defaultdict], creates the key; then
    [metric_record.metrics[metric_type]] raises [KeyError] on an absent
    key. *)
Fixpoint append_scores (record_metrics : gmap MetricType float)
    (ms : list MetricType) (scores : gmap MetricType (list float))
    : gmap MetricType (list float) * result unit :=
  match ms with
  | [] => (scores, Ok tt)
  | metric_type :: ms' =>
    let column := scores !!! metric_type in
    match record_metrics !! metric_type with
    | Some score =>
      append_scores record_metrics ms' (<[metric_type := column ++ [score]]> scores)
    | None => (<[metric_type := column]> scores, Raise KeyError)
    end
  end.

(** The [try] block, lines 102-107, on the accumulators [tl]: an integer or
    a pair has no attribute [time]. *)
Definition graph_metrics_try (tl : timeline) (g : get_result)
    : timeline * flow unit :=
  match g with
  | GetRaises e => (tl, Exc e)
  | Got metric_record =>
    if is_FINISH metric_record then (tl, Brk)
    else match metric_record with
         | PyVideoMetrics r =>
           let times' := times tl ++ [time r] in
           let '(scores', res) := append_scores (metrics r) members (image_scores tl) in
           ({| times := times'; image_scores := scores' |},
            match res with Ok _ => Next tt | Raise e => Exc e end)
         | _ => (tl, Exc AttributeError)
         end
  end.

(** The [while True] loop: [Returned] stands for a loop left by [break]. *)
Fixpoint graph_loop (tl : timeline) (gets : list get_result)
    : outcome * timeline :=
  match gets with
  | [] => (Unfinished, tl)
  | g :: gets' =>
    let '(tl', f) := graph_metrics_try tl g in
    match except_ValueError f with
    | Next _ => graph_loop tl' gets'
    | Brk => (Returned, tl')
    | Exc e => (Raised e, tl')
    end
  end.

(** What is handed to matplotlib: one row of axes per member of
    [MetricType], and the file name given to [savefig]. *)
Record axes : Type := {
  plot_x : list datetime;
  plot_y : list float;
  title : string;
  xlabel : string;
  ylabel : string
}.

Record figure : Type := {
  rows : list axes;
  image_filename : string
}.

(** [fig.savefig(image_filename)]: what matplotlib and the file system do
    with the figure, they write the file or raise. *)
Variable savefig : string -> figure -> result unit.

(** Lines 125-129 for one member: [plot_date] raises [ValueError] when it
    gets more or fewer scores than times. *)
Definition plot_date_fits (tl : timeline) (metric_type : MetricType) : bool :=
  (length (times tl) =? length (image_scores tl !!! metric_type))%nat.

Definition plot_row (tl : timeline) (metric_type : MetricType) : axes :=
  {| plot_x := times tl;
     plot_y := image_scores tl !!! metric_type;
     title := "Timeline of Frame Score";
     xlabel := "Unix Time";
     ylabel := value metric_type ++ " Score" |}.

(** Lines 121-133. [plt.subplots(len(MetricType), 1)] raises [ValueError]
    for no row; for one row its second result is the one [Axes], not an
    array, and [ax[row_idx]] raises [TypeError]; from two rows on it is the
    array of the rows. *)
Definition plot (graph_dir : string) (tl : timeline) : result figure :=
  match members with
  | [] => Raise ValueError
  | [_] => Raise TypeError
  | _ =>
    if forallb (plot_date_fits tl) members
    then Ok {| rows := map (plot_row tl) members;
               image_filename := graph_dir ++ "/" ++ "frame_timeline.png" |}
    else Raise ValueError
  end.

(** Lines 112-135, what follows the loop: the figure is plotted and saved,
    unless one of the calls raises; the exception then leaves the stage. *)
Definition graph_finish (graph_dir : string) (tl : timeline)
    : outcome * timeline * option figure :=
  match plot graph_dir tl with
  | Ok fig =>
    match savefig (image_filename fig) fig with
    | Ok _ => (Returned, tl, Some fig)
    | Raise e => (Raised e, tl, None)
    end
  | Raise e => (Raised e, tl, None)
  end.

(** The stage: how it ended, the accumulators at that point and the figure
    it saved, if it came that far. *)
Definition graph_metrics (graph_dir : string) (gets : list get_result)
    : outcome * timeline * option figure :=
  match graph_loop timeline_empty gets with
  | (Returned, tl) => graph_finish graph_dir tl
  | (o, tl) => (o, tl, None)
  end.

(** ** [run_video_processes] and the running system *)

Inductive qid : Type := packet_queue | metrics_queue.
Inductive pid : Type := process_capture | process_analysis | process_graph.

#[global] Instance qid_eq_dec : EqDecision qid.
Proof. solve_decision. Defined.
#[global] Instance pid_eq_dec : EqDecision pid.
Proof. solve_decision. Defined.

(** [target=..., args=(...)] of a [multiprocessing.Process]. *)
Inductive target : Type :=
| capture_images_of (frame_rate : float) (data_queue : qid)
| compute_metrics_of (data_queue result_queue : qid)
| graph_metrics_of (graph_dir : string) (result_queue : qid).

(** The statements of the orchestrator. *)
Inductive cmd : Type :=
| NewQueue (q : qid)
| NewProcess (p : pid) (t : target)
| Start (p : pid)
| Join (p : pid).

(** Lines 137-151. *)
Definition run_video_processes (graph_dir : string) : list cmd :=
  [ NewQueue packet_queue;
    NewQueue metrics_queue;
    NewProcess process_capture (capture_images_of 30 packet_queue);
    NewProcess process_analysis (compute_metrics_of packet_queue metrics_queue);
    NewProcess process_graph (graph_metrics_of graph_dir metrics_queue);
    Start process_capture;
    Start process_analysis;
    Start process_graph;
    Join process_capture;
    Join process_analysis;
    Join process_graph ].

(** A process: not yet constructed, constructed, running its target (with
    the local variables of the target), or ended. A running capture holds
    what it has still to do and how it then ends; a graph process that has
    ended holds what [graph_metrics] gives. *)
Inductive proc : Type :=
| Absent
| Created (t : target)
| Capturing (data_queue : qid) (todo : list event) (ending : outcome)
| Computing (data_queue result_queue : qid)
| Graphing (graph_dir : string) (result_queue : qid) (tl : timeline)
| Exited (o : outcome)
| Graphed (o : outcome) (tl : timeline) (saved : option figure).

Definition exited (pr : proc) : bool :=
  match pr with
  | Exited _ | Graphed _ _ _ => true
  | _ => false
  end.

(** A graph process that has left its loop and gone through the lines after
    it. *)
Definition graphed (ended : outcome * timeline * option figure) : proc :=
  let '(o, tl, saved) := ended in Graphed o tl saved.

(** The orchestrator ([main]: the statements it has still to run), the
    processes and the contents of the queues, oldest item first. *)
Record sys : Type := {
  main : list cmd;
  procs : pid -> proc;
  queues : qid -> list pyval
}.

Section System.

Variable windows : list window.
Variable now : nat -> datetime.
Variable capture_image : Z -> nat -> result ndarray.
Variable time_sleep : float -> result unit.
Variable get_no_ref_score : ndarray -> MetricType -> result float.

(** The number of iterations of the capture loop that the model follows. *)
Variable fuel : nat.

Definition boot (graph_dir : string) : sys :=
  {| main := run_video_processes graph_dir;
     procs := fun _ => Absent;
     queues := fun _ => [] |}.

(** [Process.start()] *)
Definition started (t : target) : proc :=
  match t with
  | capture_images_of frame_rate data_queue =>
    let '(o, evs) :=
      capture_images windows now capture_image time_sleep fuel frame_rate in
    Capturing data_queue evs o
  | compute_metrics_of data_queue result_queue => Computing data_queue result_queue
  | graph_metrics_of graph_dir result_queue =>
    Graphing graph_dir result_queue timeline_empty
  end.

(** One statement of the orchestrator; [Join p] can be passed only when the
    process [p] has ended. *)
Definition main_step (s : sys) : option sys :=
  match main s with
  | [] => None
  | NewQueue q :: rest =>
    Some {| main := rest; procs := procs s; queues := <[q := []]> (queues s) |}
  | NewProcess p t :: rest =>
    Some {| main := rest; procs := <[p := Created t]> (procs s); queues := queues s |}
  | Start p :: rest =>
    match procs s p with
    | Created t =>
      Some {| main := rest; procs := <[p := started t]> (procs s); queues := queues s |}
    | _ => None
    end
  | Join p :: rest =>
    if exited (procs s p)
    then Some {| main := rest; procs := procs s; queues := queues s |}
    else None
  end.

Definition put (q : qid) (v : pyval) (qs : qid -> list pyval) : qid -> list pyval :=
  <[q := qs q ++ [v]]> qs.

(** One step of the process [p]: one event of the capture process, one
    iteration of the loop of the other two; a [get] on an empty queue
    waits. *)
Definition proc_step (p : pid) (s : sys) : option sys :=
  match procs s p with
  | Capturing data_queue (ev :: todo) ending =>
    Some {| main := main s;
            procs := <[p := Capturing data_queue todo ending]> (procs s);
            queues := match ev with
                      | Put v => put data_queue v (queues s)
                      | _ => queues s
                      end |}
  | Capturing data_queue [] ending =>
    match ending with
    | Unfinished => None
    | _ => Some {| main := main s;
                   procs := <[p := Exited ending]> (procs s);
                   queues := queues s |}
    end
  | Computing data_queue result_queue =>
    match queues s data_queue with
    | [] => None
    | res :: waiting =>
      let qs := <[data_queue := waiting]> (queues s) in
      match except_ValueError (compute_metrics_try get_no_ref_score (Got res)) with
      | Next metric_record =>
        Some {| main := main s; procs := procs s;
                queues := put result_queue metric_record qs |}
      | Brk =>
        Some {| main := main s;
                procs := <[p := Exited Returned]> (procs s);
                queues := put result_queue (PyInt FINISH) qs |}
      | Exc e =>
        Some {| main := main s;
                procs := <[p := Exited (Raised e)]> (procs s);
                queues := qs |}
      end
    end
  | Graphing graph_dir result_queue tl =>
    match queues s result_queue with
    | [] => None
    | metric_record :: waiting =>
      let qs := <[result_queue := waiting]> (queues s) in
      let '(tl', f) := graph_metrics_try tl (Got metric_record) in
      Some {| main := main s;
              procs := <[p := match except_ValueError f with
                              | Next _ => Graphing graph_dir result_queue tl'
                              | Brk => graphed (graph_finish graph_dir tl')
                              | Exc e => Graphed (Raised e) tl' None
                              end]> (procs s);
              queues := qs |}
    end
  | _ => None
  end.

(** Any interleaving of the orchestrator and the processes. *)
Inductive step (s s' : sys) : Prop :=
| step_main : main_step s = Some s' -> step s s'
| step_proc (p : pid) : proc_step p s = Some s' -> step s s'.

Definition reachable (graph_dir : string) (s : sys) : Prop :=
  rtc step (boot graph_dir) s.

(** A scheduler: who moves next ([None]: the orchestrator). *)
Definition move (who : option pid) (s : sys) : option sys :=
  match who with
  | None => main_step s
  | Some p => proc_step p s
  end.

Fixpoint schedule (whos : list (option pid)) (s : sys) : option sys :=
  match whos with
  | [] => Some s
  | who :: whos' =>
    match move who s with
    | Some s' => schedule whos' s'
    | None => None
    end
  end.

(** The pipeline read as a composition of the three stage functions: the
    consumer of a queue reads, in order, what its producer put. *)
Definition pipeline (frame_rate : float) (graph_dir : string)
    : outcome * timeline * option figure :=
  let data :=
    puts (snd (capture_images windows now capture_image time_sleep fuel frame_rate)) in
  let records := snd (compute_metrics get_no_ref_score (Got <$> data)) in
  graph_metrics graph_dir (Got <$> records).

End System.

End Pipeline.

(** ** The sentinel on a channel *)

(** The items put on a channel end with the sentinel, and it is the only
    one among them. *)
Definition sentinel_once_last {MetricType : Type} `{Countable MetricType}
    {ndarray : Type} (items : list (@pyval MetricType _ _ ndarray)) : Prop :=
  exists data,
    items = data ++ [PyInt FINISH] /\ Forall (fun v => is_FINISH v = false) data.

(** ** The ticks of a capture run, by their number

    The capture process reads the clock once before the loop and three times
    per iteration: for the test of the loop, for [image_start_time] and for
    [image_finish_time]. *)
Section Ticks.

Context {MetricType : Type} `{Countable MetricType} {ndarray : Type}.
Variable now : nat -> datetime.
Variable capture_image : Z -> nat -> result ndarray.
Variable time_sleep : float -> result unit.

(** The buffers of the captures that return one: [raw w i] for capture [i]
    on window [w]. *)
Variable raw : Z -> nat -> ndarray.

(** The test of the loop before tick [i]. *)
Definition within_deadline (i : nat) : bool :=
  PrimFloat.leb (total_seconds (now (1 + 3 * i)%nat - now 0)) 5.

(** The item that tick [i] puts on the queue. *)
Definition frame (window_num : Z) (i : nat) : @pyval MetricType _ _ ndarray :=
  PyTuple2 (now (2 + 3 * i)%nat) (raw window_num i).

(** [diff] of tick [i]. *)
Definition tick_diff (i : nat) : float :=
  total_seconds (now (3 + 3 * i)%nat - now (2 + 3 * i)%nat).

(** The pauses of tick [i]: none, or the one that fills the interval. *)
Definition tick_sleep (time_between_frame : float) (i : nat) : list float :=
  if PrimFloat.ltb (tick_diff i) time_between_frame
  then [PrimFloat.sub time_between_frame (tick_diff i)]
  else [].

Definition tick_events (window_num : Z) (time_between_frame : float) (i : nat)
    : list (@event MetricType _ _ ndarray) :=
  Put (frame window_num i) :: (Sleep <$> tick_sleep time_between_frame i).

(** The events of the ticks [j .. j+n-1]. *)
Definition ticks_events (window_num : Z) (time_between_frame : float) (j n : nat)
    : list (@event MetricType _ _ ndarray) :=
  concat (tick_events window_num time_between_frame <$> seq j n).

(** The loop makes exactly the ticks [0 .. n-1]. *)
Definition makes_ticks (n : nat) : Prop :=
  (forall i, (i < n)%nat -> within_deadline i = true) /\ within_deadline n = false.

(** Tick [i] passes: its capture returns the buffer and [time.sleep]
    returns from its pause, if it has one. *)
Definition tick_passes (window_num : Z) (time_between_frame : float) (i : nat)
    : Prop :=
  capture_image window_num i = Ok (raw window_num i)
  /\ Forall (fun d => time_sleep d = Ok tt) (tick_sleep time_between_frame i).

(** How tick [i] fails, when it does: at its capture, before anything is
    put, or at its pause, after its frame was put. *)
Definition tick_fails (window_num : Z) (time_between_frame : float) (i : nat)
    (e : exn) (done : list (@event MetricType _ _ ndarray)) : Prop :=
  (capture_image window_num i = Raise e /\ done = [])
  \/ (capture_image window_num i = Ok (raw window_num i)
      /\ Exists (fun d => time_sleep d = Raise e) (tick_sleep time_between_frame i)
      /\ done = [Put (frame window_num i)]).

End Ticks.

(** ** The accumulators of the graph stage, record by record *)
Section Accumulation.

Context {MetricType : Type} `{Countable MetricType} {ndarray : Type}.
Variable members : list MetricType.
Variable value : MetricType -> string.
Variable savefig : string -> figure -> result unit.

(** [graph_metrics], its loop entered with the accumulators [tl]. *)
Definition graph_from (graph_dir : string) (tl : timeline)
    (gets : list (@get_result MetricType _ _ ndarray))
    : outcome * timeline * option figure :=
  match graph_loop members tl gets with
  | (Returned, tl') => graph_finish members value savefig graph_dir tl'
  | (o, tl') => (o, tl', None)
  end.

(** A record that has a score for every member of [MetricType]. *)
Definition complete (r : @VideoMetrics MetricType _ _) : Prop :=
  forall m, m ∈ members -> is_Some (metrics r !! m).

(** The accumulators after one more record. *)
Definition with_record (tl : timeline) (r : @VideoMetrics MetricType _ _)
    : timeline :=
  {| times := times tl ++ [time r];
     image_scores := fst (append_scores (metrics r) members (image_scores tl)) |}.

(** The scores of the metric [m] in a list of records. *)
Definition column (m : MetricType) (recs : list (@VideoMetrics MetricType _ _))
    : list float :=
  omap (fun r => metrics r !! m) recs.

(** [tl'] holds what [tl] holds, in the same order, and maybe more after
    it. *)
Definition extends (tl tl' : @timeline MetricType _ _) : Prop :=
  times tl `prefix_of` times tl'
  /\ forall m, (image_scores tl !!! m) `prefix_of` (image_scores tl' !!! m).

End Accumulation.

(** ** Score vectors *)
Section ScoreVectors.

Context {MetricType : Type} `{Countable MetricType} {ndarray : Type}.
Variable members : list MetricType.
Variable get_no_ref_score : ndarray -> MetricType -> result float.

(** Every metric kind gives a score on this buffer. *)
Definition scores_well (image_data : ndarray) : Prop :=
  forall m, m ∈ members -> exists s, get_no_ref_score image_data m = Ok s.

(** The record [r] is the score vector of the frame [(t, image_data)]. *)
Definition score_vector_of (t : datetime) (image_data : ndarray)
    (r : @VideoMetrics MetricType _ _) : Prop :=
  time r = t
  /\ dom (metrics r) = list_to_set members
  /\ forall m, m ∈ members ->
       exists s, get_no_ref_score image_data m = Ok s /\ metrics r !! m = Some s.

End ScoreVectors.

(** ** What a state of the running system still holds

    The invariant of the running system. With [k] statements of the
    orchestrator done, each process is where the statements put it, each
    queue is empty until its writer is started, and the records that the
    scoring stage puts in all, read as a function of what the capture stage
    puts, are the ones the graph process has got already ([done]) followed
    by the ones ahead of it: those waiting on the metrics queue, then those
    that the scoring process will put for what waits on the packet queue and
    for what the capture process has still to put. *)
Section Invariant.

Context {MetricType : Type} `{Countable MetricType} {ndarray : Type}.
Variable members : list MetricType.
Variable value : MetricType -> string.
Variable savefig : string -> figure -> result unit.
Variable windows : list window.
Variable now : nat -> datetime.
Variable capture_image : Z -> nat -> result ndarray.
Variable time_sleep : float -> result unit.
Variable get_no_ref_score : ndarray -> MetricType -> result float.
Variable fuel : nat.

(** The items the capture process puts in all, at the rate 30 of the
    orchestrator, and the items the scoring stage puts for them. *)
Definition all_frames : list (@pyval MetricType _ _ ndarray) :=
  puts (snd (capture_images windows now capture_image time_sleep fuel 30)).

Definition all_records : list (@pyval MetricType _ _ ndarray) :=
  snd (compute_metrics members get_no_ref_score (Got <$> all_frames)).

Definition capture_rest (pr : @proc MetricType _ _ ndarray)
    : list (@pyval MetricType _ _ ndarray) :=
  match pr with
  | Absent | Created _ => all_frames
  | Capturing _ todo _ => puts todo
  | _ => []
  end.

Definition analysis_rest (pr : @proc MetricType _ _ ndarray)
    (data : list (@pyval MetricType _ _ ndarray))
    : list (@pyval MetricType _ _ ndarray) :=
  match pr with
  | Absent | Created _ | Computing _ _ =>
    snd (compute_metrics members get_no_ref_score (Got <$> data))
  | _ => []
  end.

Definition records_ahead (s : @sys MetricType _ _ ndarray)
    : list (@pyval MetricType _ _ ndarray) :=
  queues s metrics_queue
  ++ analysis_rest (procs s process_analysis)
       (queues s packet_queue ++ capture_rest (procs s process_capture)).

Definition capture_shape (k : nat) (pr : @proc MetricType _ _ ndarray) : Prop :=
  match pr with
  | Absent => (k <= 2)%nat
  | Created t => t = capture_images_of 30 packet_queue /\ (3 <= k <= 5)%nat
  | Capturing q _ _ => q = packet_queue /\ (6 <= k <= 8)%nat
  | Exited _ => (6 <= k)%nat
  | _ => False
  end.

Definition analysis_shape (k : nat) (pr : @proc MetricType _ _ ndarray) : Prop :=
  match pr with
  | Absent => (k <= 3)%nat
  | Created t => t = compute_metrics_of packet_queue metrics_queue /\ (4 <= k <= 6)%nat
  | Computing dq rq => dq = packet_queue /\ rq = metrics_queue /\ (7 <= k <= 9)%nat
  | Exited _ => (7 <= k)%nat
  | _ => False
  end.

(** The graph process, with the items [done] that it has got. *)
Definition graph_shape (graph_dir : string) (k : nat)
    (done : list (@pyval MetricType _ _ ndarray))
    (pr : @proc MetricType _ _ ndarray) : Prop :=
  match pr with
  | Absent => (k <= 4)%nat /\ done = []
  | Created t =>
    t = graph_metrics_of graph_dir metrics_queue /\ (5 <= k <= 7)%nat /\ done = []
  | Graphing d q tl =>
    d = graph_dir /\ q = metrics_queue /\ (8 <= k <= 10)%nat
    /\ graph_loop members timeline_empty (Got <$> done) = (Unfinished, tl)
  | Graphed o tl saved =>
    (8 <= k)%nat /\ o <> Unfinished
    /\ graph_metrics members value savefig graph_dir (Got <$> done)
       = (o, tl, saved)
  | _ => False
  end.

Definition consistent (graph_dir : string) (s : @sys MetricType _ _ ndarray) : Prop :=
  exists (k : nat) (done : list (@pyval MetricType _ _ ndarray)),
    main s = drop k (run_video_processes graph_dir)
    /\ capture_shape k (procs s process_capture)
    /\ analysis_shape k (procs s process_analysis)
    /\ graph_shape graph_dir k done (procs s process_graph)
    /\ ((k <= 5)%nat -> queues s packet_queue = [])
    /\ ((k <= 6)%nat -> queues s metrics_queue = [])
    /\ all_records = done ++ records_ahead s.


(** The accumulators of a graph process that runs or has ended. *)
Definition timeline_of (pr : @proc MetricType _ _ ndarray)
    : option (@timeline MetricType _ _) :=
  match pr with
  | Graphing _ _ tl | Graphed _ tl _ => Some tl
  | _ => None
  end.

(** The capture times of the frames among the items of a channel. *)
Definition frame_times (data : list (@pyval MetricType _ _ ndarray))
    : list datetime :=
  omap (fun v => match v with PyTuple2 t _ => Some t | _ => None end) data.

End Invariant.

Arguments PyInt {MetricType _ _ ndarray} n.
Arguments Close {MetricType _ _ ndarray}.

(** ** The window lookup, window by window *)

(** The test of line 27 on a window that has an owner name. *)
Definition is_zoom_meeting (win : window) : bool :=
  match kCGWindowOwnerName win with
  | Some owner =>
    String.eqb owner "zoom.us"
    && String.eqb (default EmptyString (kCGWindowName win)) "Zoom Meeting"
  | None => false
  end.

(** A window that the loop of [get_zoom_window_id] passes by: it has an
    owner name and is not the Zoom meeting. *)
Definition passed_by (win : window) : Prop :=
  is_Some (kCGWindowOwnerName win) /\ is_zoom_meeting win = false.

(** ** [capture_image]: the pixel buffer as a strided view

    The pipeline above takes the buffer of each capture as it comes; here is
    what [capture_image] makes of the image that Quartz returns. Indices are
    natural numbers: the negative indices of numpy are left out. *)
Module Strided.

(** What Quartz hands back for a window: the image with its bytes per row,
    its width and its height, and the bytes of its data provider. *)
Record cg_image : Type := {
  CGImageGetBytesPerRow : nat;
  CGImageGetWidth : nat;
  CGImageGetHeight : nat;
  CGDataProviderCopyData : list Byte.byte
}.

(** A three-dimensional numpy array of [uint8] over a buffer: the element
    [a[y, x, c]] is the byte at [y * s0 + x * s1 + c * s2] of the buffer. *)
Record ndarray : Type := {
  shape : nat * nat * nat;
  strides : nat * nat * nat;
  np_raw_data : list Byte.byte
}.

Definition offset (a : ndarray) (y x c : nat) : nat :=
  let '(s0, s1, s2) := strides a in (y * s0 + x * s1 + c * s2)%nat.

Definition in_shape (a : ndarray) (y x c : nat) : bool :=
  let '(d0, d1, d2) := shape a in
  (y <? d0)%nat && (x <? d1)%nat && (c <? d2)%nat.

(** Reading [a[y, x, c]]: an index outside the shape is refused;
    [as_strided] checks nothing else, so an offset past the end of the
    buffer is memory that is not the buffer's. *)
Inductive element : Type :=
| Value (b : Byte.byte)
| OutsideBuffer
| IndexError.

Definition getitem (a : ndarray) (y x c : nat) : element :=
  if in_shape a y x c
  then match np_raw_data a !! offset a y x c with
       | Some b => Value b
       | None => OutsideBuffer
       end
  else IndexError.

(** Lines 33-47, on what [CGWindowListCreateImage] gives for the window. *)
Definition capture_image (CGWindowListCreateImage : Z -> cg_image)
    (window_num : Z) : ndarray :=
  let cg_image := CGWindowListCreateImage window_num in
  let bpr := CGImageGetBytesPerRow cg_image in
  let width := CGImageGetWidth cg_image in
  let height := CGImageGetHeight cg_image in
  let np_raw_data := CGDataProviderCopyData cg_image in
  {| shape := (height, width, 3%nat);
     strides := (bpr, 4%nat, 1%nat);
     np_raw_data := np_raw_data |}.

(** The rows of the image hold four bytes per pixel, maybe padding after
    them, and the data holds all the rows. *)
Definition well_laid_out (img : cg_image) : Prop :=
  (4 * CGImageGetWidth img <= CGImageGetBytesPerRow img)%nat
  /\ (CGImageGetBytesPerRow img * CGImageGetHeight img
      <= length (CGDataProviderCopyData img))%nat.

End Strided.

(** ** The packet queue of the running system *)
Section Tracking.

Context {MetricType : Type} `{Countable MetricType} {ndarray : Type}.
Variable members : list MetricType.
Variable windows : list window.
Variable now : nat -> datetime.
Variable capture_image : Z -> nat -> result ndarray.
Variable time_sleep : float -> result unit.
Variable get_no_ref_score : ndarray -> MetricType -> result float.
Variable fuel : nat.

(** What has happened on the packet queue. The items that the capture stage
    puts in all are the ones the scoring process has taken already
    ([taken]), then the ones that wait on the queue, then the ones the
    capture process has still to put; a running capture process ends the
    way [capture_images] ends; and a scoring process that has not ended has
    met, in what it has taken, nothing that makes it leave its loop. *)
Definition tracked (s : @sys MetricType _ _ ndarray) : Prop :=
  exists taken : list (@pyval MetricType _ _ ndarray),
    all_frames windows now capture_image time_sleep fuel
    = taken ++ queues s packet_queue
      ++ capture_rest windows now capture_image time_sleep fuel
           (procs s process_capture)
    /\ (forall q todo ending,
          procs s process_capture = Capturing q todo ending ->
          ending = fst (capture_images (MetricType := MetricType) windows now
                          capture_image time_sleep fuel 30))
    /\ (exited (procs s process_analysis) = false ->
        fst (compute_metrics members get_no_ref_score (Got <$> taken)) = Unfinished).

End Tracking.

(** ** The moves that are left *)
Section Remaining.

Context {MetricType : Type} `{Countable MetricType} {ndarray : Type}.
Variable windows : list window.
Variable now : nat -> datetime.
Variable capture_image : Z -> nat -> result ndarray.
Variable time_sleep : float -> result unit.
Variable fuel : nat.

(** A bound on the moves that are left in a state: the statements of the
    orchestrator; for the capture process one move per event and one to
    end; two moves for each item that is or will be on the packet queue (the
    scoring process takes it, the graph process takes the record made of
    it), one for each item on the metrics queue. *)
Definition moves_left (s : @sys MetricType _ _ ndarray) : nat :=
  (length (main s)
   + match procs s process_capture with
     | Capturing _ todo _ => 1 + length todo + 2 * length (puts todo)
     | Exited _ => 0
     | _ =>
       1 + length (snd (capture_images (MetricType := MetricType) windows now
                          capture_image time_sleep fuel 30))
       + 2 * length (all_frames (MetricType := MetricType) windows now
                       capture_image time_sleep fuel)
     end
   + 2 * length (queues s packet_queue)
   + length (queues s metrics_queue))%nat.

End Remaining.

(** ** A small instance, to run the definitions on

    Two metric kinds, a buffer that is just a number, a stub frame source
    that returns its buffer whatever the window number, a [time.sleep] that
    refuses the pauses it cannot take, a file system that takes every figure, a
    clock that advances by two seconds from one reading to the next (so one
    tick fits in the five seconds) and a scoring function that raises
    [ValueError] on buffer 3 and [RuntimeError] on buffer 7. *)
Module Demo.

Definition members : list string := ["sharpness"; "noise"]%string.
Definition value (m : string) : string := m.

Definition no_window : list window := [].

Definition finder : window :=
  {| kCGWindowOwnerName := Some "Finder"%string;
     kCGWindowName := None;
     kCGWindowNumber := Some 12 |}.

Definition zoom : window :=
  {| kCGWindowOwnerName := Some "zoom.us"%string;
     kCGWindowName := Some "Zoom Meeting"%string;
     kCGWindowNumber := Some 77 |}.

Definition now (k : nat) : datetime := 2000000 * Z.of_nat k.

(** A clock that advances by a quarter of a second per reading. *)
Definition now_fast (k : nat) : datetime := 250000 * Z.of_nat k.

(** A clock that jumps by six seconds after its first reading. *)
Definition now_late (k : nat) : datetime := 6000000 * Z.of_nat k.

(** A clock that steps back between its third and its sixth reading, and
    is past the five seconds from its eighth reading on. *)
Definition now_back (k : nat) : datetime :=
  if (k <=? 1)%nat then 0
  else if (k <=? 4)%nat then 1000000
  else if (k <=? 6)%nat then 500000
  else 6000000.

Definition raw (window_num : Z) (i : nat) : Z :=
  100 * window_num + Z.of_nat i.

Definition capture_image (window_num : Z) (i : nat) : result Z :=
  Ok (raw window_num i).

(** A frame source that raises on a number that is not the number of a
    window. *)
Definition capture_image_strict (window_num : Z) (i : nat) : result Z :=
  if window_num <? 0 then Raise (OtherError "objc.error")
  else Ok (raw window_num i).

(** A stub of [time.sleep], after the way CPython converts its argument to
    a signed 64-bit count of nanoseconds: not a number is refused with
    [ValueError], a count beyond 2^63 either way with [OverflowError], a
    negative pause, or the count 2^63 itself (which wraps to a negative
    one), with [ValueError]. *)
Definition time_sleep (secs : float) : result unit :=
  if PrimFloat.is_nan secs then Raise ValueError
  else
    let nanoseconds := PrimFloat.mul secs 1e9 in
    if PrimFloat.ltb 0x1p63 nanoseconds || PrimFloat.ltb nanoseconds (-0x1p63)
    then Raise OverflowError
    else if PrimFloat.ltb secs 0 || PrimFloat.eqb nanoseconds 0x1p63
    then Raise ValueError
    else Ok tt.

Definition savefig (image_filename : string) (fig : figure) : result unit :=
  Ok tt.

(** An enumeration with one member only. *)
Definition one_member : list string := ["sharpness"]%string.

Definition get_no_ref_score (image_data : Z) (m : string) : result float :=
  if image_data =? 3 then Raise ValueError
  else if image_data =? 7 then Raise RuntimeError
  else Ok (if String.eqb m "noise" then float_of_Z (2 * image_data)
           else float_of_Z image_data).

(** Five frames, then the sentinel, as Channel A carries them. *)
Definition five_frames : list (@pyval string _ _ Z) :=
  [PyTuple2 10 1; PyTuple2 20 2; PyTuple2 30 3; PyTuple2 40 4; PyTuple2 50 5;
   PyInt FINISH].

(** Two schedules of the system on the window list [[finder]]: in the
    first each process runs to its end before the next one moves, in the
    second the processes take turns with one another and with the
    orchestrator. [None] is a move of the orchestrator. *)
Definition stage_by_stage : list (option pid) :=
  replicate 8 None
  ++ replicate 4 (Some process_capture)
  ++ replicate 2 (Some process_analysis)
  ++ replicate 2 (Some process_graph)
  ++ replicate 3 None.

Definition taking_turns : list (option pid) :=
  replicate 6 None
  ++ [Some process_capture; None; Some process_analysis; None;
      Some process_graph; Some process_capture; Some process_capture;
      Some process_capture; None; Some process_analysis; None;
      Some process_graph; None].

(** The state a schedule leads to, from the start of the orchestrator, with
    the given fuel for the capture loop. *)
Definition run (fuel : nat) (whos : list (option pid))
    : @sys string _ _ Z :=
  default (boot "out")
    (schedule members value savefig [finder] now capture_image time_sleep
       get_no_ref_score fuel whos (boot "out")).

End Demo.

(** ** More samples

    Two windows on which the lookup raises, an image of two rows of two
    pixels with four bytes of padding at the end of each row, a scoring
    function that raises [RuntimeError] on the first frame of window -1, a
    record with the scores of both metric kinds and one without the score
    of "noise", and the state a schedule leads to on any window list, clock
    and scoring function. *)
Module Samples.

Definition ownerless : window :=
  {| kCGWindowOwnerName := None;
     kCGWindowName := Some "Zoom Meeting"%string;
     kCGWindowNumber := Some 5 |}.

Definition numberless : window :=
  {| kCGWindowOwnerName := Some "zoom.us"%string;
     kCGWindowName := Some "Zoom Meeting"%string;
     kCGWindowNumber := None |}.

Definition image : Strided.cg_image :=
  {| Strided.CGImageGetBytesPerRow := 12;
     Strided.CGImageGetWidth := 2;
     Strided.CGImageGetHeight := 2;
     Strided.CGDataProviderCopyData :=
       [Byte.x00; Byte.x01; Byte.x02; Byte.x03; Byte.x04; Byte.x05;
        Byte.x06; Byte.x07; Byte.x08; Byte.x09; Byte.x0a; Byte.x0b;
        Byte.x0c; Byte.x0d; Byte.x0e; Byte.x0f; Byte.x10; Byte.x11;
        Byte.x12; Byte.x13; Byte.x14; Byte.x15; Byte.x16; Byte.x17] |}.

Definition screen (window_num : Z) : Strided.cg_image := image.

Definition get_no_ref_score_broken (image_data : Z) (m : string) : result float :=
  if image_data =? -100 then Raise RuntimeError else Ok 0%float.

Definition full_record : @VideoMetrics string _ _ :=
  {| time := 10;
     metrics := <["sharpness"%string := 1%float]> (<["noise"%string := 2%float]> ∅) |}.

Definition partial_record : @VideoMetrics string _ _ :=
  {| time := 20; metrics := <["sharpness"%string := 3%float]> ∅ |}.

Definition run_on (windows : list window) (now : nat -> datetime)
    (get_no_ref_score : Z -> string -> result float) (fuel : nat)
    (whos : list (option pid)) : @sys string _ _ Z :=
  default (boot "out")
    (schedule Demo.members Demo.value Demo.savefig windows now
       Demo.capture_image Demo.time_sleep get_no_ref_score fuel whos
       (boot "out")).

(** The orchestrator up to its first [join], then the capture process to its
    end, then the orchestrator past that [join]. *)
Definition capture_first : list (option pid) :=
  replicate 8 None ++ [Some process_capture; None].

(** The orchestrator up to its first [join], the capture process to its end,
    then one move of the scoring process. *)
Definition capture_then_score : list (option pid) :=
  replicate 8 None ++ replicate 4 (Some process_capture)
  ++ [Some process_analysis].

(** The orchestrator up to its first [join], then the capture process until
    it has put the frame and the sentinel. *)
Definition capture_puts : list (option pid) :=
  replicate 8 None ++ replicate 2 (Some process_capture).

(** Each process to its end before the next one moves, for a capture run
    of seven ticks without pauses, and for one of two ticks with a pause in
    each. *)
Definition seven_frames : list (option pid) :=
  replicate 8 None
  ++ replicate 10 (Some process_capture)
  ++ replicate 8 (Some process_analysis)
  ++ replicate 8 (Some process_graph)
  ++ replicate 3 None.

Definition two_frames : list (option pid) :=
  replicate 8 None
  ++ replicate 7 (Some process_capture)
  ++ replicate 3 (Some process_analysis)
  ++ replicate 3 (Some process_graph)
  ++ replicate 3 None.

End Samples.

(** * Properties *)

(** ** The window lookup and the capture stage *)

Section CaptureFacts.

Context {MetricType : Type} `{Countable MetricType} {ndarray : Type}.
Variable windows : list window.
Variable now : nat -> datetime.
Variable capture_image : Z -> nat -> result ndarray.
Variable time_sleep : float -> result unit.
Variable raw : Z -> nat -> ndarray.

Local Abbreviation event := (@event MetricType _ _ ndarray).
Local Abbreviation pyval := (@pyval MetricType _ _ ndarray).
Local Abbreviation capture_tick :=
  (@capture_tick MetricType _ _ ndarray now capture_image time_sleep).
Local Abbreviation capture_loop :=
  (@capture_loop MetricType _ _ ndarray now capture_image time_sleep).
Local Abbreviation capture_images :=
  (@capture_images MetricType _ _ ndarray windows now capture_image time_sleep).
Local Abbreviation frame := (@frame MetricType _ _ ndarray now raw).
Local Abbreviation tick_events := (@tick_events MetricType _ _ ndarray now raw).
Local Abbreviation ticks_events := (@ticks_events MetricType _ _ ndarray now raw).
Local Abbreviation tick_passes := (tick_passes now capture_image time_sleep raw).
Local Abbreviation tick_fails :=
  (@tick_fails MetricType _ _ ndarray now capture_image time_sleep raw).

Lemma puts_app (evs evs' : list event) : puts (evs ++ evs') = puts evs ++ puts evs'.
Proof. apply omap_app. Qed.

Lemma sleeps_app (evs evs' : list event) :
  sleeps (evs ++ evs') = sleeps evs ++ sleeps evs'.
Proof. apply omap_app. Qed.

(** A tick that passes is its put and its pause, if it has one. *)
Lemma capture_tick_events (w : Z) (tbf : float) (i : nat) :
  tick_passes w tbf i ->
  capture_tick w tbf (2 + 3 * i)%nat i = (tick_events w tbf i, Ok tt).
Proof.
  intros [Hraw Hsleep].
  unfold capture_tick, tick_events, tick_sleep, tick_diff,
    frame in *.
  rewrite Hraw.
  replace (S (2 + 3 * i))%nat with (3 + 3 * i)%nat by lia.
  destruct (PrimFloat.ltb _ tbf); [|done].
  apply Forall_cons in Hsleep as [-> _]. done.
Qed.

(** A tick that fails: at its capture, or at its pause. *)
Lemma capture_tick_fails (w : Z) (tbf : float) (i : nat) (e : exn)
    (done : list event) :
  tick_fails w tbf i e done ->
  capture_tick w tbf (2 + 3 * i)%nat i = (done, Raise e).
Proof.
  unfold capture_tick, tick_fails, tick_sleep, tick_diff,
    frame.
  replace (S (2 + 3 * i))%nat with (3 + 3 * i)%nat by lia.
  intros [[-> ->]|(-> & Hsleep & ->)]; [done|].
  destruct (PrimFloat.ltb _ tbf); [|by apply Exists_nil in Hsleep].
  apply Exists_cons in Hsleep as [->|Hnil]; [done|by apply Exists_nil in Hnil].
Qed.

Lemma puts_tick_events (w : Z) (tbf : float) (i : nat) :
  puts (tick_events w tbf i) = [frame w i].
Proof.
  unfold tick_events, tick_sleep.
  by destruct (PrimFloat.ltb _ tbf).
Qed.

Lemma sleeps_tick_events (w : Z) (tbf : float) (i : nat) :
  sleeps (tick_events w tbf i) = tick_sleep now tbf i.
Proof.
  unfold tick_events, tick_sleep.
  by destruct (PrimFloat.ltb _ tbf).
Qed.

Lemma puts_ticks_events (w : Z) (tbf : float) (j n : nat) :
  puts (ticks_events w tbf j n) = frame w <$> seq j n.
Proof.
  unfold ticks_events. revert j.
  induction n as [|n IH]; intros j; [done|].
  cbn [seq]. rewrite !fmap_cons. cbn [concat].
  by rewrite puts_app, puts_tick_events, IH.
Qed.

Lemma sleeps_ticks_events (w : Z) (tbf : float) (j n : nat) :
  sleeps (ticks_events w tbf j n) = concat (tick_sleep now tbf <$> seq j n).
Proof.
  unfold ticks_events. revert j.
  induction n as [|n IH]; intros j; [done|].
  cbn [seq]. rewrite !fmap_cons. cbn [concat].
  by rewrite sleeps_app, sleeps_tick_events, IH.
Qed.

(** The loop, entered before tick [j], while it has fuel and its ticks pass:
    [n] ticks in order, each once, then how the next one goes. *)
Lemma capture_loop_passes (n fuel : nat) (w : Z) (tbf : float) (j : nat) :
  (forall i, (i < n)%nat -> within_deadline now (j + i) = true) ->
  (forall i, (i < n)%nat -> tick_passes w tbf (j + i)) ->
  (n <= fuel)%nat ->
  capture_loop fuel w tbf (now 0) (1 + 3 * j) j
  = (fst (capture_loop (fuel - n) w tbf (now 0) (1 + 3 * (j + n)) (j + n)),
     ticks_events w tbf j n
     ++ snd (capture_loop (fuel - n) w tbf (now 0) (1 + 3 * (j + n)) (j + n))).
Proof.
  revert fuel j.
  induction n as [|n IH]; intros fuel j Hin Hpass Hfuel.
  - replace (fuel - 0)%nat with fuel by lia.
    replace (j + 0)%nat with j by lia.
    by destruct (capture_loop fuel w tbf (now 0) (1 + 3 * j) j).
  - destruct fuel as [|fuel]; [lia|].
    cbn [capture_loop].
    pose proof (Hin 0%nat ltac:(lia)) as H0.
    replace (j + 0)%nat with j in H0 by lia.
    unfold within_deadline in H0. rewrite H0.
    replace (S (1 + 3 * j)) with (2 + 3 * j)%nat by lia.
    rewrite capture_tick_events
      by (replace j with (j + 0)%nat by lia; apply Hpass; lia).
    replace (3 + (1 + 3 * j))%nat with (1 + 3 * S j)%nat by lia.
    rewrite (IH fuel (S j)).
    + replace (S fuel - S n)%nat with (fuel - n)%nat by lia.
      replace (S j + n)%nat with (j + S n)%nat by lia.
      destruct (capture_loop (fuel - n) w tbf (now 0) _ (j + S n)) as [o evs].
      cbn [fst snd]. unfold ticks_events.
      cbn [seq]. rewrite fmap_cons. cbn [concat].
      by rewrite <- app_assoc.
    + intros i Hi. replace (S j + i)%nat with (j + S i)%nat by lia. apply Hin. lia.
    + intros i Hi. replace (S j + i)%nat with (j + S i)%nat by lia. apply Hpass. lia.
    + lia.
Qed.

(** [n] ticks pass and the test before the next one fails: the loop
    returns. *)
Lemma capture_loop_ticks (n fuel : nat) (w : Z) (tbf : float) (j : nat) :
  (forall i, (i < n)%nat -> within_deadline now (j + i) = true) ->
  (forall i, (i < n)%nat -> tick_passes w tbf (j + i)) ->
  within_deadline now (j + n) = false ->
  (n < fuel)%nat ->
  capture_loop fuel w tbf (now 0) (1 + 3 * j) j
  = (Returned, ticks_events w tbf j n ++ [Put (PyInt FINISH); Close]).
Proof.
  intros Hin Hpass Hout Hfuel.
  rewrite (capture_loop_passes n) by (done || lia).
  destruct (fuel - n)%nat as [|fuel'] eqn:Hrest; [lia|].
  cbn [capture_loop]. unfold within_deadline in Hout. by rewrite Hout.
Qed.

(** [n] ticks pass and the next one fails: its exception leaves the loop,
    and no sentinel is put. *)
Lemma capture_loop_fails (n fuel : nat) (w : Z) (tbf : float) (j : nat)
    (e : exn) (done : list event) :
  (forall i, (i < n)%nat -> within_deadline now (j + i) = true) ->
  (forall i, (i < n)%nat -> tick_passes w tbf (j + i)) ->
  within_deadline now (j + n) = true ->
  tick_fails w tbf (j + n) e done ->
  (n < fuel)%nat ->
  capture_loop fuel w tbf (now 0) (1 + 3 * j) j
  = (Raised e, ticks_events w tbf j n ++ done).
Proof.
  intros Hin Hpass Hnext Hfail Hfuel.
  rewrite (capture_loop_passes n) by (done || lia).
  destruct (fuel - n)%nat as [|fuel'] eqn:Hrest; [lia|].
  cbn [capture_loop]. unfold within_deadline in Hnext. rewrite Hnext.
  replace (S (1 + 3 * (j + n))) with (2 + 3 * (j + n))%nat by lia.
  by rewrite (capture_tick_fails _ _ _ _ _ Hfail).
Qed.

(** While the fuel lasts, the clock allows and the ticks pass, the loop is
    still running and has made one tick per unit of fuel. *)
Lemma capture_loop_running (fuel : nat) (w : Z) (tbf : float) (j : nat) :
  (forall i, (i < fuel)%nat -> within_deadline now (j + i) = true) ->
  (forall i, (i < fuel)%nat -> tick_passes w tbf (j + i)) ->
  capture_loop fuel w tbf (now 0) (1 + 3 * j) j
  = (Unfinished, ticks_events w tbf j fuel).
Proof.
  intros Hin Hpass.
  rewrite (capture_loop_passes fuel) by (done || lia).
  replace (fuel - fuel)%nat with 0%nat by lia.
  cbn [capture_loop fst snd]. by rewrite app_nil_r.
Qed.

(** [capture_images] once the window lookup and the division have passed. *)
Lemma capture_images_loop (fuel : nat) (frame_rate : float) (w : Z) :
  get_zoom_window_id windows = Ok w ->
  PrimFloat.eqb frame_rate 0 = false ->
  capture_images fuel frame_rate
  = capture_loop fuel w (PrimFloat.div 1 frame_rate) (now 0) 1 0.
Proof. intros Hw Hr. unfold capture_images. by rewrite Hw, Hr. Qed.

Lemma capture_images_ticks (n fuel : nat) (frame_rate : float) (w : Z) :
  get_zoom_window_id windows = Ok w ->
  PrimFloat.eqb frame_rate 0 = false ->
  makes_ticks now n ->
  (forall i, (i < n)%nat -> tick_passes w (PrimFloat.div 1 frame_rate) i) ->
  (n < fuel)%nat ->
  capture_images fuel frame_rate
  = (Returned,
     ticks_events w (PrimFloat.div 1 frame_rate) 0 n ++ [Put (PyInt FINISH); Close]).
Proof.
  intros Hw Hr [Hin Hout] Hpass Hfuel.
  rewrite (capture_images_loop _ _ w) by done.
  by apply (capture_loop_ticks n fuel w _ 0%nat).
Qed.

Lemma capture_images_puts (n fuel : nat) (frame_rate : float) (w : Z) :
  get_zoom_window_id windows = Ok w ->
  PrimFloat.eqb frame_rate 0 = false ->
  makes_ticks now n ->
  (forall i, (i < n)%nat -> tick_passes w (PrimFloat.div 1 frame_rate) i) ->
  (n < fuel)%nat ->
  puts (snd (capture_images fuel frame_rate))
  = (frame w <$> seq 0 n) ++ [PyInt FINISH].
Proof.
  intros Hw Hr Hn Hpass Hfuel.
  rewrite (capture_images_ticks n fuel frame_rate w) by done.
  cbn [snd]. by rewrite puts_app, puts_ticks_events.
Qed.

(** Whatever the clock, the captures and the pauses do, and whatever the
    fuel: the loop puts frames with the times of consecutive ticks, and
    after them the sentinel, exactly when it returns. *)
Lemma capture_loop_puts (fuel : nat) (w : Z) (tbf : float) (j : nat) :
  exists bufs : list ndarray,
    puts (snd (capture_loop fuel w tbf (now 0) (1 + 3 * j) j))
    = zip_with (fun i a => PyTuple2 (now (2 + 3 * i)%nat) a)
        (seq j (length bufs)) bufs
      ++ match fst (capture_loop fuel w tbf (now 0) (1 + 3 * j) j) with
         | Returned => [PyInt FINISH]
         | _ => []
         end
    /\ (fst (capture_loop fuel w tbf (now 0) (1 + 3 * j) j) = Returned ->
        exists evs,
          snd (capture_loop fuel w tbf (now 0) (1 + 3 * j) j)
          = evs ++ [Put (PyInt FINISH); Close]).
Proof.
  revert j. induction fuel as [|fuel IH]; intros j;
    cbn [capture_loop].
  - exists []. by split.
  - destruct (PrimFloat.leb _ 5); [|exists []; split; [done|by exists []]].
    replace (3 + (1 + 3 * j))%nat with (1 + 3 * S j)%nat by lia.
    replace (S (1 + 3 * j)) with (2 + 3 * j)%nat by lia.
    unfold capture_tick.
    destruct (capture_image w j) as [a|e]; [|exists []; by split].
    destruct (IH (S j)) as (bufs & Hputs & Hret).
    destruct (PrimFloat.ltb _ tbf).
    + destruct (time_sleep _) as [[]|e].
      * destruct (capture_loop fuel w tbf (now 0) _ (S j)) as [o evs].
        cbn [fst snd] in *. exists (a :: bufs). split.
        -- change (puts ([Put (PyTuple2 (now (2 + 3 * j)%nat) a); Sleep _] ++ evs))
             with (PyTuple2 (now (2 + 3 * j)%nat) a :: puts evs).
           by rewrite Hputs.
        -- intros Ho. destruct (Hret Ho) as [evs' ->].
           eexists (_ :: _ :: evs'). done.
      * exists [a]. by split.
    + destruct (capture_loop fuel w tbf (now 0) _ (S j)) as [o evs].
      cbn [fst snd] in *. exists (a :: bufs). split.
      * change (puts ([Put (PyTuple2 (now (2 + 3 * j)%nat) a)] ++ evs))
          with (PyTuple2 (now (2 + 3 * j)%nat) a :: puts evs).
        by rewrite Hputs.
      * intros Ho. destruct (Hret Ho) as [evs' ->].
        eexists (_ :: evs'). done.
Qed.

End CaptureFacts.

(** ** The scoring stage *)

Section ScoringFacts.

Context {MetricType : Type} `{Countable MetricType} {ndarray : Type}.
Variable members : list MetricType.
Variable get_no_ref_score : ndarray -> MetricType -> result float.

Local Abbreviation pyval := (@pyval MetricType _ _ ndarray).
Local Abbreviation get_result := (@get_result MetricType _ _ ndarray).
Local Abbreviation VideoMetrics := (@VideoMetrics MetricType _ _).
Local Abbreviation compute_metrics := (compute_metrics members get_no_ref_score).
Local Abbreviation compute_metrics_try := (compute_metrics_try members get_no_ref_score).

(** The comprehension adds exactly the keys it runs over, each with the
    score of that key, and leaves the other keys alone. *)
Lemma metrics_comprehension_ok (image_data : ndarray) (ms : list MetricType)
    (acc d : gmap MetricType float) :
  metrics_comprehension get_no_ref_score image_data ms acc = Ok d ->
  dom d = dom acc ∪ list_to_set ms
  /\ (forall m, m ∈ ms -> exists s,
        get_no_ref_score image_data m = Ok s /\ d !! m = Some s)
  /\ (forall m, m ∉ ms -> d !! m = acc !! m).
Proof.
  revert acc.
  induction ms as [|m0 ms IH]; intros acc Hd; cbn [metrics_comprehension] in Hd.
  - injection Hd as <-. split; [set_solver|]. split; [|done].
    intros m Hm. by apply elem_of_nil in Hm.
  - destruct (get_no_ref_score image_data m0) as [s0|e] eqn:Hs0; [|done].
    destruct (IH _ Hd) as (Hdom & Hin & Hout).
    split; [rewrite Hdom, dom_insert_L; set_solver|].
    split.
    + intros m Hm.
      destruct (decide (m ∈ ms)) as [Hms|Hms]; [by apply Hin|].
      apply elem_of_cons in Hm as [->|Hm]; [|done].
      exists s0. split; [done|].
      by rewrite (Hout _ Hms), lookup_insert_eq.
    + intros m Hm. apply not_elem_of_cons in Hm as [Hne Hm].
      by rewrite (Hout _ Hm), lookup_insert_ne.
Qed.

(** The comprehension raises exactly when one of the keys does. *)
Lemma metrics_comprehension_total (image_data : ndarray) (ms : list MetricType)
    (acc : gmap MetricType float) :
  (forall m, m ∈ ms -> exists s, get_no_ref_score image_data m = Ok s) ->
  exists d, metrics_comprehension get_no_ref_score image_data ms acc = Ok d.
Proof.
  revert acc.
  induction ms as [|m0 ms IH]; intros acc Hall; cbn [metrics_comprehension].
  - by eexists.
  - destruct (Hall m0) as [s0 ->]; [by left|].
    apply IH. intros m Hm. apply Hall. by right.
Qed.

(** A frame is scored when the iteration that gets it puts a record. *)
Lemma compute_metrics_try_Next (g : get_result) (v : pyval) :
  compute_metrics_try g = Next v ->
  exists t image_data d,
    g = Got (PyTuple2 t image_data)
    /\ metrics_comprehension get_no_ref_score image_data members ∅ = Ok d
    /\ v = PyVideoMetrics {| time := t; metrics := d |}.
Proof.
  unfold compute_metrics_try.
  destruct g as [[n|t a|r]|e]; cbn [is_FINISH]; try done.
  - by destruct (n =? FINISH).
  - destruct (metrics_comprehension _ _ _ _) as [d|e] eqn:Hd; [|done].
    intros [= <-]. by exists t, a, d.
Qed.

Lemma except_ValueError_Next {A : Type} (f : flow A) (a : A) :
  except_ValueError f = Next a -> f = Next a.
Proof. by destruct f as [?| |[]]. Qed.

(** A queue that runs dry leaves the stage waiting; what it did so far
    stays when more arrives. *)
Lemma compute_metrics_app (pre rest : list get_result) (out : list pyval) :
  compute_metrics pre = (Unfinished, out) ->
  compute_metrics (pre ++ rest)
  = (fst (compute_metrics rest), out ++ snd (compute_metrics rest)).
Proof.
  revert out.
  induction pre as [|g pre IH]; intros out Hpre; cbn [compute_metrics] in *.
  - injection Hpre as <-. rewrite app_nil_l. by destruct (compute_metrics rest).
  - rewrite <- app_comm_cons. cbn [compute_metrics].
    destruct (except_ValueError (compute_metrics_try g)) as [v| |e]; [|done..].
    destruct (compute_metrics pre) as [o' out'] eqn:Hpre'.
    injection Hpre as -> <-.
    by rewrite (IH out').
Qed.

(** Every item of the result queue but the sentinel is a record, and the
    sentinel is there exactly when the loop was left by [break]. *)
Lemma compute_metrics_out (gets : list get_result) (o : outcome) (out : list pyval) :
  compute_metrics gets = (o, out) ->
  exists recs : list VideoMetrics,
    out = (PyVideoMetrics <$> recs)
          ++ match o with Returned => [PyInt FINISH] | _ => [] end.
Proof.
  revert o out.
  induction gets as [|g gets IH]; intros o out Hrun; cbn [compute_metrics] in Hrun.
  - injection Hrun as <- <-. by exists [].
  - destruct (except_ValueError (compute_metrics_try g)) as [v| |e] eqn:Hg.
    + destruct (compute_metrics gets) as [o' out'] eqn:Hrun'.
      injection Hrun as <- <-.
      destruct (IH _ _ eq_refl) as [recs ->].
      apply except_ValueError_Next, compute_metrics_try_Next in Hg
        as (t & a & d & _ & _ & ->).
      by exists ({| time := t; metrics := d |} :: recs).
    + injection Hrun as <- <-. by exists [].
    + injection Hrun as <- <-. by exists [].
Qed.

(** The [i]-th item put comes from the [i]-th item got. *)
Lemma compute_metrics_lookup (gets : list get_result) (i : nat) (v : pyval) :
  snd (compute_metrics gets) !! i = Some v ->
  is_FINISH v = false ->
  exists g, gets !! i = Some g /\ compute_metrics_try g = Next v.
Proof.
  revert i.
  induction gets as [|g gets IH]; intros i Hi Hv; cbn [compute_metrics] in Hi.
  - done.
  - destruct (except_ValueError (compute_metrics_try g)) as [v'| |e] eqn:Hg.
    + destruct (compute_metrics gets) as [o' out'] eqn:Hrun'.
      cbn [snd] in *.
      destruct i as [|i]; cbn in Hi.
      * injection Hi as ->. exists g. split; [done|].
        by apply except_ValueError_Next.
      * destruct (IH i Hi Hv) as (g' & Hg' & Htry). by exists g'.
    + cbn [snd] in Hi. destruct i as [|i]; cbn in Hi; [|done].
      injection Hi as <-. done.
    + done.
Qed.

End ScoringFacts.

(** ** The graph stage *)

Section GraphFacts.

Context {MetricType : Type} `{Countable MetricType} {ndarray : Type}.
Variable members : list MetricType.
Variable value : MetricType -> string.
Variable savefig : string -> figure -> result unit.

Local Abbreviation pyval := (@pyval MetricType _ _ ndarray).
Local Abbreviation get_result := (@get_result MetricType _ _ ndarray).
Local Abbreviation VideoMetrics := (@VideoMetrics MetricType _ _).
Local Abbreviation timeline := (@timeline MetricType _ _).
Local Abbreviation graph_loop := (@graph_loop MetricType _ _ members ndarray).
Local Abbreviation graph_metrics_try := (@graph_metrics_try MetricType _ _ members ndarray).
Local Abbreviation graph_metrics :=
  (@graph_metrics MetricType _ _ members value ndarray savefig).
Local Abbreviation graph_finish := (graph_finish members value savefig).
Local Abbreviation plot := (plot members value).
Local Abbreviation graph_from :=
  (@graph_from MetricType _ _ ndarray members value savefig).
Local Abbreviation with_record := (with_record members).
Local Abbreviation complete := (complete members).

#[local] Instance extends_refl : Reflexive (@extends MetricType _ _).
Proof. by intros tl; split. Qed.

#[local] Instance extends_trans : Transitive (@extends MetricType _ _).
Proof.
  intros tl1 tl2 tl3 [Ht12 Hs12] [Ht23 Hs23].
  split; [by trans (times tl2)|].
  intros m. by trans (image_scores tl2 !!! m).
Qed.

(** The loop over the members only appends to the columns. *)
Lemma append_scores_prefix (d : gmap MetricType float) (ms : list MetricType)
    (sc : gmap MetricType (list float)) (m : MetricType) :
  (sc !!! m) `prefix_of` (fst (append_scores d ms sc) !!! m).
Proof.
  revert sc.
  induction ms as [|m0 ms IH]; intros sc; cbn [append_scores]; [done|].
  destruct (d !! m0) as [s|].
  - etrans; [|apply IH].
    destruct (decide (m0 = m)) as [->|Hne].
    + rewrite lookup_total_insert_eq. by apply prefix_app_r.
    + by rewrite lookup_total_insert_ne.
  - cbn [fst].
    destruct (decide (m0 = m)) as [->|Hne].
    + by rewrite lookup_total_insert_eq.
    + by rewrite lookup_total_insert_ne.
Qed.

(** On a record with every key the loop over the members raises nothing. *)
Lemma append_scores_Ok (d : gmap MetricType float) (ms : list MetricType)
    (sc : gmap MetricType (list float)) :
  (forall m, m ∈ ms -> is_Some (d !! m)) ->
  snd (append_scores d ms sc) = Ok tt.
Proof.
  revert sc.
  induction ms as [|m0 ms IH]; intros sc Hall; cbn [append_scores]; [done|].
  destruct (Hall m0) as [s ->]; [by left|].
  apply IH. intros m Hm. apply Hall. by right.
Qed.

(** Each member once: each column takes the one score of its key. *)
Lemma append_scores_column (d : gmap MetricType float) (ms : list MetricType)
    (sc : gmap MetricType (list float)) (m : MetricType) :
  NoDup ms ->
  (forall m', m' ∈ ms -> is_Some (d !! m')) ->
  fst (append_scores d ms sc) !!! m
  = sc !!! m ++ (if decide (m ∈ ms) then option_list (d !! m) else []).
Proof.
  revert sc.
  induction ms as [|m0 ms IH]; intros sc Hnd Hall; cbn [append_scores].
  - rewrite decide_False by apply not_elem_of_nil. by rewrite app_nil_r.
  - apply NoDup_cons in Hnd as [Hm0 Hnd].
    destruct (Hall m0) as [s Hs]; [by left|]. rewrite Hs.
    rewrite IH; [|done|by intros m' Hm'; apply Hall; right].
    destruct (decide (m0 = m)) as [->|Hne].
    + rewrite lookup_total_insert_eq, Hs.
      rewrite (decide_False (P := m ∈ ms)) by done.
      rewrite (decide_True (P := m ∈ m :: ms)) by by left.
      by rewrite app_nil_r.
    + rewrite lookup_total_insert_ne by done.
      destruct (decide (m ∈ ms)) as [Hin|Hin].
      * by rewrite (decide_True (P := m ∈ m0 :: ms)) by by right.
      * rewrite (decide_False (P := m ∈ m0 :: ms)); [done|].
        by intros [->|?]%elem_of_cons.
Qed.

Lemma graph_metrics_try_record (tl : timeline) (r : VideoMetrics) :
  complete r ->
  graph_metrics_try tl (Got (PyVideoMetrics r)) = (with_record tl r, Next tt).
Proof.
  intros Hr. unfold graph_metrics_try, with_record.
  cbn [is_FINISH].
  pose proof (append_scores_Ok (metrics r) members (image_scores tl) Hr) as Hok.
  destruct (append_scores _ _ _) as [sc res]. cbn [snd fst] in *. by subst res.
Qed.

Lemma graph_metrics_try_extends (tl : timeline) (g : get_result) :
  extends tl (fst (graph_metrics_try tl g)).
Proof.
  unfold graph_metrics_try.
  destruct g as [v|e]; [|done].
  destruct (is_FINISH v); [done|].
  destruct v as [n|t a|r]; [done..|].
  pose proof (append_scores_prefix (metrics r) members (image_scores tl)) as Hp.
  destruct (append_scores _ _ _) as [sc res]. cbn [fst] in *.
  split; [by apply prefix_app_r|done].
Qed.

(** Whatever the loop meets, it only adds to the accumulators. *)
Lemma graph_loop_extends (tl : timeline) (gets : list get_result) :
  extends tl (snd (graph_loop tl gets)).
Proof.
  revert tl.
  induction gets as [|g gets IH]; intros tl; cbn [graph_loop]; [done|].
  pose proof (graph_metrics_try_extends tl g) as Hg.
  destruct (graph_metrics_try tl g) as [tl' f]. cbn [fst] in Hg.
  destruct (except_ValueError f) as [[]| |e]; [|done..].
  by trans tl'.
Qed.

Lemma graph_loop_app (tl tl' : timeline) (pre rest : list get_result) :
  graph_loop tl pre = (Unfinished, tl') ->
  graph_loop tl (pre ++ rest) = graph_loop tl' rest.
Proof.
  revert tl.
  induction pre as [|g pre IH]; intros tl Hpre; cbn [graph_loop] in Hpre.
  - by injection Hpre as ->.
  - rewrite <- app_comm_cons. cbn [graph_loop].
    destruct (graph_metrics_try tl g) as [tl1 f].
    destruct (except_ValueError f) as [[]| |e]; [|done..].
    by apply IH.
Qed.

Lemma graph_loop_records (tl : timeline) (recs : list VideoMetrics) :
  Forall complete recs ->
  graph_loop tl (Got <$> (PyVideoMetrics <$> recs))
  = (Unfinished, foldl with_record tl recs).
Proof.
  intros Hall. revert tl.
  induction Hall as [|r recs Hr Hall IH]; intros tl; [done|].
  rewrite !fmap_cons. cbn [graph_loop foldl].
  rewrite graph_metrics_try_record by done. cbn [except_ValueError].
  apply IH.
Qed.

Lemma times_foldl_with_record (tl : timeline) (recs : list VideoMetrics) :
  times (foldl with_record tl recs) = times tl ++ (time <$> recs).
Proof.
  revert tl.
  induction recs as [|r recs IH]; intros tl; cbn [foldl].
  - by rewrite app_nil_r.
  - rewrite IH. cbn [with_record times]. by rewrite <- app_assoc.
Qed.

Lemma column_foldl_with_record (tl : timeline) (recs : list VideoMetrics)
    (m : MetricType) :
  NoDup members -> Forall complete recs -> m ∈ members ->
  image_scores (foldl with_record tl recs) !!! m
  = image_scores tl !!! m ++ column m recs.
Proof.
  intros Hnd Hall Hm. revert tl.
  induction Hall as [|r recs Hr Hall IH]; intros tl; cbn [foldl].
  - by rewrite app_nil_r.
  - rewrite IH. cbn [with_record image_scores].
    rewrite append_scores_column by done.
    rewrite decide_True by done.
    destruct (Hr m Hm) as [s Hs].
    unfold column. cbn [omap list_omap]. rewrite Hs. cbn [option_list].
    by rewrite <- app_assoc.
Qed.

Lemma graph_metrics_from (graph_dir : string) (gets : list get_result) :
  graph_metrics graph_dir gets = graph_from graph_dir timeline_empty gets.
Proof. reflexivity. Qed.

(** The loop over the members raises nothing only on a record with every
    key. *)
Lemma append_scores_Ok_complete (d : gmap MetricType float) (ms : list MetricType)
    (sc : gmap MetricType (list float)) :
  snd (append_scores d ms sc) = Ok tt ->
  forall m, m ∈ ms -> is_Some (d !! m).
Proof.
  revert sc.
  induction ms as [|m0 ms IH]; intros sc Hok m Hm; [by apply elem_of_nil in Hm|].
  cbn [append_scores] in Hok.
  destruct (d !! m0) as [s|] eqn:Hs; [|done].
  apply elem_of_cons in Hm as [->|Hm]; [by rewrite Hs|].
  by apply (IH _ Hok).
Qed.

(** A key that the record lacks stops the loop over the members with
    [KeyError]. *)
Lemma append_scores_KeyError (d : gmap MetricType float) (ms : list MetricType)
    (sc : gmap MetricType (list float)) (m : MetricType) :
  m ∈ ms -> d !! m = None ->
  snd (append_scores d ms sc) = Raise KeyError.
Proof.
  revert sc.
  induction ms as [|m0 ms IH]; intros sc Hm Hd; [by apply elem_of_nil in Hm|].
  cbn [append_scores].
  destruct (d !! m0) as [s|] eqn:Hs; [|done].
  apply elem_of_cons in Hm as [->|Hm]; [congruence|].
  by apply IH.
Qed.

(** The column of a key that the record lacks gets no score. *)
Lemma append_scores_missing (d : gmap MetricType float) (ms : list MetricType)
    (sc : gmap MetricType (list float)) (m : MetricType) :
  d !! m = None ->
  fst (append_scores d ms sc) !!! m = sc !!! m.
Proof.
  intros Hd. revert sc.
  induction ms as [|m0 ms IH]; intros sc; cbn [append_scores]; [done|].
  destruct (d !! m0) as [s|] eqn:Hs.
  - rewrite IH. apply lookup_total_insert_ne. congruence.
  - cbn [fst]. destruct (decide (m0 = m)) as [->|Hne].
    + by rewrite lookup_total_insert_eq.
    + by rewrite lookup_total_insert_ne.
Qed.

(** An iteration that goes on to the next one has got a record with every
    key; an iteration that breaks has got the sentinel, or its [get] raised
    [ValueError], and the accumulators are as before. *)
Lemma graph_metrics_try_Next (tl tl' : timeline) (g : get_result) (f : flow unit) :
  graph_metrics_try tl g = (tl', f) ->
  except_ValueError f = Next tt ->
  exists r, g = Got (PyVideoMetrics r) /\ complete r /\ tl' = with_record tl r.
Proof.
  unfold graph_metrics_try.
  destruct g as [v|e]; [|intros [= <- <-]; by destruct e].
  destruct (is_FINISH v); [by intros [= <- <-]|].
  destruct v as [n|t a|r]; [by intros [= <- <-]..|].
  pose proof (append_scores_Ok_complete (metrics r) members (image_scores tl)) as Hc.
  destruct (append_scores _ _ _) as [sc res] eqn:Happ. cbn [fst snd] in Hc.
  intros [= <- <-] Hf. exists r. split; [done|].
  split; [|unfold with_record; by rewrite Happ].
  intros m Hm. apply Hc; [|done]. destruct res as [[]|e]; [done|by destruct e].
Qed.

Lemma graph_metrics_try_Brk (tl tl' : timeline) (g : get_result) (f : flow unit) :
  graph_metrics_try tl g = (tl', f) ->
  except_ValueError f = Brk ->
  (g = Got (PyInt FINISH) \/ g = GetRaises ValueError) /\ tl' = tl.
Proof.
  unfold graph_metrics_try.
  destruct g as [v|e].
  - destruct (is_FINISH v) eqn:Hv.
    + intros [= <- <-] _. split; [|done]. left.
      destruct v as [n|t a|r]; try done.
      cbn [is_FINISH] in Hv. apply Z.eqb_eq in Hv. by subst n.
    + destruct v as [n|t a|r]; [by intros [= <- <-]..|].
      pose proof (append_scores_KeyError (metrics r) members (image_scores tl)) as Hk.
      destruct (append_scores _ _ _) as [sc res] eqn:Happ.
      intros [= <- <-] Hf. exfalso.
      destruct res as [[]|e]; [done|].
      assert (e = KeyError) as ->; [|done].
      revert Happ. clear. revert sc. generalize (image_scores tl).
      induction members as [|m0 ms IH]; intros sc0 sc; cbn [append_scores];
        [done|].
      destruct (metrics r !! m0); [apply IH|]. by intros [= _ <-].
  - intros [= <- <-] Hf. split; [|done]. right. by destruct e.
Qed.

(** A loop that was left by [break] has got records with every key and then
    the sentinel or a [ValueError] of its [get]. *)
Lemma graph_loop_Returned (tl0 tl : timeline) (gets : list get_result) :
  graph_loop tl0 gets = (Returned, tl) ->
  exists (recs : list VideoMetrics) (g : get_result) (rest : list get_result),
    gets = (Got <$> (PyVideoMetrics <$> recs)) ++ g :: rest
    /\ Forall complete recs
    /\ (g = Got (PyInt FINISH) \/ g = GetRaises ValueError)
    /\ tl = foldl with_record tl0 recs.
Proof.
  revert tl0.
  induction gets as [|g gets IH]; intros tl0 Hloop; cbn [graph_loop] in Hloop;
    [done|].
  destruct (graph_metrics_try tl0 g) as [tl1 f] eqn:Htry.
  destruct (except_ValueError f) as [[]| |e] eqn:Hf; [| |done].
  - destruct (graph_metrics_try_Next _ _ _ _ Htry Hf) as (r & -> & Hr & ->).
    destruct (IH _ Hloop) as (recs & g' & rest & -> & Hrecs & Hg' & ->).
    exists (r :: recs), g', rest.
    split; [done|]. split; [by constructor|]. done.
  - destruct (graph_metrics_try_Brk _ _ _ _ Htry Hf) as [Hg ->].
    injection Hloop as <-.
    exists [], g, gets. split; [done|]. split; [constructor|]. done.
Qed.

Lemma length_column (m : MetricType) (recs : list VideoMetrics) :
  m ∈ members -> Forall complete recs ->
  length (column m recs) = length recs.
Proof.
  intros Hm. induction 1 as [|r recs Hr _ IH]; [done|].
  unfold column. cbn [omap list_omap].
  destruct (Hr m Hm) as [s ->]. cbn [length]. by f_equal.
Qed.

(** A loop that still waits has got records with every key, and nothing
    else. *)
Lemma graph_loop_Unfinished (tl0 tl : timeline) (gets : list get_result) :
  graph_loop tl0 gets = (Unfinished, tl) ->
  exists recs : list VideoMetrics,
    gets = Got <$> (PyVideoMetrics <$> recs)
    /\ Forall complete recs
    /\ tl = foldl with_record tl0 recs.
Proof.
  revert tl0.
  induction gets as [|g gets IH]; intros tl0 Hloop; cbn [graph_loop] in Hloop.
  - injection Hloop as <-. by exists [].
  - destruct (graph_metrics_try tl0 g) as [tl1 f] eqn:Htry.
    destruct (except_ValueError f) as [[]| |e] eqn:Hf; [|done..].
    destruct (graph_metrics_try_Next _ _ _ _ Htry Hf) as (r & -> & Hr & ->).
    destruct (IH _ Hloop) as (recs & -> & Hrecs & ->).
    exists (r :: recs). split; [done|]. split; [by constructor|done].
Qed.

(** ** Plotting and saving *)

(** The lines after the loop end the stage: it returns or an exception
    leaves it, and the accumulators are those of the loop. *)
Lemma graph_finish_ended (graph_dir : string) (tl : timeline) :
  (graph_finish graph_dir tl).1.1 <> Unfinished
  /\ (graph_finish graph_dir tl).1.2 = tl.
Proof.
  unfold graph_finish.
  destruct (plot graph_dir tl) as [fig|e]; [|done].
  by destruct (savefig _ fig) as [[]|e].
Qed.

(** With two members or more, all distinct, the accumulators of records
    that have every key are plotted: each row gets as many scores as
    times. *)
Lemma plot_records (graph_dir : string) (recs : list VideoMetrics) :
  NoDup members ->
  (2 <= length members)%nat ->
  Forall complete recs ->
  plot graph_dir (foldl with_record timeline_empty recs)
  = Ok {| rows := plot_row value (foldl with_record timeline_empty recs)
                    <$> members;
          image_filename := graph_dir ++ "/" ++ "frame_timeline.png" |}.
Proof.
  intros Hnd Hlen Hrecs.
  assert (forallb (plot_date_fits (foldl with_record timeline_empty recs)) members
          = true) as Hfits.
  { apply forallb_forall. intros m Hm%list_elem_of_In.
    unfold plot_date_fits. apply Nat.eqb_eq.
    rewrite times_foldl_with_record, column_foldl_with_record by done.
    cbn [timeline_empty times image_scores app]. rewrite lookup_total_empty.
    rewrite length_app, length_column, length_fmap by done. done. }
  unfold plot. rewrite Hfits.
  destruct members as [|m1 [|m2 ms]]; cbn [length] in Hlen; [lia..|done].
Qed.

(** With fewer than two members nothing is plotted. *)
Lemma plot_few_members (graph_dir : string) (tl : timeline) :
  (length members < 2)%nat ->
  plot graph_dir tl
  = Raise (match members with [] => ValueError | _ => TypeError end).
Proof.
  unfold plot. destruct members as [|m1 [|m2 ms]]; cbn [length]; [done..|lia].
Qed.

End GraphFacts.

(** ** Claims on the capture stage *)

Section CaptureClaims.

Context {MetricType : Type} `{Countable MetricType} {ndarray : Type}.
Variable windows : list window.
Variable now : nat -> datetime.
Variable capture_image : Z -> nat -> result ndarray.
Variable time_sleep : float -> result unit.
Variable raw : Z -> nat -> ndarray.

Local Abbreviation event := (@event MetricType _ _ ndarray).
Local Abbreviation pyval := (@pyval MetricType _ _ ndarray).
Local Abbreviation capture_tick :=
  (@capture_tick MetricType _ _ ndarray now capture_image time_sleep).
Local Abbreviation capture_loop :=
  (@capture_loop MetricType _ _ ndarray now capture_image time_sleep).
Local Abbreviation capture_images :=
  (@capture_images MetricType _ _ ndarray windows now capture_image time_sleep).
Local Abbreviation frame := (@frame MetricType _ _ ndarray now raw).
Local Abbreviation ticks_events := (@ticks_events MetricType _ _ ndarray now raw).
Local Abbreviation tick_passes := (tick_passes now capture_image time_sleep raw).
Local Abbreviation tick_fails :=
  (@tick_fails MetricType _ _ ndarray now capture_image time_sleep raw).

(** The first tick of the loop. *)
Lemma capture_loop_first (fuel : nat) (w : Z) (tbf : float) :
  (0 < fuel)%nat ->
  (within_deadline now 0 = false ->
   capture_loop fuel w tbf (now 0) 1 0 = (Returned, [Put (PyInt FINISH); Close]))
  /\ (within_deadline now 0 = true ->
      (forall a, capture_image w 0 = Ok a ->
         exists rest,
           puts (snd (capture_loop fuel w tbf (now 0) 1 0))
           = PyTuple2 (now 2) a :: rest)
      /\ (forall e, capture_image w 0 = Raise e ->
            capture_loop fuel w tbf (now 0) 1 0 = (Raised e, []))).
Proof.
  intros Hfuel. destruct fuel as [|fuel]; [lia|].
  cbn [capture_loop]. unfold within_deadline.
  change (1 + 3 * 0)%nat with 1%nat.
  split; [by intros ->|]. intros ->.
  unfold capture_tick. split.
  - intros a ->.
    destruct (PrimFloat.ltb _ tbf).
    + destruct (time_sleep _) as [[]|e]; [|by eexists].
      destruct (capture_loop fuel w tbf (now 0) _ _) as [o evs]. by eexists.
    + destruct (capture_loop fuel w tbf (now 0) _ _) as [o evs]. by eexists.
  - by intros e ->.
Qed.

(** C4. One tick of the capture loop, entered after [k] clock readings and
    [tick] captures, captures once and, when the capture returns, puts that
    one frame; with [diff = t_end - t_start] it then calls [time.sleep] on
    exactly [time_between_frame - diff] when [diff < time_between_frame]
    and does not pause at all otherwise. A run on a target rate
    [frame_rate] whose first [n] ticks pass (each capture returns, each
    pause is one that [time.sleep] returns from) has made the ticks
    [0 .. n-1] in order, each once (the [i]-th frame comes from the [i]-th
    capture); if the test of the loop then fails, the sentinel follows and
    the pauses of the run are those of its ticks, on the interval
    [1 / frame_rate]; if the next tick fails, at its capture or at its
    pause, the exception leaves the stage there and no sentinel is put. *)
Theorem capture_images_pacing (n fuel : nat) (frame_rate : float) (w : Z) :
  get_zoom_window_id windows = Ok w ->
  PrimFloat.eqb frame_rate 0 = false ->
  (forall i, (i < n)%nat -> within_deadline now i = true) ->
  (forall i, (i < n)%nat -> tick_passes w (PrimFloat.div 1 frame_rate) i) ->
  (n < fuel)%nat ->
  (forall (tbf : float) (k tick : nat),
     let diff := total_seconds (now (S k) - now k) in
     (forall e, capture_image w tick = Raise e ->
        capture_tick w tbf k tick = ([], Raise e))
     /\ (forall a, capture_image w tick = Ok a ->
           puts (fst (capture_tick w tbf k tick)) = [PyTuple2 (now k) a]
           /\ capture_tick w tbf k tick
              = if PrimFloat.ltb diff tbf
                then match time_sleep (PrimFloat.sub tbf diff) with
                     | Ok _ =>
                       ([Put (PyTuple2 (now k) a); Sleep (PrimFloat.sub tbf diff)],
                        Ok tt)
                     | Raise e => ([Put (PyTuple2 (now k) a)], Raise e)
                     end
                else ([Put (PyTuple2 (now k) a)], Ok tt)))
  /\ (within_deadline now n = false ->
      capture_images fuel frame_rate
      = (Returned,
         ticks_events w (PrimFloat.div 1 frame_rate) 0 n
         ++ [Put (PyInt FINISH); Close])
      /\ puts (snd (capture_images fuel frame_rate))
         = (frame w <$> seq 0 n) ++ [PyInt FINISH]
      /\ sleeps (snd (capture_images fuel frame_rate))
         = concat (tick_sleep now (PrimFloat.div 1 frame_rate) <$> seq 0 n))
  /\ (within_deadline now n = true ->
      forall (e : exn) (done : list event),
        tick_fails w (PrimFloat.div 1 frame_rate) n e done ->
        capture_images fuel frame_rate
        = (Raised e, ticks_events w (PrimFloat.div 1 frame_rate) 0 n ++ done)
        /\ puts (snd (capture_images fuel frame_rate))
           = (frame w <$> seq 0 n) ++ puts done
        /\ sleeps (snd (capture_images fuel frame_rate))
           = concat (tick_sleep now (PrimFloat.div 1 frame_rate) <$> seq 0 n)
        /\ Forall (fun v => is_FINISH v = false)
             (puts (snd (capture_images fuel frame_rate)))).
Proof.
  intros Hw Hr Hin Hpass Hfuel. split; [|split].
  - intros tbf k tick diff. unfold capture_tick. fold diff. split.
    + by intros e ->.
    + intros a ->. split; [|done].
      destruct (PrimFloat.ltb diff tbf); [|done].
      by destruct (time_sleep _) as [[]|e].
  - intros Hout.
    rewrite (capture_images_ticks windows now capture_image time_sleep raw
               n fuel frame_rate w) by done.
    split; [done|]. cbn [snd].
    rewrite puts_app, sleeps_app, puts_ticks_events, sleeps_ticks_events.
    split; [done|]. cbn. by rewrite app_nil_r.
  - intros Hnext e done Hfail.
    rewrite (capture_images_loop windows now capture_image time_sleep _ _ w)
      by done.
    rewrite (capture_loop_fails now capture_image time_sleep raw n fuel w _
               0%nat e done) by done.
    split; [done|]. cbn [snd].
    rewrite puts_app, sleeps_app, puts_ticks_events, sleeps_ticks_events.
    split; [done|].
    assert (sleeps done = [] /\ Forall (fun v : pyval => is_FINISH v = false) (puts done))
      as [-> Hdone].
    { destruct Hfail as [[_ ->]|(_ & _ & ->)]; split; try done.
      by repeat constructor. }
    split; [by rewrite app_nil_r|].
    apply Forall_app. split; [|done].
    apply Forall_fmap, Forall_true. done.
Qed.

(** C9, as the code has it. The first test of the loop compares two
    successive readings of the clock, and nothing bounds the time between
    them: when the second is more than five seconds after the first, the
    loop body never runs and the run puts the sentinel alone. A frame is the
    first item of the run exactly when the first test passes and the first
    capture returns; when that capture raises, nothing is put at all. *)
Theorem capture_images_first_frame (fuel : nat) (frame_rate : float) (w : Z) :
  get_zoom_window_id windows = Ok w ->
  PrimFloat.eqb frame_rate 0 = false ->
  (0 < fuel)%nat ->
  (within_deadline now 0 = false ->
   capture_images fuel frame_rate = (Returned, [Put (PyInt FINISH); Close])
   /\ puts (snd (capture_images fuel frame_rate)) = [PyInt FINISH])
  /\ (within_deadline now 0 = true ->
      (forall a, capture_image w 0 = Ok a ->
         exists rest,
           puts (snd (capture_images fuel frame_rate))
           = PyTuple2 (now 2) a :: rest)
      /\ (forall e, capture_image w 0 = Raise e ->
            capture_images fuel frame_rate = (Raised e, [])))
  /\ ((exists t a rest,
         puts (snd (capture_images fuel frame_rate)) = PyTuple2 t a :: rest)
      <-> within_deadline now 0 = true /\ exists a, capture_image w 0 = Ok a).
Proof.
  intros Hw Hr Hfuel.
  rewrite (capture_images_loop windows now capture_image time_sleep _ _ w)
    by done.
  destruct (capture_loop_first fuel w (PrimFloat.div 1 frame_rate) Hfuel)
    as [Hlate Hfirst].
  split; [|split].
  - intros Hout. by rewrite (Hlate Hout).
  - done.
  - destruct (within_deadline now 0) eqn:Hin.
    + destruct (Hfirst eq_refl) as [Hok Hraise].
      destruct (capture_image w 0) as [a|e] eqn:Ha.
      * destruct (Hok a eq_refl) as [rest Hrest].
        split; [by eauto|]. intros _. by exists (now 2), a, rest.
      * rewrite (Hraise e eq_refl).
        split; [by intros (t & a & rest & ?)|by intros [_ [a ?]]].
    + rewrite (Hlate eq_refl).
      split; [by intros (t & a & rest & ?)|by intros [? _]].
Qed.

(** What the lookup gives when no window is the Zoom meeting. *)
Lemma get_zoom_window_id_no_meeting :
  Forall (fun win => is_zoom_meeting win = false) windows ->
  (Forall passed_by windows -> get_zoom_window_id windows = Ok (-1))
  /\ (Exists (fun win => kCGWindowOwnerName win = None) windows ->
      get_zoom_window_id windows = Raise KeyError).
Proof.
  induction 1 as [|win wins Hwin _ [IHok IHraise]]; split.
  - done.
  - by intros ?%Exists_nil.
  - intros [[[owner Howner] _] Hwins]%Forall_cons.
    cbn [get_zoom_window_id]. unfold is_zoom_meeting in Hwin.
    rewrite Howner in Hwin |- *. rewrite Hwin. by apply IHok.
  - intros Hex. cbn [get_zoom_window_id]. unfold is_zoom_meeting in Hwin.
    destruct (kCGWindowOwnerName win) as [owner|] eqn:Howner; [|done].
    rewrite Hwin. apply IHraise.
    apply Exists_cons in Hex as [Hnone|Hex]; [congruence|done].
Qed.

(** C3, as the code has it. When no window of the list is the Zoom meeting
    there is no [TargetNotFoundError]. If every window has an owner name,
    [get_zoom_window_id] raises nothing and returns -1; [capture_images]
    does not look at that: it goes on to [1/frame_rate], reads the clock
    and enters its loop with window number -1, and when the first test of
    the loop passes it calls [capture_image(-1)]: if that call returns a
    buffer, the buffer is put on Channel A with its time, if it raises,
    that exception leaves the stage with nothing put. If some window has no
    owner name, the lookup raises [KeyError], which leaves [capture_images]
    before the loop with nothing put. *)
Theorem capture_images_window_not_found (fuel : nat) (frame_rate : float) :
  Forall (fun win => is_zoom_meeting win = false) windows ->
  (Forall passed_by windows ->
   get_zoom_window_id windows = Ok (-1)
   /\ (PrimFloat.eqb frame_rate 0 = false ->
       capture_images fuel frame_rate
       = capture_loop fuel (-1) (PrimFloat.div 1 frame_rate) (now 0) 1 0
       /\ ((0 < fuel)%nat -> within_deadline now 0 = true ->
           (forall a, capture_image (-1) 0 = Ok a ->
              exists rest,
                puts (snd (capture_images fuel frame_rate))
                = PyTuple2 (now 2) a :: rest)
           /\ (forall e, capture_image (-1) 0 = Raise e ->
                 capture_images fuel frame_rate = (Raised e, [])))))
  /\ (Exists (fun win => kCGWindowOwnerName win = None) windows ->
      get_zoom_window_id windows = Raise KeyError
      /\ capture_images fuel frame_rate = (Raised KeyError, [])).
Proof.
  intros Hno. destruct (get_zoom_window_id_no_meeting Hno) as [Hok Hraise].
  split.
  - intros Hw%Hok. split; [done|]. intros Hr.
    rewrite (capture_images_loop windows now capture_image time_sleep _ _ (-1))
      by done.
    split; [done|]. intros Hfuel Hin.
    by destruct (capture_loop_first fuel (-1) (PrimFloat.div 1 frame_rate) Hfuel)
      as [_ Hfirst]; apply Hfirst.
  - intros Hw%Hraise. split; [done|].
    unfold capture_images. by rewrite Hw.
Qed.

End CaptureClaims.

(** ** Claims on the scoring stage *)

Section ScoringClaims.

Context {MetricType : Type} `{Countable MetricType} {ndarray : Type}.
Variable members : list MetricType.
Variable get_no_ref_score : ndarray -> MetricType -> result float.

Local Abbreviation pyval := (@pyval MetricType _ _ ndarray).
Local Abbreviation get_result := (@get_result MetricType _ _ ndarray).
Local Abbreviation VideoMetrics := (@VideoMetrics MetricType _ _).
Local Abbreviation compute_metrics := (compute_metrics members get_no_ref_score).
Local Abbreviation compute_metrics_try := (compute_metrics_try members get_no_ref_score).
Local Abbreviation complete := (complete members).
Local Abbreviation scores_well := (scores_well members get_no_ref_score).
Local Abbreviation score_vector_of := (score_vector_of members get_no_ref_score).

Lemma score_vector_complete (t : datetime) (image_data : ndarray) (r : VideoMetrics) :
  score_vector_of t image_data r -> complete r.
Proof. intros (_ & _ & Hm) m Hin. destruct (Hm m Hin) as (s & _ & ->). by eexists. Qed.

Lemma compute_metrics_try_frame (t : datetime) (image_data : ndarray) :
  scores_well image_data ->
  exists r, compute_metrics_try (Got (PyTuple2 t image_data)) = Next (PyVideoMetrics r)
            /\ score_vector_of t image_data r.
Proof.
  intros Hall.
  destruct (metrics_comprehension_total get_no_ref_score image_data members ∅ Hall)
    as [d Hd].
  exists {| time := t; metrics := d |}.
  unfold compute_metrics_try. cbn [is_FINISH]. rewrite Hd. split; [done|].
  destruct (metrics_comprehension_ok _ _ _ _ _ Hd) as (Hdom & Hin & _).
  split; [done|]. split; [|done].
  cbn [metrics]. rewrite Hdom, dom_empty_L. apply (left_id_L ∅ (∪)).
Qed.

(** C6. A frame on which every metric kind gives a score is scored: the
    iteration that gets it puts one record, whose [time] is the capture time
    of the frame and whose [metrics] has exactly the members of [MetricType]
    as keys, each with the score of that kind on the frame. And every record
    that [compute_metrics] puts, at any position [i] of the result queue, is
    such a score vector of the frame it got at position [i]. *)
Theorem compute_metrics_score_vector (t : datetime) (image_data : ndarray) :
  scores_well image_data ->
  (exists r,
     compute_metrics_try (Got (PyTuple2 t image_data)) = Next (PyVideoMetrics r)
     /\ score_vector_of t image_data r)
  /\ forall (gets : list get_result) (i : nat) (r : VideoMetrics),
       snd (compute_metrics gets) !! i = Some (PyVideoMetrics r) ->
       exists image_data',
         gets !! i = Some (Got (PyTuple2 (time r) image_data'))
         /\ score_vector_of (time r) image_data' r.
Proof.
  intros Hall. split; [by apply compute_metrics_try_frame|].
  intros gets i r Hi.
  destruct (compute_metrics_lookup members get_no_ref_score gets i _ Hi eq_refl)
    as (g & Hg & Htry).
  apply compute_metrics_try_Next in Htry as (t' & a & d & -> & Hd & [= ->]).
  exists a. split; [done|].
  destruct (metrics_comprehension_ok _ _ _ _ _ Hd) as (Hdom & Hin & _).
  split; [done|]. split; [|done].
  cbn [metrics]. rewrite Hdom, dom_empty_L. apply (left_id_L ∅ (∪)).
Qed.

(** A run of frames that all score well leaves the stage waiting for more,
    with one score vector put per frame, in the order of the frames. *)
Lemma compute_metrics_frames (frames : list (datetime * ndarray)) :
  Forall (fun f => scores_well f.2) frames ->
  exists recs : list VideoMetrics,
    compute_metrics (Got <$> (uncurry PyTuple2 <$> frames))
    = (Unfinished, PyVideoMetrics <$> recs)
    /\ Forall2 (fun f r => score_vector_of f.1 f.2 r) frames recs.
Proof.
  induction 1 as [|[t a] frames Ha _ (recs & Hrun & Hrecs)].
  - by exists [].
  - destruct (compute_metrics_try_frame t a Ha) as (r & Hr & Hv).
    exists (r :: recs). split; [|by constructor].
    rewrite !fmap_cons. cbn [uncurry Datatypes.uncurry compute_metrics]. rewrite Hr.
    cbn [except_ValueError]. by rewrite Hrun.
Qed.

Lemma Forall2_score_vector_times (frames : list (datetime * ndarray))
    (recs : list VideoMetrics) :
  Forall2 (fun f r => score_vector_of f.1 f.2 r) frames recs ->
  time <$> recs = frames.*1 /\ Forall complete recs.
Proof.
  induction 1 as [|[t a] r frames recs Hr _ [IHt IHc]]; [done|].
  split.
  - rewrite !fmap_cons, IHt. by destruct Hr as [-> _].
  - constructor; [|done]. by eapply score_vector_complete.
Qed.

End ScoringClaims.

(** ** Claims on the scoring and graph stages together *)

Section StageClaims.

Context {MetricType : Type} `{Countable MetricType} {ndarray : Type}.
Variable members : list MetricType.
Variable value : MetricType -> string.
Variable savefig : string -> figure -> result unit.
Variable get_no_ref_score : ndarray -> MetricType -> result float.

Local Abbreviation pyval := (@pyval MetricType _ _ ndarray).
Local Abbreviation get_result := (@get_result MetricType _ _ ndarray).
Local Abbreviation VideoMetrics := (@VideoMetrics MetricType _ _).
Local Abbreviation timeline := (@timeline MetricType _ _).
Local Abbreviation compute_metrics := (compute_metrics members get_no_ref_score).
Local Abbreviation compute_metrics_try := (compute_metrics_try members get_no_ref_score).
Local Abbreviation graph_loop := (@graph_loop MetricType _ _ members ndarray).
Local Abbreviation graph_metrics :=
  (@graph_metrics MetricType _ _ members value ndarray savefig).
Local Abbreviation graph_finish := (graph_finish members value savefig).
Local Abbreviation plot := (plot members value).
Local Abbreviation complete := (complete members).
Local Abbreviation with_record := (with_record members).
Local Abbreviation scores_well := (scores_well members get_no_ref_score).
Local Abbreviation score_vector_of := (score_vector_of members get_no_ref_score).

(** The lines after the loop, on the accumulators of records that have
    every key: with two distinct members or more and a [savefig] that
    accepts the file, the figure is plotted and saved; with fewer than two
    members [plt.subplots] or [ax[row_idx]] raises and nothing is saved;
    and an exception of [savefig] leaves the stage. *)
Lemma graph_finish_records (graph_dir : string) (recs : list VideoMetrics) :
  Forall complete recs ->
  let tl := foldl with_record timeline_empty recs in
  (NoDup members -> (2 <= length members)%nat ->
   (forall fig, savefig (graph_dir ++ "/" ++ "frame_timeline.png") fig = Ok tt) ->
   exists fig,
     plot graph_dir tl = Ok fig
     /\ rows fig = plot_row value tl <$> members
     /\ graph_finish graph_dir tl = (Returned, tl, Some fig))
  /\ ((length members < 2)%nat ->
      graph_finish graph_dir tl
      = (Raised (match members with [] => ValueError | _ => TypeError end),
         tl, None))
  /\ (forall fig e,
        plot graph_dir tl = Ok fig ->
        savefig (image_filename fig) fig = Raise e ->
        graph_finish graph_dir tl = (Raised e, tl, None)).
Proof.
  intros Hrecs tl. split; [|split].
  - intros Hnd Hlen Hsave.
    pose proof (plot_records members value graph_dir recs Hnd Hlen Hrecs) as Hplot.
    eexists. split; [exact Hplot|]. split; [done|].
    unfold graph_finish. fold tl. unfold tl at 1. rewrite Hplot.
    cbn [image_filename]. by rewrite Hsave.
  - intros Hlen. unfold graph_finish.
    by rewrite (plot_few_members members value graph_dir tl Hlen).
  - intros fig e Hplot Hsave. unfold graph_finish.
    by rewrite Hplot, Hsave.
Qed.

(** The graph stage on what a scoring stage put before it left its loop. *)
Lemma graph_metrics_records (graph_dir : string) (recs : list VideoMetrics) :
  Forall complete recs ->
  graph_loop timeline_empty (Got <$> ((PyVideoMetrics <$> recs) ++ [PyInt FINISH]))
  = (Returned, foldl with_record timeline_empty recs)
  /\ graph_metrics graph_dir (Got <$> ((PyVideoMetrics <$> recs) ++ [PyInt FINISH]))
     = graph_finish graph_dir (foldl with_record timeline_empty recs).
Proof.
  intros Hall.
  assert (graph_loop timeline_empty
            (Got <$> ((PyVideoMetrics <$> recs) ++ [PyInt FINISH]))
          = (Returned, foldl with_record timeline_empty recs)) as Hloop.
  { rewrite fmap_app.
    by rewrite (graph_loop_app members _ _ _ _ (graph_loop_records members _ recs Hall)). }
  split; [done|]. unfold graph_metrics. by rewrite Hloop.
Qed.

(** C2, as the code has it. When scoring a frame raises [ValueError] (the
    one error the stage handles), the scoring stage leaves its loop: it puts
    no record for that frame, gets nothing of what follows it on the queue,
    and puts the sentinel. After frames that all score well this leaves one
    score vector per earlier frame, in order, then the sentinel. The graph
    stage is not disturbed by the error: its loop accumulates those records
    and ends at the sentinel, and the stage goes on to the plotting code;
    with two distinct metric kinds or more and a [savefig] that accepts the
    file it returns with its figure saved, with fewer than two kinds the
    plotting code raises and nothing is saved. *)
Theorem compute_metrics_stops_at_ValueError (graph_dir : string)
    (frames : list (datetime * ndarray)) (t : datetime) (bad : ndarray)
    (rest : list get_result) :
  Forall (fun f => scores_well f.2) frames ->
  metrics_comprehension get_no_ref_score bad members ∅ = Raise ValueError ->
  exists recs : list VideoMetrics,
    compute_metrics ((Got <$> (uncurry PyTuple2 <$> frames))
                     ++ Got (PyTuple2 t bad) :: rest)
    = (Returned, (PyVideoMetrics <$> recs) ++ [PyInt FINISH])
    /\ Forall2 (fun f r => score_vector_of f.1 f.2 r) frames recs
    /\ exists tl : timeline,
         graph_loop timeline_empty
           (Got <$> ((PyVideoMetrics <$> recs) ++ [PyInt FINISH]))
         = (Returned, tl)
         /\ times tl = frames.*1
         /\ graph_metrics graph_dir
              (Got <$> ((PyVideoMetrics <$> recs) ++ [PyInt FINISH]))
            = graph_finish graph_dir tl
         /\ (NoDup members -> (2 <= length members)%nat ->
             (forall fig,
                savefig (graph_dir ++ "/" ++ "frame_timeline.png") fig = Ok tt) ->
             exists fig,
               plot graph_dir tl = Ok fig
               /\ rows fig = plot_row value tl <$> members
               /\ graph_metrics graph_dir
                    (Got <$> ((PyVideoMetrics <$> recs) ++ [PyInt FINISH]))
                  = (Returned, tl, Some fig))
         /\ ((length members < 2)%nat ->
             graph_metrics graph_dir
               (Got <$> ((PyVideoMetrics <$> recs) ++ [PyInt FINISH]))
             = (Raised (match members with [] => ValueError | _ => TypeError end),
                tl, None)).
Proof.
  intros Hgood Hbad.
  destruct (compute_metrics_frames members get_no_ref_score frames Hgood)
    as (recs & Hrun & Hrecs).
  exists recs.
  destruct (Forall2_score_vector_times members get_no_ref_score _ _ Hrecs)
    as [Htimes Hcomplete].
  split; [|split; [done|]].
  - rewrite (compute_metrics_app members get_no_ref_score _ _ _ Hrun).
    cbn [compute_metrics compute_metrics_try is_FINISH].
    by rewrite Hbad.
  - destruct (graph_metrics_records graph_dir recs Hcomplete) as [Hloop Hgraph].
    destruct (graph_finish_records graph_dir recs Hcomplete)
      as (Hsaved & Hfew & _).
    eexists. split; [exact Hloop|].
    split; [by rewrite times_foldl_with_record|].
    split; [done|]. rewrite Hgraph. split; [|done].
    intros Hnd Hlen Hsave. by apply Hsaved.
Qed.

(** C10, as the code has it. Let the graph stage have got the items [pre]
    without leaving its loop, its accumulators then being [tl]. If the next
    [get] raises [ValueError], the loop is left with the accumulators
    unchanged, whatever would have followed on the queue is not read, and
    the stage goes on to the plotting code with [tl]. Whether a figure is
    then saved is decided there: with two distinct metric kinds or more and
    a [savefig] that accepts the file, the figure of [tl] is saved and the
    stage returns; with one metric kind [ax[row_idx]] raises [TypeError],
    with none [plt.subplots] raises [ValueError], and an exception of
    [savefig] leaves the stage as well: in these cases nothing is saved. *)
Theorem graph_metrics_ValueError_keeps_timeline (graph_dir : string)
    (pre rest : list get_result) (tl : timeline) :
  graph_loop timeline_empty pre = (Unfinished, tl) ->
  graph_loop tl (GetRaises ValueError :: rest) = (Returned, tl)
  /\ graph_loop timeline_empty (pre ++ GetRaises ValueError :: rest)
     = (Returned, tl)
  /\ graph_metrics graph_dir (pre ++ GetRaises ValueError :: rest)
     = graph_finish graph_dir tl
  /\ (NoDup members -> (2 <= length members)%nat ->
      (forall fig,
         savefig (graph_dir ++ "/" ++ "frame_timeline.png") fig = Ok tt) ->
      exists fig,
        plot graph_dir tl = Ok fig
        /\ rows fig = plot_row value tl <$> members
        /\ graph_metrics graph_dir (pre ++ GetRaises ValueError :: rest)
           = (Returned, tl, Some fig))
  /\ ((length members < 2)%nat ->
      graph_metrics graph_dir (pre ++ GetRaises ValueError :: rest)
      = (Raised (match members with [] => ValueError | _ => TypeError end),
         tl, None))
  /\ (forall fig e,
        plot graph_dir tl = Ok fig ->
        savefig (image_filename fig) fig = Raise e ->
        graph_metrics graph_dir (pre ++ GetRaises ValueError :: rest)
        = (Raised e, tl, None)).
Proof.
  intros Hpre.
  assert (graph_loop timeline_empty (pre ++ GetRaises ValueError :: rest)
          = (Returned, tl)) as Hloop.
  { by rewrite (graph_loop_app members _ _ _ _ Hpre). }
  assert (graph_metrics graph_dir (pre ++ GetRaises ValueError :: rest)
          = graph_finish graph_dir tl) as Hgraph.
  { unfold graph_metrics. by rewrite Hloop. }
  split; [done|]. split; [done|]. split; [done|]. rewrite Hgraph.
  destruct (graph_loop_Unfinished members _ _ _ Hpre) as (recs & _ & Hrecs & ->).
  destruct (graph_finish_records graph_dir recs Hrecs) as (Hsaved & Hfew & Hsave).
  split; [|split]; [|done..].
  intros Hnd Hlen Hacc. by apply Hsaved.
Qed.

End StageClaims.

(** ** The sentinel on the two channels *)

Section SentinelClaim.

Context {MetricType : Type} `{Countable MetricType} {ndarray : Type}.
Variable windows : list window.
Variable now : nat -> datetime.
Variable capture_image : Z -> nat -> result ndarray.
Variable time_sleep : float -> result unit.
Variable raw : Z -> nat -> ndarray.
Variable members : list MetricType.
Variable get_no_ref_score : ndarray -> MetricType -> result float.

Local Abbreviation pyval := (@pyval MetricType _ _ ndarray).
Local Abbreviation event := (@event MetricType _ _ ndarray).
Local Abbreviation get_result := (@get_result MetricType _ _ ndarray).
Local Abbreviation capture_loop :=
  (@capture_loop MetricType _ _ ndarray now capture_image time_sleep).
Local Abbreviation capture_images :=
  (@capture_images MetricType _ _ ndarray windows now capture_image time_sleep).
Local Abbreviation tick_passes := (tick_passes now capture_image time_sleep raw).
Local Abbreviation compute_metrics := (compute_metrics members get_no_ref_score).
Local Abbreviation compute_metrics_try := (compute_metrics_try members get_no_ref_score).

(** An exception that leaves the scoring stage is not a [ValueError]. *)
Lemma compute_metrics_Raised (gets : list get_result) (e : exn) (out : list pyval) :
  compute_metrics gets = (Raised e, out) -> e <> ValueError.
Proof.
  revert out.
  induction gets as [|g gets IH]; intros out Hrun; cbn [compute_metrics] in Hrun;
    [done|].
  destruct (compute_metrics_try g) as [v| |e'] eqn:Hg; cbn [except_ValueError] in Hrun.
  - destruct (compute_metrics gets) as [o' out'].
    injection Hrun as -> _. by eapply IH.
  - done.
  - destruct e'; try done; by injection Hrun as <- _.
Qed.

(** With the sentinel on the queue the stage does not wait for ever. *)
Lemma compute_metrics_not_waiting (pre rest : list get_result) (out : list pyval) :
  compute_metrics (pre ++ Got (PyInt FINISH) :: rest) = (Unfinished, out) -> False.
Proof.
  revert out.
  induction pre as [|g pre IH]; intros out Hrun.
  - done.
  - rewrite <- app_comm_cons in Hrun. cbn [compute_metrics] in Hrun.
    destruct (except_ValueError (compute_metrics_try g)) as [v| |e]; [|done..].
    destruct (compute_metrics (pre ++ _)) as [o' out'] eqn:Hrun'.
    injection Hrun as -> _. by eapply IH.
Qed.

Lemma sentinel_once_last_records (recs : list (@VideoMetrics MetricType _ _)) :
  sentinel_once_last ((PyVideoMetrics <$> recs) ++ [PyInt FINISH] : list pyval).
Proof.
  exists (PyVideoMetrics <$> recs). split; [done|].
  apply Forall_fmap, Forall_true. done.
Qed.

Lemma frames_not_FINISH (ticks : list nat) (bufs : list ndarray) :
  Forall (fun v : pyval => is_FINISH v = false)
    (zip_with (fun i a => PyTuple2 (now (2 + 3 * i)%nat) a) ticks bufs).
Proof.
  revert bufs. induction ticks as [|i ticks IH]; intros [|a bufs]; cbn [zip_with];
    try by constructor.
Qed.

(** What a run of [capture_images] has put, however it went: frames, and
    after them the sentinel exactly when the run returned. *)
Lemma capture_images_puts_sentinel (fuel : nat) (frame_rate : float) :
  exists data : list pyval,
    Forall (fun v => is_FINISH v = false) data
    /\ puts (snd (capture_images fuel frame_rate))
       = data ++ match fst (capture_images fuel frame_rate) with
                 | Returned => [PyInt FINISH]
                 | _ => []
                 end
    /\ (fst (capture_images fuel frame_rate) = Returned ->
        exists evs,
          snd (capture_images fuel frame_rate)
          = evs ++ [Put (PyInt FINISH); Close]).
Proof.
  unfold capture_images.
  destruct (get_zoom_window_id windows) as [w|e]; [|by exists []].
  destruct (PrimFloat.eqb frame_rate 0); [by exists []|].
  destruct (capture_loop_puts (MetricType:=MetricType) now capture_image
              time_sleep fuel w (PrimFloat.div 1 frame_rate) 0)
    as (bufs & Hputs & Hret).
  eexists. split; [apply (frames_not_FINISH (seq 0 (length bufs)) bufs)|].
  by split.
Qed.

(** C1, as the code has it. On each channel the sentinel is put at most
    once and nothing follows it; it is put exactly when the stage returns.
    On Channel A: whatever the inputs, a run of [capture_images] that
    returns has put frames and then the sentinel, once, and closes the
    queue after it; a run that an exception leaves (at the window lookup,
    at [1/frame_rate], at a capture or at [time.sleep]) has put no
    sentinel. A run that makes [n] ticks that all pass, for any [n] from 0
    on, returns having put [n] frames and then the sentinel. On Channel B:
    whichever way [compute_metrics] leaves its loop (it gets the sentinel,
    or a [ValueError] is raised in the [try] block) it puts the sentinel,
    once, after everything it put before, and returns; an exception other
    than [ValueError] leaves the stage with no sentinel put; with the
    sentinel on Channel A the stage does not wait for ever. *)
Theorem sentinel_once_and_last (fuel : nat) (frame_rate : float) :
  (forall (o : outcome) (evs : list event),
     capture_images fuel frame_rate = (o, evs) ->
     (o = Returned ->
      sentinel_once_last (puts evs)
      /\ exists done, evs = done ++ [Put (PyInt FINISH); Close])
     /\ (o <> Returned -> Forall (fun v => is_FINISH v = false) (puts evs)))
  /\ (forall (n : nat) (w : Z),
        get_zoom_window_id windows = Ok w ->
        PrimFloat.eqb frame_rate 0 = false ->
        makes_ticks now n ->
        (forall i, (i < n)%nat -> tick_passes w (PrimFloat.div 1 frame_rate) i) ->
        (n < fuel)%nat ->
        fst (capture_images fuel frame_rate) = Returned
        /\ length (puts (snd (capture_images fuel frame_rate))) = S n)
  /\ (forall (gets : list get_result) (o : outcome) (out : list pyval),
        compute_metrics gets = (o, out) ->
        (o = Returned -> sentinel_once_last out)
        /\ (o <> Returned -> Forall (fun v => is_FINISH v = false) out)
        /\ (forall e, o = Raised e -> e <> ValueError))
  /\ (forall (pre rest : list get_result) (out : list pyval),
        compute_metrics pre = (Unfinished, out) ->
        compute_metrics (pre ++ Got (PyInt FINISH) :: rest)
        = (Returned, out ++ [PyInt FINISH]))
  /\ (forall (pre : list get_result) (g : get_result) (rest : list get_result)
             (out : list pyval),
        compute_metrics pre = (Unfinished, out) ->
        compute_metrics_try g = Exc ValueError ->
        compute_metrics (pre ++ g :: rest) = (Returned, out ++ [PyInt FINISH]))
  /\ (forall (pre rest : list get_result) (out : list pyval),
        compute_metrics (pre ++ Got (PyInt FINISH) :: rest) <> (Unfinished, out)).
Proof.
  split; [|split; [|split; [|split; [|split]]]].
  - intros o evs Hrun.
    destruct (capture_images_puts_sentinel fuel frame_rate)
      as (data & Hdata & Hputs & Hret).
    rewrite Hrun in Hputs, Hret. cbn [fst snd] in Hputs, Hret. split.
    + intros ->. split; [by exists data|by apply Hret].
    + intros Ho. rewrite Hputs.
      destruct o; [done|by rewrite app_nil_r..].
  - intros n w Hw Hr [Hin Hout] Hpass Hfuel.
    rewrite (capture_images_ticks (MetricType:=MetricType) windows now
               capture_image time_sleep raw n fuel frame_rate w) by done.
    split; [done|]. cbn [snd].
    rewrite puts_app, puts_ticks_events, length_app, length_fmap, length_seq.
    cbn. lia.
  - intros gets o out Hrun.
    destruct (compute_metrics_out members get_no_ref_score _ _ _ Hrun)
      as [recs ->].
    split; [|split].
    + intros ->. apply sentinel_once_last_records.
    + intros Ho. destruct o; [done|rewrite app_nil_r..];
        apply Forall_fmap, Forall_true; done.
    + intros e ->. by eapply compute_metrics_Raised.
  - intros pre rest out Hpre.
    by rewrite (compute_metrics_app members get_no_ref_score _ _ _ Hpre).
  - intros pre g rest out Hpre Hg.
    rewrite (compute_metrics_app members get_no_ref_score _ _ _ Hpre).
    cbn [compute_metrics]. by rewrite Hg.
  - intros pre rest out Hrun. by eapply compute_metrics_not_waiting.
Qed.

End SentinelClaim.

(** ** The order of the items along the pipeline *)

Section OrderFacts.

Context {MetricType : Type} `{Countable MetricType} {ndarray : Type}.
Variable members : list MetricType.
Variable value : MetricType -> string.
Variable windows : list window.
Variable now : nat -> datetime.
Variable capture_image : Z -> nat -> result ndarray.
Variable time_sleep : float -> result unit.
Variable savefig : string -> figure -> result unit.
Variable get_no_ref_score : ndarray -> MetricType -> result float.
Variable fuel : nat.

Local Abbreviation pyval := (@pyval MetricType _ _ ndarray).
Local Abbreviation get_result := (@get_result MetricType _ _ ndarray).
Local Abbreviation VideoMetrics := (@VideoMetrics MetricType _ _).
Local Abbreviation timeline := (@timeline MetricType _ _).
Local Abbreviation frame_times := (@frame_times MetricType _ _ ndarray).
Local Abbreviation all_frames :=
  (@all_frames MetricType _ _ ndarray windows now capture_image time_sleep fuel).
Local Abbreviation compute_metrics := (compute_metrics members get_no_ref_score).
Local Abbreviation compute_metrics_try := (compute_metrics_try members get_no_ref_score).
Local Abbreviation graph_loop := (@graph_loop MetricType _ _ members ndarray).
Local Abbreviation graph_metrics :=
  (@graph_metrics MetricType _ _ members value ndarray savefig).
Local Abbreviation with_record := (with_record members).
Local Abbreviation complete := (complete members).
Local Abbreviation score_vector_of := (score_vector_of members get_no_ref_score).

(** The time of the frame of tick [i]. *)
Lemma frame_times_app (data data' : list pyval) :
  frame_times (data ++ data') = frame_times data ++ frame_times data'.
Proof. apply omap_app. Qed.

Lemma frame_times_frames (j : nat) (bufs : list ndarray) :
  frame_times (zip_with (fun i a => PyTuple2 (now (2 + 3 * i)%nat) a)
                 (seq j (length bufs)) bufs)
  = (fun i => now (2 + 3 * i)%nat) <$> seq j (length bufs).
Proof.
  revert j. induction bufs as [|a bufs IH]; intros j; [done|].
  cbn [length seq zip_with]. rewrite fmap_cons. cbn. f_equal. apply IH.
Qed.

Lemma frame_times_tuples (scored : list (datetime * ndarray)) :
  frame_times (uncurry PyTuple2 <$> scored) = scored.*1.
Proof.
  induction scored as [|[t a] scored IH]; [done|].
  rewrite !fmap_cons. cbn. by f_equal.
Qed.

Lemma frame_times_prefix (data data' : list pyval) :
  data `prefix_of` data' -> frame_times data `prefix_of` frame_times data'.
Proof. intros [rest ->]. rewrite frame_times_app. by apply prefix_app_r. Qed.

(** Whatever the run of the capture stage, the capture times of its frames
    are the second readings of the clock at consecutive ticks from 0 on. *)
Lemma all_frames_times :
  exists n, frame_times all_frames = (fun i => now (2 + 3 * i)%nat) <$> seq 0 n.
Proof.
  unfold all_frames, capture_images.
  destruct (get_zoom_window_id windows) as [w|e]; [|by exists 0%nat].
  destruct (PrimFloat.eqb 30 0); [by exists 0%nat|].
  destruct (capture_loop_puts (MetricType:=MetricType) now capture_image
              time_sleep fuel w (PrimFloat.div 1 30) 0) as (bufs & Hputs & _).
  change (1 + 3 * 0)%nat with 1%nat in Hputs. rewrite Hputs.
  exists (length bufs). rewrite frame_times_app, frame_times_frames.
  destruct (fst _); cbn; by rewrite app_nil_r.
Qed.

Lemma now_sorted (j n : nat) :
  (forall i i', (i <= i')%nat -> now i <= now i') ->
  StronglySorted Z.le ((fun i => now (2 + 3 * i)%nat) <$> seq j n).
Proof.
  intros Hmono. revert j.
  induction n as [|n IH]; intros j; cbn [seq]; [constructor|].
  rewrite fmap_cons. constructor; [apply IH|].
  apply Forall_fmap, Forall_forall. intros i Hi%elem_of_seq. cbn.
  apply Hmono. lia.
Qed.


Lemma compute_metrics_try_vector (g : get_result) (v : pyval) :
  compute_metrics_try g = Next v ->
  exists t image_data r,
    g = Got (PyTuple2 t image_data)
    /\ v = PyVideoMetrics r
    /\ score_vector_of t image_data r.
Proof.
  intros (t & a & d & -> & Hd & ->)%compute_metrics_try_Next.
  exists t, a, {| time := t; metrics := d |}. split; [done|]. split; [done|].
  destruct (metrics_comprehension_ok _ _ _ _ _ Hd) as (Hdom & Hin & _).
  split; [done|]. split; [|done].
  cbn [metrics]. rewrite Hdom, dom_empty_L. apply (left_id_L ∅ (∪)).
Qed.

(** The scoring stage on any items: it scores a first run of frames, one
    record each, and puts after them the sentinel or nothing. *)
Lemma compute_metrics_scored (data : list pyval) :
  exists (scored : list (datetime * ndarray)) (recs : list VideoMetrics)
         (tail : list pyval),
    (uncurry PyTuple2 <$> scored) `prefix_of` data
    /\ snd (compute_metrics (Got <$> data)) = (PyVideoMetrics <$> recs) ++ tail
    /\ (tail = [] \/ tail = [PyInt FINISH])
    /\ Forall2 (fun f r => score_vector_of f.1 f.2 r) scored recs.
Proof.
  induction data as [|v data (scored & recs & tail & Hpre & Hout & Htail & Hvec)].
  - exists [], [], []. split; [done|]. split; [done|]. split; [by left|constructor].
  - rewrite fmap_cons. cbn [compute_metrics].
    destruct (compute_metrics_try (Got v)) as [v'| |e] eqn:Htry.
    + apply compute_metrics_try_vector in Htry as (t & a & r & [= ->] & -> & Hr).
      cbn [except_ValueError].
      destruct (compute_metrics (Got <$> data)) as [o out]. cbn [snd] in Hout |- *.
      exists ((t, a) :: scored), (r :: recs), tail.
      split; [by apply prefix_cons|]. split; [by rewrite Hout|].
      split; [done|by constructor].
    + exists [], [], [PyInt FINISH].
      split; [apply prefix_nil|]. split; [done|]. split; [by right|constructor].
    + destruct e; cbn [except_ValueError snd].
      1: exists [], [], [PyInt FINISH].
      2-9: exists [], [], [].
      1: split; [apply prefix_nil|]; split; [done|]; split; [by right|constructor].
      all: split; [apply prefix_nil|]; split; [done|]; split; [by left|constructor].
Qed.

Lemma graph_metrics_loop (graph_dir : string) (gets : list get_result)
    (o : outcome) (tl : timeline) (saved : option figure) :
  graph_metrics graph_dir gets = (o, tl, saved) ->
  exists o',
    graph_loop timeline_empty gets = (o', tl)
    /\ (o' = Unfinished <-> o = Unfinished)
    /\ (o = Returned -> o' = Returned).
Proof.
  unfold graph_metrics.
  destruct (graph_loop timeline_empty gets) as [[|e|] tl'].
  - destruct (graph_finish_ended members value savefig graph_dir tl') as [Ho Htl].
    destruct (graph_finish _ _ _ graph_dir tl') as [[o' tl''] saved'].
    cbn [fst snd] in Ho, Htl. subst tl''. intros [= <- <- <-].
    exists Returned. by split; [|split].
  - intros [= <- <- <-]. exists (Raised e). by split; [|split].
  - intros [= <- <- <-]. exists Unfinished. by split; [|split].
Qed.

(** The graph stage on a first part of what the scoring stage puts: while
    it has got records only, it waits with the accumulators of those
    records; once it has got the sentinel, it has left its loop with the
    accumulators of all the records. *)
Lemma graph_loop_done (recs : list VideoMetrics) (tail done : list pyval) :
  Forall complete recs ->
  tail = [] \/ tail = [PyInt FINISH] ->
  done `prefix_of` (PyVideoMetrics <$> recs) ++ tail ->
  exists j,
    (j <= length recs)%nat
    /\ ((done = PyVideoMetrics <$> take j recs
         /\ graph_loop timeline_empty (Got <$> done)
            = (Unfinished, foldl with_record timeline_empty (take j recs)))
        \/ (done = (PyVideoMetrics <$> recs) ++ [PyInt FINISH]
            /\ tail = [PyInt FINISH]
            /\ j = length recs
            /\ graph_loop timeline_empty (Got <$> done)
               = (Returned, foldl with_record timeline_empty recs))).
Proof.
  intros Hrecs Htail Hpre.
  destruct (decide (length done <= length recs)%nat) as [Hle|Hgt].
  - exists (length done). split; [done|]. left.
    assert (done = PyVideoMetrics <$> take (length done) recs) as Hdone.
    { destruct Hpre as [rest Hrest].
      rewrite fmap_take, <- (take_app_le _ tail) by by rewrite length_fmap.
      by rewrite Hrest, take_app_length. }
    split; [done|]. rewrite Hdone at 1.
    by rewrite (graph_loop_records members) by by apply Forall_take.
  - assert (done = (PyVideoMetrics <$> recs) ++ tail) as ->.
    { apply prefix_length_eq; [done|].
      rewrite length_app, length_fmap.
      destruct Htail as [-> | ->]; cbn; lia. }
    destruct Htail as [-> | ->].
    { rewrite app_nil_r, length_fmap in Hgt. lia. }
    exists (length recs). split; [done|]. right.
    split; [done|]. split; [done|]. split; [done|]. rewrite fmap_app.
    by rewrite (graph_loop_app members _ _ _ _ (graph_loop_records members _ recs Hrecs)).
Qed.

Lemma Forall2_column (m : MetricType) (scored : list (datetime * ndarray))
    (recs : list VideoMetrics) :
  m ∈ members ->
  Forall2 (fun f r => score_vector_of f.1 f.2 r) scored recs ->
  Forall2 (fun f x => get_no_ref_score f.2 m = Ok x) scored (column m recs).
Proof.
  intros Hm.
  induction 1 as [|f r scored recs (_ & _ & Hr) _ IH]; [constructor|].
  destruct (Hr m Hm) as (x & Hx & Hlook).
  unfold column. cbn [omap list_omap]. rewrite Hlook. by constructor.
Qed.

End OrderFacts.

(** ** The running system *)

Section SystemFacts.

Context {MetricType : Type} `{Countable MetricType} {ndarray : Type}.
Variable members : list MetricType.
Variable value : MetricType -> string.
Variable savefig : string -> figure -> result unit.
Variable windows : list window.
Variable now : nat -> datetime.
Variable capture_image : Z -> nat -> result ndarray.
Variable time_sleep : float -> result unit.
Variable get_no_ref_score : ndarray -> MetricType -> result float.
Variable fuel : nat.

Local Abbreviation pyval := (@pyval MetricType _ _ ndarray).
Local Abbreviation sys := (@sys MetricType _ _ ndarray).
Local Abbreviation proc := (@proc MetricType _ _ ndarray).
Local Abbreviation consistent :=
  (consistent members value savefig windows now capture_image time_sleep
     get_no_ref_score fuel).
Local Abbreviation records_ahead :=
  (records_ahead members windows now capture_image time_sleep get_no_ref_score fuel).
Local Abbreviation all_records :=
  (all_records members windows now capture_image time_sleep get_no_ref_score fuel).
Local Abbreviation main_step := (main_step windows now capture_image time_sleep fuel).
Local Abbreviation proc_step := (proc_step members value savefig get_no_ref_score).
Local Abbreviation step := (step members value savefig windows now capture_image time_sleep
     get_no_ref_score fuel).

Ltac upd :=
  repeat first [ rewrite fn_lookup_insert
               | rewrite fn_lookup_insert_ne by discriminate ].

Lemma boot_consistent (graph_dir : string) :
  consistent graph_dir (boot graph_dir).
Proof.
  exists 0%nat, []. unfold records_ahead. cbn. repeat split; try lia; try done.
Qed.

Lemma main_step_consistent (graph_dir : string) (s s' : sys) :
  consistent graph_dir s -> main_step s = Some s' -> consistent graph_dir s'.
Proof.
  intros (k & done & Hmain & Hc & Ha & Hg & HqA & HqB & Hrec) Hstep.
  unfold main_step in Hstep. rewrite Hmain in Hstep.
  unfold records_ahead in Hrec.
  destruct k as [|[|[|[|[|[|[|[|[|[|[|k]]]]]]]]]]];
    cbn [drop skipn run_video_processes] in Hstep; [..|by destruct k].
  all: destruct (procs s process_capture) as [|tc|qc todo ending| | |oc|] eqn:Ec;
    cbn in Hc; try (exfalso; by intuition lia).
  all: destruct (procs s process_analysis) as [|ta| |dq rq| |oa|] eqn:Ea;
    cbn in Ha; try (exfalso; by intuition lia).
  all: destruct (procs s process_graph) as [|tg| | |d q tl|og|og tl saved] eqn:Eg;
    cbn in Hg; try (exfalso; by intuition lia).
  all: cbn [exited] in Hstep; try discriminate Hstep.
  all: injection Hstep as <-.
  all: unfold consistent, records_ahead.
  all: cbn [main procs queues]; upd; rewrite ?Ec, ?Ea, ?Eg.
  all: try rewrite HqA in * by lia; try rewrite HqB in * by lia.
  all: match type of Hmain with _ = drop ?k _ => exists (S k), done end.
  all: repeat match goal with H : _ /\ _ |- _ => destruct H end; subst.
  all: unfold started.
  all: try (destruct (capture_images _ _ _ _ _ _) as [o evs] eqn:Hcap).
  all: cbn [capture_shape analysis_shape graph_shape capture_rest analysis_rest].
  all: split_and!; try done; try lia.
  rewrite Hrec. cbn [analysis_rest capture_rest].
  unfold all_frames. by rewrite Hcap.
Qed.

Lemma proc_step_consistent (graph_dir : string) (p : pid) (s s' : sys) :
  consistent graph_dir s -> proc_step p s = Some s' -> consistent graph_dir s'.
Proof.
  intros (k & done & Hmain & Hc & Ha & Hg & HqA & HqB & Hrec) Hstep.
  unfold proc_step in Hstep.
  unfold records_ahead in Hrec.
  destruct p.
  - (* the capture process *)
    destruct (procs s process_capture) as [|tc|qc todo ending| | |oc|] eqn:Ec;
      cbn in Hc; try done.
    destruct Hc as [-> Hk].
    destruct todo as [|ev todo].
    + destruct ending; try done; injection Hstep as <-.
      all: exists k, done; unfold records_ahead.
      all: cbn [main procs queues]; upd.
      all: cbn [capture_shape]; split_and!; try done; try lia.
    + injection Hstep as <-.
      exists k, done; unfold records_ahead.
      cbn [main procs queues]; upd.
      set (qs := match ev with Put v => _ | _ => _ end).
      assert (qs metrics_queue = queues s metrics_queue) as Hm.
      { subst qs. destruct ev; unfold put; upd; done. }
      assert (qs packet_queue ++ puts todo
              = queues s packet_queue ++ puts (ev :: todo)) as Hp.
      { subst qs. destruct ev; unfold put; upd; cbn; try done.
        by rewrite <- app_assoc. }
      rewrite Hm.
      cbn [capture_shape capture_rest]; split_and!; try done; try lia.
      by rewrite Hp.
  - (* the scoring process *)
    destruct (procs s process_analysis) as [|ta| |dq rq| |oa|] eqn:Ea;
      cbn in Ha; try done.
    destruct Ha as (-> & -> & Hk).
    destruct (queues s packet_queue) as [|res waiting] eqn:EA; [done|].
    cbn [analysis_rest app fmap list_fmap compute_metrics] in Hrec.
    destruct (except_ValueError _) as [v| |e]; injection Hstep as <-.
    all: exists k, done; unfold records_ahead.
    all: cbn [main procs queues]; unfold put; upd; rewrite ?Ea.
    all: cbn [analysis_shape analysis_rest]; split_and!; try done; try lia.
    + rewrite Hrec. destruct (compute_metrics _ _ _) as [o out]. cbn [snd].
      by rewrite <- app_assoc.
    + rewrite Hrec. cbn [snd]. by rewrite app_nil_r.
  - (* the graph process *)
    destruct (procs s process_graph) as [|tg| | |d q tl|og|og tl saved] eqn:Eg;
      cbn in Hg; try done.
    destruct Hg as (-> & -> & Hk & Hdone).
    destruct (queues s metrics_queue) as [|metric_record waiting] eqn:EB; [done|].
    destruct (graph_metrics_try members tl (Got metric_record)) as [tl' f] eqn:Htry.
    injection Hstep as <-.
    exists k, (done ++ [metric_record]); unfold records_ahead.
    cbn [main procs queues]; upd.
    split_and!; try done; try lia.
    + assert (graph_loop members timeline_empty (Got <$> done ++ [metric_record])
              = match except_ValueError f with
                | Next _ => (Unfinished, tl')
                | Brk => (Returned, tl')
                | Exc e => (Raised e, tl')
                end) as Hloop.
      { rewrite fmap_app, (graph_loop_app members _ _ _ _ Hdone).
        cbn [fmap list_fmap graph_loop]. rewrite Htry.
        by destruct (except_ValueError f) as [[]| |e]. }
      destruct (except_ValueError f) as [[]| |e].
      * cbn [graph_shape]. split_and!; try done; lia.
      * pose proof (graph_finish_ended members value savefig graph_dir tl')
          as [Hend _].
        destruct (graph_finish members value savefig graph_dir tl')
          as [[o tl''] saved'] eqn:Hfin.
        cbn [fst] in Hend. cbn [graphed graph_shape].
        unfold graph_metrics. rewrite Hloop.
        split_and!; try done; lia.
      * cbn [graph_shape]. unfold graph_metrics. rewrite Hloop.
        split_and!; try done; lia.
    + rewrite Hrec. by rewrite <- app_assoc.
Qed.

Lemma step_consistent (graph_dir : string) (s s' : sys) :
  consistent graph_dir s -> step s s' -> consistent graph_dir s'.
Proof.
  intros Hs [Hmain|p Hp].
  - by eapply main_step_consistent.
  - by eapply proc_step_consistent.
Qed.

Lemma reachable_consistent (graph_dir : string) (s : sys) :
  reachable members value savefig windows now capture_image time_sleep
    get_no_ref_score fuel graph_dir s ->
  consistent graph_dir s.
Proof.
  unfold reachable. revert s. apply rtc_ind_r.
  - apply boot_consistent.
  - intros s s' _ Hstep Hs. by eapply step_consistent.
Qed.

End SystemFacts.

(** ** Claims on the running system *)

Section SystemClaims.

Context {MetricType : Type} `{Countable MetricType} {ndarray : Type}.
Variable members : list MetricType.
Variable value : MetricType -> string.
Variable savefig : string -> figure -> result unit.
Variable windows : list window.
Variable now : nat -> datetime.
Variable capture_image : Z -> nat -> result ndarray.
Variable time_sleep : float -> result unit.
Variable get_no_ref_score : ndarray -> MetricType -> result float.
Variable fuel : nat.

Local Abbreviation pyval := (@pyval MetricType _ _ ndarray).
Local Abbreviation get_result := (@get_result MetricType _ _ ndarray).
Local Abbreviation VideoMetrics := (@VideoMetrics MetricType _ _).
Local Abbreviation timeline := (@timeline MetricType _ _).
Local Abbreviation sys := (@sys MetricType _ _ ndarray).
Local Abbreviation consistent :=
  (consistent members value savefig windows now capture_image time_sleep
     get_no_ref_score fuel).
Local Abbreviation reachable :=
  (reachable members value savefig windows now capture_image time_sleep
     get_no_ref_score fuel).
Local Abbreviation all_frames :=
  (@all_frames MetricType _ _ ndarray windows now capture_image time_sleep fuel).
Local Abbreviation all_records :=
  (all_records members windows now capture_image time_sleep get_no_ref_score fuel).
Local Abbreviation records_ahead :=
  (records_ahead members windows now capture_image time_sleep get_no_ref_score fuel).
Local Abbreviation pipeline :=
  (pipeline members value savefig windows now capture_image time_sleep
     get_no_ref_score fuel).
Local Abbreviation step :=
  (step members value savefig windows now capture_image time_sleep
     get_no_ref_score fuel).
Local Abbreviation schedule :=
  (schedule members value savefig windows now capture_image time_sleep
     get_no_ref_score fuel).
Local Abbreviation graph_loop := (@graph_loop MetricType _ _ members ndarray).
Local Abbreviation graph_metrics :=
  (@graph_metrics MetricType _ _ members value ndarray savefig).
Local Abbreviation with_record := (with_record members).
Local Abbreviation score_vector_of := (score_vector_of members get_no_ref_score).

(** A loop that was left does not look at what follows on the queue. *)
Lemma graph_loop_left (tl0 tl : timeline) (pre rest : list get_result) (o : outcome) :
  graph_loop tl0 pre = (o, tl) -> o <> Unfinished ->
  graph_loop tl0 (pre ++ rest) = (o, tl).
Proof.
  revert tl0.
  induction pre as [|g pre IH]; intros tl0 Hpre Ho; cbn [graph_loop] in Hpre.
  - by injection Hpre as <- _.
  - rewrite <- app_comm_cons. cbn [graph_loop].
    destruct (graph_metrics_try members tl0 g) as [tl1 f].
    destruct (except_ValueError f) as [[]| |e]; [|done..].
    by apply IH.
Qed.

(** Nor does a stage that has ended. *)
Lemma graph_metrics_left (graph_dir : string) (pre rest : list get_result)
    (o : outcome) (tl : timeline) (saved : option figure) :
  graph_metrics graph_dir pre = (o, tl, saved) -> o <> Unfinished ->
  graph_metrics graph_dir (pre ++ rest) = (o, tl, saved).
Proof.
  unfold graph_metrics.
  destruct (graph_loop timeline_empty pre) as [o' tl'] eqn:Hloop.
  intros Hpre Ho.
  assert (o' <> Unfinished) as Ho'.
  { intros ->. by injection Hpre as <- _ _. }
  by rewrite (graph_loop_left _ _ _ rest _ Hloop Ho').
Qed.

Lemma pipeline_all_records (graph_dir : string) :
  pipeline 30 graph_dir = graph_metrics graph_dir (Got <$> all_records).
Proof. reflexivity. Qed.

(** A graph process that has ended holds what the pipeline, read as a
    composition of functions, gives. *)
Lemma consistent_Graphed (graph_dir : string) (s : sys) (o : outcome)
    (tl : timeline) (saved : option figure) :
  consistent graph_dir s ->
  procs s process_graph = Graphed o tl saved ->
  pipeline 30 graph_dir = (o, tl, saved).
Proof.
  intros (k & done & _ & _ & _ & Hg & _ & _ & Hrec) Hp.
  rewrite Hp in Hg. destruct Hg as (_ & Ho & Hdone).
  rewrite pipeline_all_records, Hrec, fmap_app.
  by apply graph_metrics_left.
Qed.

Lemma schedule_reachable (whos : list (option pid)) (s s' : sys) :
  schedule whos s = Some s' -> rtc step s s'.
Proof.
  revert s.
  induction whos as [|who whos IH]; intros s Hrun; cbn [schedule] in Hrun.
  - injection Hrun as <-. apply rtc_refl.
  - destruct (move _ _ _ _ _ _ _ _ _ who s) as [s1|] eqn:Hmove; [|done].
    apply rtc_l with s1; [|by apply IH].
    destruct who as [p|]; cbn [move] in Hmove.
    + by apply step_proc with p.
    + by apply step_main.
Qed.


Lemma frames_tuples (j : nat) (bufs : list ndarray) :
  zip_with (fun i a => PyTuple2 (now (2 + 3 * i)%nat) a) (seq j (length bufs)) bufs
  = (uncurry PyTuple2
       <$> zip_with (fun i a => (now (2 + 3 * i)%nat, a)) (seq j (length bufs)) bufs
     : list pyval).
Proof.
  revert j. induction bufs as [|a bufs IH]; intros j; [done|].
  cbn [length seq zip_with]. rewrite fmap_cons. cbn [uncurry]. f_equal. apply IH.
Qed.

Lemma all_frames_shape :
  exists (fs : list (datetime * ndarray)) (tail : list pyval),
    all_frames = (uncurry PyTuple2 <$> fs) ++ tail
    /\ (tail = [] \/ tail = [PyInt FINISH]).
Proof.
  unfold all_frames, capture_images.
  destruct (get_zoom_window_id windows) as [w|e].
  2:{ exists [], []. by split; [|left]. }
  destruct (PrimFloat.eqb 30 0).
  { exists [], []. by split; [|left]. }
  destruct (capture_loop_puts (MetricType := MetricType) now capture_image
              time_sleep fuel w (PrimFloat.div 1 30) 0) as (bufs & Hputs & _).
  change (1 + 3 * 0)%nat with 1%nat in Hputs. rewrite Hputs.
  exists (zip_with (fun i a => (now (2 + 3 * i)%nat, a)) (seq 0 (length bufs)) bufs).
  eexists. split.
  - f_equal. apply frames_tuples.
  - destruct (fst _); auto.
Qed.

(** C5, as the code has it. In every state that the system reaches, under
    any interleaving, the timeline that the graph process holds is made of
    the score vectors of a first part of the frames that the capture stage
    puts, in the order in which it puts them, one entry for each record
    that the graph process has taken off the metrics queue: the records put
    by the scoring stage are those, then the sentinel if the graph process
    has left its loop, then the records that are still ahead of it; the
    [times] of the timeline are the capture times of the scored frames,
    which are the second readings of the clock at the ticks 0, 1, 2, ... ,
    and, the members of [MetricType] being distinct, the column of each
    metric kind holds the scores of that kind on those frames, one after
    the other. When the graph process has left its loop and no frame made
    the scoring function raise, the [times] are the capture times of all
    the frames. The [times] are in non-decreasing order on a clock that
    does not go back; the code does not order them otherwise. *)
Theorem timeline_in_capture_order (graph_dir : string) (s : sys) (tl : timeline) :
  NoDup members ->
  reachable graph_dir s ->
  timeline_of (procs s process_graph) = Some tl ->
  (exists (scored : list (datetime * ndarray)) (recs : list VideoMetrics)
          (stop : list pyval),
     (uncurry PyTuple2 <$> scored) `prefix_of` all_frames
     /\ Forall2 (fun f r => score_vector_of f.1 f.2 r) scored recs
     /\ all_records = (PyVideoMetrics <$> recs) ++ stop ++ records_ahead s
     /\ stop = match procs s process_graph with
               | Graphed _ _ _ => [PyInt FINISH]
               | _ => []
               end
     /\ tl = foldl with_record timeline_empty recs
     /\ times tl = scored.*1
     /\ forall m, m ∈ members ->
          Forall2 (fun f x => get_no_ref_score f.2 m = Ok x)
                  scored (image_scores tl !!! m))
  /\ times tl `prefix_of` frame_times all_frames
  /\ times tl = (fun i => now (2 + 3 * i)%nat) <$> seq 0 (length (times tl))
  /\ (forall o saved,
        procs s process_graph = Graphed o tl saved ->
        (forall t a, PyTuple2 t a ∈ all_frames ->
                     scores_well members get_no_ref_score a) ->
        times tl = frame_times all_frames)
  /\ ((forall i i', (i <= i')%nat -> now i <= now i') ->
      StronglySorted Z.le (times tl)).
Proof.
  intros Hnd (k & done & _ & _ & _ & Hg & _ & _ & Hrec)%reachable_consistent Htl.
  assert (exists o, graph_loop timeline_empty (Got <$> done) = (o, tl)
                    /\ (o = Unfinished
                        <-> forall o' saved,
                              procs s process_graph <> Graphed o' tl saved))
    as (o & Hloop & Ho).
  { destruct (procs s process_graph) as [| | | |d q tl0|o0|o0 tl0 saved0];
      cbn in Htl, Hg; try done; injection Htl as ->.
    - exists Unfinished. split; [tauto|done].
    - destruct Hg as (_ & Ho0 & Hdone).
      apply graph_metrics_loop in Hdone as (o & Hloop & Ho & _).
      exists o. split; [done|]. split; [tauto|].
      intros Hno. by destruct (Hno o0 saved0). }
  assert (done `prefix_of` all_records) as Hdone by by eexists.
  destruct (compute_metrics_scored members get_no_ref_score all_frames)
    as (scored & recs & tail & Hpre & Hout & Htail & Hvec).
  destruct (Forall2_score_vector_times members get_no_ref_score _ _ Hvec)
    as [Htimes Hcomplete].
  fold all_records in Hout.
  assert (done `prefix_of` (PyVideoMetrics <$> recs) ++ tail) as Hdone'
    by by rewrite <- Hout.
  destruct (graph_loop_done members recs tail done Hcomplete Htail Hdone')
    as (j & Hj & Hcase).
  set (stop := match procs s process_graph with
               | Graphed _ _ _ => [PyInt FINISH]
               | _ => []
               end : list pyval).
  assert (done = (PyVideoMetrics <$> take j recs) ++ stop
          /\ tl = foldl with_record timeline_empty (take j recs)
          /\ (stop = [PyInt FINISH] -> take j recs = recs /\ tail = [PyInt FINISH]))
    as (Hdone_eq & Htl_eq & Hstop).
  { destruct Hcase as [[Hd Hl]|(Hd & Ht & -> & Hl)];
      rewrite Hloop in Hl; injection Hl as -> ->.
    - assert (stop = []) as ->.
      { subst stop. destruct (procs s process_graph) as [| | | | | |o' tl' saved'];
          try done.
        cbn in Htl. injection Htl as ->.
        by destruct (proj1 Ho eq_refl o' saved'). }
      by rewrite app_nil_r.
    - rewrite firstn_all.
      assert (stop = [PyInt FINISH]) as ->; [|done].
      subst stop. destruct (procs s process_graph) as [| | | |d q tl'| |] eqn:Hp;
        try done.
      cbn in Hg. destruct Hg as (_ & _ & _ & Hg). by rewrite Hg in Hloop. }
  pose proof (Forall2_take _ _ _ j Hvec) as Hvec'.
  destruct (Forall2_score_vector_times members get_no_ref_score _ _ Hvec')
    as [Htimes' Hcomplete'].
  assert (times tl = (take j scored).*1) as Htl_times.
  { by rewrite Htl_eq, times_foldl_with_record. }
  assert ((uncurry PyTuple2 <$> take j scored) `prefix_of` all_frames) as Hpre'.
  { trans (uncurry PyTuple2 <$> scored : list pyval); [|done].
    rewrite fmap_take. apply prefix_take. }
  assert (times tl `prefix_of` frame_times all_frames) as Hprefix.
  { rewrite Htl_times, <- (frame_times_tuples (MetricType := MetricType)).
    by apply frame_times_prefix. }
  destruct (all_frames_times windows now capture_image time_sleep fuel
              (MetricType := MetricType)) as [n Hn].
  assert (times tl = (fun i => now (2 + 3 * i)%nat) <$> seq 0 (length (times tl)))
    as Hticks.
  { rewrite Hn in Hprefix. destruct Hprefix as [rest Hrest].
    assert (times tl = take (length (times tl))
                         ((fun i => now (2 + 3 * i)%nat) <$> seq 0 n)) as Htake.
    { by rewrite Hrest, take_app_length. }
    rewrite Htake at 1. rewrite <- fmap_take, take_seq. f_equal. f_equal.
    apply (f_equal length) in Hrest.
    rewrite length_fmap, length_seq, length_app in Hrest. lia. }
  split; [|split; [done|split; [done|split]]].
  - exists (take j scored), (take j recs), stop.
    split; [done|]. split; [done|]. split.
    { rewrite Hrec, Hdone_eq. by rewrite <- app_assoc. }
    split; [done|]. split; [done|]. split; [done|].
    intros m Hm. rewrite Htl_eq.
    rewrite column_foldl_with_record by done.
    cbn [timeline_empty image_scores]. rewrite lookup_total_empty. cbn [app].
    by apply (Forall2_column members get_no_ref_score).
  - intros o' saved Hsaved Hwell.
    assert (stop = [PyInt FINISH]) as Hs by (subst stop; by rewrite Hsaved).
    destruct (Hstop Hs) as [Hall Htail'].
    destruct all_frames_shape as (fs & tailc & Hshape & Htailc).
    assert (Forall (fun f => scores_well members get_no_ref_score f.2) fs) as Hfs.
    { apply Forall_forall. intros [t a] Hin. apply (Hwell t). rewrite Hshape.
      apply elem_of_app. left.
      by apply (list_elem_of_fmap_2 (uncurry PyTuple2) _ (t, a)). }
    destruct (compute_metrics_frames members get_no_ref_score fs Hfs)
      as (recs' & Hrun & Hvec'').
    destruct (Forall2_score_vector_times members get_no_ref_score _ _ Hvec'')
      as [Htimes'' _].
    assert (recs' = recs) as ->.
    { assert (all_records
              = (PyVideoMetrics <$> recs')
                ++ snd (compute_metrics members get_no_ref_score (Got <$> tailc)))
        as Hall'.
      { unfold all_records. fold all_frames. rewrite Hshape, fmap_app.
        by rewrite (compute_metrics_app members get_no_ref_score _ _ _ Hrun). }
      rewrite Hout, Htail' in Hall'.
      assert (snd (compute_metrics members get_no_ref_score (Got <$> tailc))
              = [PyInt FINISH]) as Hlast.
      { destruct Htailc as [-> | ->]; [|done]. cbn in Hall'.
        rewrite app_nil_r in Hall'.
        apply (f_equal (fun l => last l)) in Hall'.
        rewrite last_snoc in Hall'. rewrite fmap_last in Hall'.
        by destruct (last recs'). }
      rewrite Hlast in Hall'. apply app_inj_tail in Hall' as [Hall' _].
      symmetry.
      revert Hall'. clear. revert recs'.
      induction recs as [|r recs IH]; intros [|r' recs'] Heq; try done.
      rewrite !fmap_cons in Heq. injection Heq as -> Heq. f_equal. by apply IH. }
    rewrite Htl_eq, Hall, times_foldl_with_record, Htimes'', Hshape, frame_times_app.
    rewrite frame_times_tuples.
    destruct Htailc as [-> | ->]; cbn; by rewrite app_nil_r.
  - intros Hmono. rewrite Hticks. by apply now_sorted.
Qed.

End SystemClaims.

Section TwoRuns.

Context {MetricType : Type} `{Countable MetricType} {ndarray : Type}.
Variable members : list MetricType.
Variable value : MetricType -> string.
Variable savefig : string -> figure -> result unit.
Variable get_no_ref_score : ndarray -> MetricType -> result float.

(** The two runs: their window lists, clocks, captures, pauses and fuels. *)
Variables windows windows' : list window.
Variables now now' : nat -> datetime.
Variables capture_image capture_image' : Z -> nat -> result ndarray.
Variables time_sleep time_sleep' : float -> result unit.
Variables fuel fuel' : nat.

Local Abbreviation sys := (@sys MetricType _ _ ndarray).
Local Abbreviation timeline := (@timeline MetricType _ _).

(** C8. Two runs of the pipeline, each under any interleaving of its
    processes, on the same scoring function and with the same sequence of
    frames and capture times put by the capture stage (the window lists, the
    clocks, the captures, the pauses and the fuels may differ otherwise) and
    the same [savefig]: the scoring
    stage puts the same sequence of records in both, and when the graph
    process of each has ended, the two ended the same way, with the same
    timeline and the same saved figure, which are those of the composition
    of the three stage functions. *)
Theorem pipeline_deterministic (graph_dir : string) (s s' : sys)
    (o o' : outcome) (tl tl' : timeline) (saved saved' : option figure) :
  all_frames windows now capture_image time_sleep fuel
  = all_frames (MetricType := MetricType) windows' now' capture_image'
      time_sleep' fuel' ->
  reachable members value savefig windows now capture_image time_sleep
    get_no_ref_score fuel graph_dir s ->
  reachable members value savefig windows' now' capture_image' time_sleep'
    get_no_ref_score fuel' graph_dir s' ->
  procs s process_graph = Graphed o tl saved ->
  procs s' process_graph = Graphed o' tl' saved' ->
  all_records members windows now capture_image time_sleep get_no_ref_score fuel
  = all_records members windows' now' capture_image' time_sleep'
      get_no_ref_score fuel'
  /\ (o, tl, saved) = (o', tl', saved')
  /\ (o, tl, saved)
     = pipeline members value savefig windows now capture_image time_sleep
         get_no_ref_score fuel 30 graph_dir.
Proof.
  intros Hframes Hs%reachable_consistent Hs'%reachable_consistent Hg Hg'.
  assert (all_records members windows now capture_image time_sleep
            get_no_ref_score fuel
          = all_records members windows' now' capture_image' time_sleep'
              get_no_ref_score fuel') as Hrecords.
  { unfold all_records. by rewrite Hframes. }
  split; [done|].
  rewrite <- (consistent_Graphed _ _ _ _ _ _ _ _ _ _ _ _ _ _ Hs Hg).
  split; [|done].
  rewrite <- (consistent_Graphed _ _ _ _ _ _ _ _ _ _ _ _ _ _ Hs' Hg').
  by rewrite !pipeline_all_records, Hrecords.
Qed.

End TwoRuns.

(** ** The claims on the instance *)

Section DemoRuns.

Import Demo.

Local Abbreviation pyval := (@pyval string _ _ Z).
Local Abbreviation capture_images := (@capture_images string _ _ Z).
Local Abbreviation capture_loop := (@capture_loop string _ _ Z).
Local Abbreviation compute_metrics := (compute_metrics members get_no_ref_score).
Local Abbreviation graph_metrics_for ms :=
  (@graph_metrics string _ _ ms value Z savefig).
Local Abbreviation graph_metrics := (graph_metrics_for members).
Local Abbreviation graph_loop := (@graph_loop string _ _ members Z).
Local Abbreviation pipeline_on windows clock :=
  (pipeline members value savefig windows clock capture_image time_sleep
     get_no_ref_score).
Local Abbreviation pipeline := (pipeline_on [finder] now).

Lemma makes_ticks_now_fast : makes_ticks now_fast 7.
Proof.
  split; [|reflexivity].
  intros i Hi. do 7 (destruct i as [|i]; [reflexivity|]). lia.
Defined.

Lemma makes_ticks_now : makes_ticks now 1.
Proof.
  split; [|reflexivity].
  intros i Hi. destruct i as [|i]; [reflexivity|lia].
Defined.

Lemma tick_passes_now_fast (i : nat) :
  (i < 7)%nat ->
  tick_passes now_fast capture_image time_sleep raw 77 (PrimFloat.div 1 2) i.
Proof.
  intros Hi.
  do 7 (destruct i as [|i];
        [split; [reflexivity|vm_compute; repeat constructor]|]).
  lia.
Defined.

Lemma scores_well_4 : scores_well members get_no_ref_score 4.
Proof. intros m _. eexists. reflexivity. Defined.

Lemma NoDup_members : NoDup members.
Proof.
  apply NoDup_cons. split; [|apply NoDup_singleton].
  intros Hin%list_elem_of_singleton. discriminate.
Defined.

Lemma savefig_accepts (graph_dir : string) (fig : figure) :
  savefig (graph_dir ++ "/" ++ "frame_timeline.png") fig = Ok tt.
Proof. reflexivity. Defined.

(** At two frames per second, on a clock that shows a quarter of a second
    per tick, the run makes seven ticks and pauses a quarter of a second in
    each. *)
Lemma capture_images_pacing_demo :
  puts (snd (capture_images [finder; zoom] now_fast capture_image time_sleep 10 2))
  = (frame now_fast raw 77 <$> seq 0 7) ++ [PyInt FINISH]
  /\ sleeps (snd (capture_images [finder; zoom] now_fast capture_image time_sleep
                    10 2))
     = [0.25; 0.25; 0.25; 0.25; 0.25; 0.25; 0.25]%float.
Proof.
  destruct (capture_images_pacing (MetricType := string) [finder; zoom] now_fast
              capture_image time_sleep raw 7 10 2 77) as (_ & Hends & _).
  - reflexivity.
  - reflexivity.
  - exact (proj1 makes_ticks_now_fast).
  - exact tick_passes_now_fast.
  - lia.
  - destruct (Hends (proj2 makes_ticks_now_fast)) as (_ & Hputs & Hsleeps).
    split; [exact Hputs|]. rewrite Hsleeps. reflexivity.
Defined.

(** At a rate so low that the interval is beyond what [time.sleep] takes:
    the first tick puts its frame, [diff] is below the interval, and the
    pause raises: the run ends there, without a pause and with no
    sentinel. *)
Lemma capture_images_pause_overflows :
  PrimFloat.ltb (tick_diff now 0) (PrimFloat.div 1 0x1p-1000) = true
  /\ time_sleep (PrimFloat.sub (PrimFloat.div 1 0x1p-1000) (tick_diff now 0))
     = Raise OverflowError
  /\ capture_images [finder; zoom] now capture_image time_sleep 10 0x1p-1000
     = (Raised OverflowError, [Put (PyTuple2 4000000 7700)])
  /\ sleeps (snd (capture_images [finder; zoom] now capture_image time_sleep 10
                    0x1p-1000))
     = [].
Proof. vm_compute. by repeat split. Qed.

Lemma capture_images_first_frame_demo :
  exists rest,
    puts (snd (capture_images [finder; zoom] now capture_image time_sleep 10 30))
    = PyTuple2 4000000 7700 :: rest.
Proof.
  destruct (capture_images_first_frame (MetricType := string) [finder; zoom] now
              capture_image time_sleep 10 30 77) as (_ & Hfirst & _).
  - reflexivity.
  - reflexivity.
  - lia.
  - destruct Hfirst as [Hok _]; [reflexivity|].
    apply (Hok 7700). reflexivity.
Defined.

(** The clock shows six seconds between the reading before the loop and the
    reading of the first test: the run puts the sentinel and no frame. *)
Lemma capture_images_no_frame :
  within_deadline now_late 0 = false
  /\ capture_images [finder; zoom] now_late capture_image time_sleep 10 30
     = (Returned, [Put (PyInt FINISH); Close]).
Proof. vm_compute. by split. Qed.

(** No window of the list is the Zoom meeting: nothing is raised by the
    lookup and the loop runs on window -1. With a frame source that returns
    a buffer for that number, a frame and the sentinel are put on Channel A
    and the graph stage builds its timeline of one entry and saves a figure;
    with one that raises, its exception, raised in the loop, ends the
    stage. *)
Lemma capture_without_zoom_window :
  get_zoom_window_id [finder] = Ok (-1)
  /\ capture_images [finder] now capture_image time_sleep 10 30
     = (Returned, [Put (PyTuple2 4000000 (-100)); Put (PyInt FINISH); Close])
  /\ (pipeline 10 30 "out").1.1 = Returned
  /\ times (pipeline 10 30 "out").1.2 = [4000000]
  /\ is_Some (pipeline 10 30 "out").2
  /\ capture_images [finder] now capture_image_strict time_sleep 10 30
     = (Raised (OtherError "objc.error"), []).
Proof. vm_compute. repeat split. by eexists. Qed.

Lemma capture_images_window_not_found_demo :
  get_zoom_window_id [finder] = Ok (-1)
  /\ capture_images [finder] now capture_image time_sleep 10 30
     = capture_loop now capture_image time_sleep 10 (-1) (PrimFloat.div 1 30)
         (now 0) 1 0
  /\ exists rest,
       puts (snd (capture_images [finder] now capture_image time_sleep 10 30))
       = PyTuple2 4000000 (-100) :: rest.
Proof.
  destruct (capture_images_window_not_found (MetricType := string) [finder] now
              capture_image time_sleep 10 30) as [Hfound _].
  - repeat constructor.
  - destruct Hfound as [Hw Hrun].
    + constructor; [|constructor].
      split; [by eexists|reflexivity].
    + destruct Hrun as [Hloop Hfirst]; [reflexivity|].
      split; [exact Hw|]. split; [exact Hloop|].
      destruct Hfirst as [Hok _]; [lia|reflexivity|].
      apply (Hok (-100)). reflexivity.
Defined.

Lemma compute_metrics_score_vector_demo :
  exists r,
    compute_metrics_try members get_no_ref_score (Got (PyTuple2 40 4))
    = Next (PyVideoMetrics r)
    /\ score_vector_of members get_no_ref_score 40 4 r.
Proof.
  exact (proj1 (compute_metrics_score_vector members get_no_ref_score 40 4
                  scores_well_4)).
Defined.

(** Three runs that put no sentinel: the scoring function raises
    [RuntimeError] on the second frame; a window of the list has no owner
    name; the pause of the first tick is more than [time.sleep] takes. *)
Lemma sentinel_missing_when_stage_raises :
  (fst (compute_metrics (Got <$> [PyTuple2 10 1; PyTuple2 70 7; PyInt FINISH]))
   = Raised RuntimeError
   /\ length (snd (compute_metrics
                     (Got <$> [PyTuple2 10 1; PyTuple2 70 7; PyInt FINISH])))
      = 1%nat
   /\ existsb is_FINISH
        (snd (compute_metrics
                (Got <$> [PyTuple2 10 1; PyTuple2 70 7; PyInt FINISH])))
      = false)
  /\ capture_images [Samples.ownerless] now capture_image time_sleep 10 30
     = (Raised KeyError, [])
  /\ capture_images [finder; zoom] now capture_image time_sleep 10 0x1p-1000
     = (Raised OverflowError, [Put (PyTuple2 4000000 7700)]).
Proof. vm_compute. by repeat split. Qed.

(** The scoring function raises on the third frame of five: the result
    queue carries two records and the sentinel, the timeline has the two
    entries of the frames before it and none for the fourth and the fifth
    frame, which both score well. *)
Lemma scorer_raises_on_third_of_five :
  fst (compute_metrics (Got <$> five_frames)) = Returned
  /\ length (snd (compute_metrics (Got <$> five_frames))) = 3%nat
  /\ times (graph_metrics "out" (Got <$> snd (compute_metrics (Got <$> five_frames)))).1.2
     = [10; 20]
  /\ length (times (graph_metrics "out"
                      (Got <$> snd (compute_metrics (Got <$> five_frames)))).1.2)
     <> 4%nat
  /\ scores_well members get_no_ref_score 4
  /\ scores_well members get_no_ref_score 5.
Proof.
  split; [reflexivity|]. split; [reflexivity|]. split; [reflexivity|].
  split; [by vm_compute|].
  split; intros m _; eexists; reflexivity.
Qed.

Lemma compute_metrics_stops_at_ValueError_demo :
  exists recs tl fig,
    compute_metrics ((Got <$> (uncurry PyTuple2 <$> [(10, 1); (20, 2)]))
                     ++ Got (PyTuple2 30 3)
                        :: (Got <$> [PyTuple2 40 4; PyTuple2 50 5; PyInt FINISH]))
    = (Returned, (PyVideoMetrics <$> recs) ++ [PyInt FINISH])
    /\ Forall2 (fun f r => score_vector_of members get_no_ref_score f.1 f.2 r)
               [(10, 1); (20, 2)] recs
    /\ graph_metrics "out" (Got <$> ((PyVideoMetrics <$> recs) ++ [PyInt FINISH]))
       = (Returned, tl, Some fig)
    /\ times tl = [10; 20].
Proof.
  destruct (compute_metrics_stops_at_ValueError members value savefig
              get_no_ref_score "out" [(10, 1); (20, 2)] 30 3
              (Got <$> [PyTuple2 40 4; PyTuple2 50 5; PyInt FINISH]))
    as (recs & Hrun & Hrecs & tl & _ & Htimes & _ & Hsaved & _).
  - repeat constructor; intros m _; eexists; reflexivity.
  - reflexivity.
  - destruct Hsaved as (fig & _ & _ & Hfig).
    + exact NoDup_members.
    + cbn. lia.
    + exact (savefig_accepts "out").
    + exists recs, tl, fig. repeat split; assumption.
Defined.

Lemma graph_metrics_ValueError_keeps_timeline_demo :
  let pre := Got <$> take 2 (snd (compute_metrics (Got <$> five_frames))) in
  let tl := snd (graph_loop timeline_empty pre) in
  graph_loop tl (GetRaises ValueError :: [Got (PyInt FINISH)])
  = (Returned, tl)
  /\ exists fig,
       graph_metrics "out" (pre ++ GetRaises ValueError :: [Got (PyInt FINISH)])
       = (Returned, tl, Some fig).
Proof.
  intros pre tl.
  destruct (graph_metrics_ValueError_keeps_timeline members value savefig "out"
              pre [Got (PyInt FINISH)] tl) as (Hloop & _ & _ & Hsaved & _).
  - reflexivity.
  - split; [exact Hloop|].
    destruct Hsaved as (fig & _ & _ & Hfig).
    + exact NoDup_members.
    + cbn. lia.
    + exact (savefig_accepts "out").
    + by exists fig.
Defined.

(** With one metric kind only, the stage that left its loop on a
    [ValueError] of [get] saves nothing: [plt.subplots(1, 1)] gives one
    [Axes] and [ax[row_idx]] raises [TypeError]. *)
Lemma graph_metrics_one_member_saves_nothing :
  let ended :=
    graph_metrics_for one_member "out"
      [Got (PyVideoMetrics Samples.partial_record); GetRaises ValueError] in
  ended.1.1 = Raised TypeError
  /\ times ended.1.2 = [20]
  /\ ended.2 = None.
Proof. vm_compute. by repeat split. Qed.

Lemma reachable_run_on (windows : list window) (clock : nat -> datetime)
    (scores : Z -> string -> result float) (fuel : nat)
    (whos : list (option pid)) :
  is_Some (schedule members value savefig windows clock capture_image time_sleep
             scores fuel whos (boot "out")) ->
  reachable members value savefig windows clock capture_image time_sleep scores
    fuel "out" (Samples.run_on windows clock scores fuel whos).
Proof.
  intros [s Hs]. unfold Samples.run_on. rewrite Hs.
  eapply schedule_reachable. exact Hs.
Defined.

Lemma reachable_run (fuel : nat) (whos : list (option pid)) :
  is_Some (schedule members value savefig [finder] now capture_image time_sleep
             get_no_ref_score fuel whos (boot "out")) ->
  reachable members value savefig [finder] now capture_image time_sleep
    get_no_ref_score fuel "out" (run fuel whos).
Proof. apply reachable_run_on. Defined.

Lemma is_Some_run {A : Type} (x : option A) :
  match x with Some _ => True | None => False end -> is_Some x.
Proof. destruct x; [by eexists|done]. Defined.

Lemma now_monotone (i i' : nat) : (i <= i')%nat -> now i <= now i'.
Proof. unfold now. lia. Defined.

Lemma now_fast_monotone (i i' : nat) : (i <= i')%nat -> now_fast i <= now_fast i'.
Proof. unfold now_fast. lia. Defined.


(** The two schedules, the second one with more fuel for the capture loop,
    end with the same timeline. *)
Lemma pipeline_deterministic_demo :
  let result := pipeline 10 30 "out" in
  procs (run 10 stage_by_stage) process_graph
  = Graphed result.1.1 result.1.2 result.2
  /\ procs (run 12 taking_turns) process_graph
     = Graphed result.1.1 result.1.2 result.2
  /\ times result.1.2 = [4000000].
Proof.
  intros result.
  assert (procs (run 10 stage_by_stage) process_graph
          = Graphed result.1.1 result.1.2 result.2) as Hs
    by (vm_compute; reflexivity).
  assert (procs (run 12 taking_turns) process_graph
          = Graphed result.1.1 result.1.2 result.2) as Hs'
    by (vm_compute; reflexivity).
  destruct (pipeline_deterministic members value savefig get_no_ref_score
              [finder] [finder] now now capture_image capture_image
              time_sleep time_sleep 10 12 "out"
              (run 10 stage_by_stage) (run 12 taking_turns)
              result.1.1 result.1.1 result.1.2 result.1.2 result.2 result.2)
    as (_ & _ & _).
  - vm_compute. reflexivity.
  - apply reachable_run, is_Some_run. vm_compute. exact I.
  - apply reachable_run, is_Some_run. vm_compute. exact I.
  - exact Hs.
  - exact Hs'.
  - split; [exact Hs|]. split; [exact Hs'|]. vm_compute. reflexivity.
Defined.

(** Seven frames through the three stages, on the clock that shows a
    quarter of a second per reading: the timeline of the graph process has
    the seven capture times, in the order of the ticks. *)
Lemma timeline_in_capture_order_demo :
  let s := Samples.run_on [finder; zoom] now_fast get_no_ref_score 12
             Samples.seven_frames in
  exists tl,
    timeline_of (procs s process_graph) = Some tl
    /\ times tl = [500000; 1250000; 2000000; 2750000; 3500000; 4250000; 5000000]
    /\ times tl
       = frame_times (all_frames (MetricType := string) [finder; zoom] now_fast
                        capture_image time_sleep 12)
    /\ StronglySorted Z.le (times tl).
Proof.
  intros s.
  set (tl := (pipeline_on [finder; zoom] now_fast 12 30 "out").1.2).
  exists tl.
  destruct (timeline_in_capture_order members value savefig [finder; zoom]
              now_fast capture_image time_sleep get_no_ref_score 12 "out" s tl)
    as (_ & _ & _ & _ & Hsorted).
  - exact NoDup_members.
  - apply reachable_run_on, is_Some_run. vm_compute. exact I.
  - vm_compute. reflexivity.
  - split; [vm_compute; reflexivity|].
    split; [vm_compute; reflexivity|].
    split; [vm_compute; reflexivity|].
    apply Hsorted. exact now_fast_monotone.
Defined.

(** The clock steps back by half a second between the first and the second
    capture: the timeline has the two capture times in the order of the
    captures, the later entry with the earlier time. *)
Lemma timeline_times_step_back :
  let s := Samples.run_on [finder; zoom] now_back get_no_ref_score 12
             Samples.two_frames in
  main s = []
  /\ (exists tl saved,
        procs s process_graph = Graphed Returned tl saved
        /\ times tl = [1000000; 500000])
  /\ ~ StronglySorted Z.le [1000000; 500000].
Proof.
  intros s. split; [vm_compute; reflexivity|]. split.
  - eexists _, _. split; vm_compute; reflexivity.
  - intros Hsorted. apply StronglySorted_inv in Hsorted as [_ Hle].
    apply Forall_inv in Hle. lia.
Qed.

End DemoRuns.

(** * Further properties *)

(** ** The window lookup *)

Section WindowLookup.

Lemma get_zoom_window_id_passed (before rest : list window) :
  Forall passed_by before ->
  get_zoom_window_id (before ++ rest) = get_zoom_window_id rest.
Proof.
  induction 1 as [|win before [[owner Howner] Hno] _ IH]; [done|].
  rewrite <- app_comm_cons. cbn [get_zoom_window_id].
  unfold is_zoom_meeting in Hno. rewrite Howner in Hno |- *. by rewrite Hno.
Qed.

(** X1. [get_zoom_window_id] returns the window number of the first window
    of the list that is the Zoom meeting (owner "zoom.us", name "Zoom
    Meeting"), when the windows before it have an owner name; the windows
    after it are not looked at. *)
Theorem get_zoom_window_id_first_match (before after : list window)
    (win : window) (n : Z) :
  Forall passed_by before ->
  is_zoom_meeting win = true ->
  kCGWindowNumber win = Some n ->
  get_zoom_window_id (before ++ win :: after) = Ok n.
Proof.
  intros Hbefore Hwin Hn. rewrite get_zoom_window_id_passed by done.
  cbn [get_zoom_window_id]. unfold is_zoom_meeting in Hwin.
  destruct (kCGWindowOwnerName win) as [owner|]; [|done].
  by rewrite Hwin, Hn.
Qed.

(** X2. Whatever [get_zoom_window_id] returns comes from the list: either
    no window is the Zoom meeting and the result is -1, or the result is the
    window number of the first window that is the Zoom meeting. An id other
    than -1 is therefore always the number of a Zoom meeting window. *)
Theorem get_zoom_window_id_sound (windows : list window) (n : Z) :
  get_zoom_window_id windows = Ok n ->
  (n = -1 /\ Forall passed_by windows)
  \/ (exists before win after,
        windows = before ++ win :: after
        /\ Forall passed_by before
        /\ is_zoom_meeting win = true
        /\ kCGWindowNumber win = Some n).
Proof.
  induction windows as [|win windows IH]; cbn [get_zoom_window_id].
  - intros [= <-]. left. by split.
  - destruct (kCGWindowOwnerName win) as [owner|] eqn:Howner; [|done].
    destruct (String.eqb owner "zoom.us" && _) eqn:Hmatch.
    + destruct (kCGWindowNumber win) as [m|] eqn:Hm; [|done].
      intros [= <-]. right. exists [], win, windows.
      split; [done|]. split; [constructor|]. split; [|done].
      unfold is_zoom_meeting. by rewrite Howner.
    + intros Hrest.
      assert (passed_by win) as Hwin.
      { split; [by rewrite Howner|]. unfold is_zoom_meeting. by rewrite Howner. }
      destruct (IH Hrest) as [[-> Hall]|(before & win' & after & -> & Hb & Hw & Hn)].
      * left. split; [done|]. by constructor.
      * right. exists (win :: before), win', after.
        split; [done|]. split; [by constructor|]. done.
Qed.

(** X3. The two ways [get_zoom_window_id] raises. A window without an owner
    name that is reached (no Zoom meeting window before it) raises
    [KeyError], even when a Zoom meeting window follows it; the first Zoom
    meeting window, when it has no window number, raises [ValueError]. A
    window without a window name raises nothing: it is passed by. *)
Theorem get_zoom_window_id_raises (before after : list window) (win : window) :
  Forall passed_by before ->
  (kCGWindowOwnerName win = None ->
   get_zoom_window_id (before ++ win :: after) = Raise KeyError)
  /\ (is_zoom_meeting win = true ->
      kCGWindowNumber win = None ->
      get_zoom_window_id (before ++ win :: after) = Raise ValueError)
  /\ (is_Some (kCGWindowOwnerName win) ->
      kCGWindowName win = None ->
      get_zoom_window_id (before ++ win :: after) = get_zoom_window_id after).
Proof.
  intros Hbefore. rewrite get_zoom_window_id_passed by done.
  cbn [get_zoom_window_id]. split; [|split].
  - by intros ->.
  - unfold is_zoom_meeting.
    destruct (kCGWindowOwnerName win) as [owner|]; [|done].
    by intros -> ->.
  - intros [owner ->] ->. cbn [default]. by rewrite andb_false_r.
Qed.

End WindowLookup.

(** ** The view that [capture_image] returns *)

Section StridedView.

Variable CGWindowListCreateImage : Z -> Strided.cg_image.
Variable window_num : Z.

Local Abbreviation img := (CGWindowListCreateImage window_num).
Local Abbreviation bpr := (Strided.CGImageGetBytesPerRow img).
Local Abbreviation width := (Strided.CGImageGetWidth img).
Local Abbreviation height := (Strided.CGImageGetHeight img).
Local Abbreviation np_data :=
  (Strided.capture_image CGWindowListCreateImage window_num).

Lemma offset_capture_image (y x c : nat) :
  Strided.offset np_data y x c = (y * bpr + 4 * x + c)%nat.
Proof. unfold Strided.offset, Strided.capture_image. cbn [Strided.strides]. lia. Qed.

Lemma in_shape_capture_image (y x c : nat) :
  Strided.in_shape np_data y x c = true
  <-> (y < height /\ x < width /\ c < 3)%nat.
Proof.
  unfold Strided.in_shape, Strided.capture_image. cbn [Strided.shape].
  rewrite !andb_true_iff, !Nat.ltb_lt. naive_solver.
Qed.

(** X4. On an image whose rows hold four bytes per pixel and whose data
    holds all its rows, every element [[y, x, c]] of the array that
    [capture_image] returns, within its shape (height, width, 3), is read
    inside the data: it is the byte at [y * bpr + 4 * x + c]. *)
Theorem capture_image_in_bounds (y x c : nat) :
  Strided.well_laid_out img ->
  (y < height)%nat -> (x < width)%nat -> (c < 3)%nat ->
  exists b,
    Strided.getitem np_data y x c = Strided.Value b
    /\ Strided.CGDataProviderCopyData img !! (y * bpr + 4 * x + c)%nat = Some b.
Proof.
  intros [Hrow Hdata] Hy Hx Hc. unfold Strided.getitem.
  rewrite (proj2 (in_shape_capture_image y x c)) by done.
  rewrite offset_capture_image.
  change (Strided.np_raw_data np_data) with (Strided.CGDataProviderCopyData img).
  destruct (Strided.CGDataProviderCopyData img !! (y * bpr + 4 * x + c)%nat)
    as [b|] eqn:Hb.
  - by exists b.
  - apply lookup_ge_None in Hb. nia.
Qed.

(** X5. On an image whose rows hold four bytes per pixel, two different
    indices of the array within its shape are read at two different places
    of the data: no byte is seen twice. *)
Theorem capture_image_no_alias (y x c y' x' c' : nat) :
  (4 * width <= bpr)%nat ->
  (x < width)%nat -> (c < 3)%nat -> (x' < width)%nat -> (c' < 3)%nat ->
  (y, x, c) <> (y', x', c') ->
  Strided.offset np_data y x c <> Strided.offset np_data y' x' c'.
Proof.
  intros Hrow Hx Hc Hx' Hc' Hne. rewrite !offset_capture_image. intros Heq.
  assert (y = y') as <- by nia.
  assert (x = x') as <- by lia.
  assert (c = c') as <- by lia.
  done.
Qed.

(** X6. On an image whose rows hold four bytes per pixel, the array never
    holds the fourth byte of a pixel nor a byte of the padding at the end of
    a row: no element within the shape is read at [y' * bpr + 4 * x' + 3]
    for a pixel [(y', x')] of the image, nor at [y' * bpr + p] for a place
    [p] of a row from [4 * width] on. *)
Theorem capture_image_skips_fourth_byte_and_padding (y x c : nat) :
  (4 * width <= bpr)%nat ->
  (x < width)%nat -> (c < 3)%nat ->
  (forall y' x' : nat, (x' < width)%nat ->
     Strided.offset np_data y x c <> (y' * bpr + 4 * x' + 3)%nat)
  /\ (forall y' p : nat, (4 * width <= p < bpr)%nat ->
        Strided.offset np_data y x c <> (y' * bpr + p)%nat).
Proof.
  intros Hrow Hx Hc. rewrite offset_capture_image. split.
  - intros y' x' Hx' Heq. assert (y = y') as <- by nia. lia.
  - intros y' p Hp Heq. assert (y = y') as <- by nia. lia.
Qed.

End StridedView.

(** ** The graph stage: what it takes to save a figure *)

Section GraphStage.

Context {MetricType : Type} `{Countable MetricType} {ndarray : Type}.
Variable members : list MetricType.
Variable value : MetricType -> string.
Variable savefig : string -> figure -> result unit.

Local Abbreviation pyval := (@pyval MetricType _ _ ndarray).
Local Abbreviation get_result := (@get_result MetricType _ _ ndarray).
Local Abbreviation VideoMetrics := (@VideoMetrics MetricType _ _).
Local Abbreviation timeline := (@timeline MetricType _ _).
Local Abbreviation graph_loop := (@graph_loop MetricType _ _ members ndarray).
Local Abbreviation graph_metrics_try := (@graph_metrics_try MetricType _ _ members ndarray).
Local Abbreviation graph_metrics :=
  (@graph_metrics MetricType _ _ members value ndarray savefig).
Local Abbreviation graph_finish := (graph_finish members value savefig).
Local Abbreviation plot := (plot members value).
Local Abbreviation with_record := (with_record members).
Local Abbreviation complete := (complete members).


(** A figure that was saved: it was plotted, [savefig] took it and the
    stage returned. *)
Lemma graph_finish_Some (graph_dir : string) (tl tl' : timeline) (o : outcome)
    (fig : figure) :
  graph_finish graph_dir tl = (o, tl', Some fig) ->
  o = Returned /\ tl' = tl
  /\ plot graph_dir tl = Ok fig
  /\ savefig (image_filename fig) fig = Ok tt.
Proof.
  unfold graph_finish.
  destruct (plot graph_dir tl) as [fig'|e]; [|done].
  destruct (savefig (image_filename fig') fig') as [[]|e] eqn:Hsave; [|done].
  by intros [= <- <- <-].
Qed.

(** X7. A figure is saved only at the end of the stream: whenever
    [graph_metrics] saves a figure, it has got records that hold a score for
    every member of [MetricType] and, right after them, the sentinel or a
    [ValueError] of its [get]; it has returned, its timeline holds these
    records and no other, and the figure is the plot of that timeline, which
    [savefig] took. What follows on the queue is not looked at. *)
Theorem graph_metrics_figure_after_end_of_stream (graph_dir : string)
    (gets : list get_result) (o : outcome) (tl : timeline) (fig : figure) :
  graph_metrics graph_dir gets = (o, tl, Some fig) ->
  exists (recs : list VideoMetrics) (g : get_result) (rest : list get_result),
    gets = (Got <$> (PyVideoMetrics <$> recs)) ++ g :: rest
    /\ Forall complete recs
    /\ (g = Got (PyInt FINISH) \/ g = GetRaises ValueError)
    /\ o = Returned
    /\ tl = foldl with_record timeline_empty recs
    /\ times tl = time <$> recs
    /\ plot graph_dir tl = Ok fig
    /\ savefig (image_filename fig) fig = Ok tt.
Proof.
  unfold graph_metrics.
  destruct (graph_loop timeline_empty gets) as [[|e|] tl'] eqn:Hloop;
    [|done..].
  intros (-> & -> & Hplot & Hsave)%graph_finish_Some.
  destruct (graph_loop_Returned members _ _ _ Hloop) as (recs & g & rest & -> & Hr & Hg & ->).
  exists recs, g, rest. repeat (split; [done|]).
  split; [|done]. by rewrite times_foldl_with_record.
Qed.


(** X9. A record that lacks the score of a member of [MetricType], after
    records that lack none: [graph_metrics] ends with [KeyError], whatever
    follows on the queue, and saves no figure. The time of the record has
    been appended to [times] by then, and the column of the lacking member
    has one entry less than [times]. *)
Theorem graph_metrics_KeyError (graph_dir : string)
    (recs : list VideoMetrics) (r : VideoMetrics) (rest : list get_result)
    (m : MetricType) :
  NoDup members ->
  Forall complete recs ->
  m ∈ members ->
  metrics r !! m = None ->
  exists tl,
    graph_metrics graph_dir
      ((Got <$> (PyVideoMetrics <$> recs)) ++ Got (PyVideoMetrics r) :: rest)
    = (Raised KeyError, tl, None)
    /\ times tl = (time <$> recs) ++ [time r]
    /\ length (times tl) = S (length (image_scores tl !!! m)).
Proof.
  intros Hnd Hrecs Hm Hr.
  unfold graph_metrics.
  rewrite (graph_loop_app members _ _ _ _ (graph_loop_records members _ recs Hrecs)).
  cbn [graph_loop]. unfold graph_metrics_try. cbn [is_FINISH].
  pose proof (append_scores_KeyError (metrics r) members
                (image_scores (foldl with_record timeline_empty recs)) m Hm Hr) as Hk.
  pose proof (append_scores_missing (metrics r) members
                (image_scores (foldl with_record timeline_empty recs)) m Hr) as Hcol.
  destruct (append_scores _ _ _) as [sc res]. cbn [fst snd] in Hk, Hcol.
  subst res. cbn [except_ValueError].
  eexists. split; [done|]. cbn [times image_scores].
  rewrite times_foldl_with_record. split; [done|].
  rewrite Hcol, (column_foldl_with_record members) by done.
  cbn [timeline_empty image_scores times]. rewrite lookup_total_empty.
  cbn [app]. rewrite !length_app, (length_column members) by done.
  rewrite length_fmap. cbn. lia.
Qed.

End GraphStage.

(** ** The scoring stage on an exception it does not handle *)

Section ScoringErrors.

Context {MetricType : Type} `{Countable MetricType} {ndarray : Type}.
Variable members : list MetricType.
Variable value : MetricType -> string.
Variable savefig : string -> figure -> result unit.
Variable get_no_ref_score : ndarray -> MetricType -> result float.

Local Abbreviation pyval := (@pyval MetricType _ _ ndarray).
Local Abbreviation get_result := (@get_result MetricType _ _ ndarray).
Local Abbreviation VideoMetrics := (@VideoMetrics MetricType _ _).
Local Abbreviation timeline := (@timeline MetricType _ _).
Local Abbreviation compute_metrics := (compute_metrics members get_no_ref_score).
Local Abbreviation compute_metrics_try := (compute_metrics_try members get_no_ref_score).
Local Abbreviation graph_loop := (@graph_loop MetricType _ _ members ndarray).
Local Abbreviation graph_metrics :=
  (@graph_metrics MetricType _ _ members value ndarray savefig).
Local Abbreviation complete := (complete members).
Local Abbreviation with_record := (with_record members).
Local Abbreviation scores_well := (scores_well members get_no_ref_score).
Local Abbreviation score_vector_of := (score_vector_of members get_no_ref_score).

(** The comprehension stops at the first key whose score raises. *)
Lemma metrics_comprehension_raise (image_data : ndarray)
    (before after : list MetricType) (m : MetricType) (e : exn)
    (acc : gmap MetricType float) :
  (forall m', m' ∈ before -> exists s, get_no_ref_score image_data m' = Ok s) ->
  get_no_ref_score image_data m = Raise e ->
  metrics_comprehension get_no_ref_score image_data (before ++ m :: after) acc
  = Raise e.
Proof.
  revert acc.
  induction before as [|m0 before IH]; intros acc Hbefore Hm;
    cbn [app metrics_comprehension].
  - by rewrite Hm.
  - destruct (Hbefore m0) as [s ->]; [by left|].
    apply IH; [|done]. intros m' Hm'. apply Hbefore. by right.
Qed.

(** X10. An exception other than [ValueError], raised by the scoring
    function on some member of [MetricType] for a frame (the members before
    it scoring well on that frame), after frames that all score well: the
    exception leaves [compute_metrics], which has put one score vector per
    earlier frame and puts no sentinel; the members after the raising one
    are not scored and what follows on the queue is not read. The graph
    stage, on what was put, accumulates the records and is left waiting in
    its [get]: it saves no figure. *)
Theorem compute_metrics_dies_without_sentinel (graph_dir : string)
    (frames : list (datetime * ndarray)) (t : datetime) (bad : ndarray)
    (rest : list get_result) (before after : list MetricType)
    (m : MetricType) (e : exn) :
  Forall (fun f => scores_well f.2) frames ->
  members = before ++ m :: after ->
  (forall m', m' ∈ before -> exists s, get_no_ref_score bad m' = Ok s) ->
  get_no_ref_score bad m = Raise e ->
  e <> ValueError ->
  exists recs : list VideoMetrics,
    compute_metrics ((Got <$> (uncurry PyTuple2 <$> frames))
                     ++ Got (PyTuple2 t bad) :: rest)
    = (Raised e, PyVideoMetrics <$> recs)
    /\ Forall2 (fun f r => score_vector_of f.1 f.2 r) frames recs
    /\ exists tl : timeline,
         graph_metrics graph_dir (Got <$> (PyVideoMetrics <$> recs))
         = (Unfinished, tl, None)
         /\ times tl = frames.*1.
Proof.
  intros Hgood Hmembers Hbefore Hm He.
  destruct (compute_metrics_frames members get_no_ref_score frames Hgood)
    as (recs & Hrun & Hrecs).
  exists recs.
  destruct (Forall2_score_vector_times members get_no_ref_score _ _ Hrecs)
    as [Htimes Hcomplete].
  split; [|split; [done|]].
  - rewrite (compute_metrics_app members get_no_ref_score _ _ _ Hrun).
    cbn [compute_metrics compute_metrics_try is_FINISH].
    assert (metrics_comprehension get_no_ref_score bad members ∅ = Raise e)
      as Hbad by (rewrite Hmembers; by apply metrics_comprehension_raise).
    rewrite Hbad.
    destruct e; try done; cbn [except_ValueError fst snd]; by rewrite app_nil_r.
  - exists (foldl with_record timeline_empty recs).
    unfold graph_metrics. rewrite (graph_loop_records members) by done.
    split; [done|]. by rewrite times_foldl_with_record.
Qed.

End ScoringErrors.

(** ** The end of the capture loop *)

Section CaptureEnd.

Context {MetricType : Type} `{Countable MetricType} {ndarray : Type}.
Variable windows : list window.
Variable now : nat -> datetime.
Variable capture_image : Z -> nat -> result ndarray.
Variable time_sleep : float -> result unit.
Variable raw : Z -> nat -> ndarray.

Local Abbreviation event := (@event MetricType _ _ ndarray).
Local Abbreviation pyval := (@pyval MetricType _ _ ndarray).
Local Abbreviation capture_images :=
  (@capture_images MetricType _ _ ndarray windows now capture_image time_sleep).
Local Abbreviation ticks_events := (@ticks_events MetricType _ _ ndarray now raw).
Local Abbreviation tick_passes := (tick_passes now capture_image time_sleep raw).
Local Abbreviation tick_fails :=
  (@tick_fails MetricType _ _ ndarray now capture_image time_sleep raw).

(** The first test of the loop that fails. *)
Lemma makes_ticks_before (i : nat) :
  (forall j, (j < i)%nat -> within_deadline now j = true)
  \/ (exists n, (n < i)%nat /\ makes_ticks now n).
Proof.
  induction i as [|i [Hin|(n & Hn & Hticks)]].
  - left. intros j Hj. lia.
  - destruct (within_deadline now i) eqn:Hi.
    + left. intros j Hj.
      destruct (decide (j = i)) as [->|Hne]; [done|]. apply Hin. lia.
    + right. exists i. split; [lia|]. by split.
  - right. exists n. split; [lia|done].
Qed.

Lemma makes_ticks_first (i : nat) :
  within_deadline now i = false ->
  exists n, (n <= i)%nat /\ makes_ticks now n.
Proof.
  intros Hi. destruct (makes_ticks_before i) as [Hin|(n & Hn & Hticks)].
  - exists i. split; [done|]. by split.
  - exists n. split; [lia|done].
Qed.

(** X11. The capture loop returns at the first test of its [while] that
    finds more than five seconds elapsed, and only there. If some test
    fails and the ticks before the first one that does all pass (their
    captures return, their pauses are taken), the stage makes exactly those
    ticks, puts their frames, then the sentinel, closes the queue and
    returns. If no test ever fails (a clock that stands still or was set
    back) and every tick passes, the stage never puts the sentinel, however
    long it runs. And if a tick fails, at its capture or at its pause,
    before any test has failed, the exception ends the stage there, after
    the ticks before it, and no sentinel is put. *)
Theorem capture_images_ends_at_first_late_reading (frame_rate : float) (w : Z) :
  get_zoom_window_id windows = Ok w ->
  PrimFloat.eqb frame_rate 0 = false ->
  (forall i, within_deadline now i = false ->
     exists n, (n <= i)%nat
       /\ makes_ticks now n
       /\ ((forall j, (j < n)%nat -> tick_passes w (PrimFloat.div 1 frame_rate) j) ->
           forall fuel, (n < fuel)%nat ->
             capture_images fuel frame_rate
             = (Returned,
                ticks_events w (PrimFloat.div 1 frame_rate) 0 n
                ++ [Put (PyInt FINISH); Close])))
  /\ ((forall i, within_deadline now i = true) ->
      (forall i, tick_passes w (PrimFloat.div 1 frame_rate) i) ->
      forall fuel,
        capture_images fuel frame_rate
        = (Unfinished, ticks_events w (PrimFloat.div 1 frame_rate) 0 fuel)
        /\ PyInt FINISH ∉ puts (snd (capture_images fuel frame_rate)))
  /\ (forall (n : nat) (e : exn) (done : list event),
        (forall i, (i <= n)%nat -> within_deadline now i = true) ->
        (forall i, (i < n)%nat -> tick_passes w (PrimFloat.div 1 frame_rate) i) ->
        tick_fails w (PrimFloat.div 1 frame_rate) n e done ->
        forall fuel, (n < fuel)%nat ->
          capture_images fuel frame_rate
          = (Raised e, ticks_events w (PrimFloat.div 1 frame_rate) 0 n ++ done)
          /\ PyInt FINISH ∉ puts (snd (capture_images fuel frame_rate))).
Proof.
  intros Hw Hr. split; [|split].
  - intros i Hi. destruct (makes_ticks_first i Hi) as (n & Hn & Hticks).
    exists n. split; [done|]. split; [done|].
    intros Hpass fuel Hfuel.
    by apply (capture_images_ticks windows now capture_image time_sleep raw).
  - intros Hin Hpass fuel.
    assert (capture_images fuel frame_rate
            = (Unfinished, ticks_events w (PrimFloat.div 1 frame_rate) 0 fuel))
      as Hrun.
    { rewrite (capture_images_loop windows now capture_image time_sleep _ _ w)
        by done.
      apply (capture_loop_running now capture_image time_sleep raw fuel w _ 0%nat).
      - intros i _. apply Hin.
      - intros i _. apply Hpass. }
    split; [done|]. rewrite Hrun. cbn [snd].
    rewrite puts_ticks_events. by intros (i & ? & _)%list_elem_of_fmap.
  - intros n e done Hin Hpass Hfail fuel Hfuel.
    assert (capture_images fuel frame_rate
            = (Raised e, ticks_events w (PrimFloat.div 1 frame_rate) 0 n ++ done))
      as Hrun.
    { rewrite (capture_images_loop windows now capture_image time_sleep _ _ w)
        by done.
      apply (capture_loop_fails now capture_image time_sleep raw n fuel w _
               0%nat e done); try done.
      - intros i Hi. apply Hin. cbn. lia.
      - apply Hin. cbn. lia. }
    split; [done|]. rewrite Hrun. cbn [snd].
    rewrite puts_app, puts_ticks_events.
    intros [(i & ? & _)%list_elem_of_fmap|Hdone]%elem_of_app; [done|].
    destruct Hfail as [[_ ->]|(_ & _ & ->)]; cbn in Hdone.
    + by apply elem_of_nil in Hdone.
    + by apply list_elem_of_singleton in Hdone.
Qed.

End CaptureEnd.

(** ** Runs that never return *)

Section Waiting.

Context {MetricType : Type} `{Countable MetricType} {ndarray : Type}.
Variable members : list MetricType.
Variable value : MetricType -> string.
Variable savefig : string -> figure -> result unit.
Variable windows : list window.
Variable now : nat -> datetime.
Variable capture_image : Z -> nat -> result ndarray.
Variable time_sleep : float -> result unit.
Variable get_no_ref_score : ndarray -> MetricType -> result float.
Variable fuel : nat.

Local Abbreviation pyval := (@pyval MetricType _ _ ndarray).
Local Abbreviation get_result := (@get_result MetricType _ _ ndarray).
Local Abbreviation VideoMetrics := (@VideoMetrics MetricType _ _).
Local Abbreviation timeline := (@timeline MetricType _ _).
Local Abbreviation sys := (@sys MetricType _ _ ndarray).
Local Abbreviation consistent :=
  (consistent members value savefig windows now capture_image time_sleep
     get_no_ref_score fuel).
Local Abbreviation reachable :=
  (reachable members value savefig windows now capture_image time_sleep
     get_no_ref_score fuel).
Local Abbreviation all_frames :=
  (@all_frames MetricType _ _ ndarray windows now capture_image time_sleep fuel).
Local Abbreviation all_records :=
  (all_records members windows now capture_image time_sleep get_no_ref_score fuel).
Local Abbreviation compute_metrics := (compute_metrics members get_no_ref_score).
Local Abbreviation graph_loop := (@graph_loop MetricType _ _ members ndarray).
Local Abbreviation graph_metrics := (@graph_metrics MetricType _ _ members value ndarray savefig).

(** The graph process ends only if the graph stage, on all the scoring
    stage puts, leaves its loop. *)
Lemma consistent_waiting (graph_dir : string) (s : sys) (tl : timeline) :
  graph_loop timeline_empty (Got <$> all_records) = (Unfinished, tl) ->
  consistent graph_dir s ->
  exited (procs s process_graph) = false /\ main s <> [].
Proof.
  intros Hall (k & done & Hmain & _ & _ & Hg & _ & _ & Hrec).
  assert (exited (procs s process_graph) = false) as Hgraph.
  { destruct (procs s process_graph) as [| | | |d q tl0|o0|o0 tl0 saved0];
      cbn in Hg |- *; try done.
    destruct Hg as (_ & Ho & Hdone).
    apply (graph_metrics_loop members value savefig) in Hdone
      as (o' & Hdone & Ho' & _).
    assert (o' <> Unfinished) as Hleft' by tauto.
    pose proof (graph_loop_left members _ _ _ (Got <$> records_ahead members
                  windows now capture_image time_sleep get_no_ref_score fuel s)
                  _ Hdone Hleft') as Hleft.
    rewrite <- fmap_app, <- Hrec, Hall in Hleft. by injection Hleft as <-. }
  split; [done|].
  intros Hend. rewrite Hend in Hmain.
  assert (11 <= k)%nat as Hk.
  { apply (f_equal length) in Hmain. rewrite length_drop in Hmain.
    cbn in Hmain. lia. }
  destruct (procs s process_graph); cbn in Hg, Hgraph; try done;
    exfalso; by intuition lia.
Qed.

(** Only records: the loop of the graph stage waits for more. *)
Lemma graph_loop_waits (recs : list VideoMetrics) :
  Forall (complete members) recs ->
  fst (graph_loop timeline_empty (Got <$> (PyVideoMetrics <$> recs))) = Unfinished.
Proof. intros Hrecs. by rewrite (graph_loop_records members). Qed.

(** What the scoring stage has put when an exception leaves it: records,
    and no sentinel. *)
Lemma compute_metrics_Raised_records (data : list pyval) (e : exn)
    (out : list pyval) :
  compute_metrics (Got <$> data) = (Raised e, out) ->
  exists recs, out = PyVideoMetrics <$> recs /\ Forall (complete members) recs.
Proof.
  revert out.
  induction data as [|v data IH]; intros out; [done|].
  rewrite fmap_cons. cbn [compute_metrics].
  destruct (compute_metrics_try members get_no_ref_score (Got v))
    as [v'| |e'] eqn:Htry.
  - apply compute_metrics_try_vector in Htry as (t & a & r & _ & -> & Hr).
    cbn [except_ValueError].
    destruct (compute_metrics (Got <$> data)) as [o out'].
    intros [= -> <-]. destruct (IH _ eq_refl) as (recs & -> & Hrecs).
    exists (r :: recs). split; [done|]. constructor; [|done].
    by eapply score_vector_complete.
  - done.
  - destruct e'; cbn [except_ValueError]; [done|..];
      intros [= _ <-]; by exists [].
Qed.

(** X12. When the window lookup raises (a window without owner name, or a
    Zoom meeting window without number), [run_video_processes] never
    returns: under any interleaving nothing is ever put on the metrics
    queue, the graph process does not end, with nothing in its timeline, and
    the orchestrator does not get past its joins. *)
Theorem run_video_processes_waits_after_lookup_error (graph_dir : string)
    (s : sys) (e : exn) :
  get_zoom_window_id windows = Raise e ->
  reachable graph_dir s ->
  main s <> []
  /\ exited (procs s process_graph) = false
  /\ queues s metrics_queue = []
  /\ (forall tl, timeline_of (procs s process_graph) = Some tl ->
                 tl = timeline_empty).
Proof.
  intros Hw Hs%reachable_consistent.
  assert (all_records = []) as Hall.
  { unfold all_records, all_frames, capture_images. by rewrite Hw. }
  destruct (consistent_waiting graph_dir s timeline_empty) as [Hgraph Hmain];
    [by rewrite Hall|done|].
  split; [done|]. split; [done|].
  destruct Hs as (k & done & _ & _ & _ & Hg & _ & _ & Hrec).
  rewrite Hall in Hrec. symmetry in Hrec.
  apply app_eq_nil in Hrec as [-> Hahead].
  apply app_eq_nil in Hahead as [Hq _].
  split; [done|].
  intros tl Htl.
  destruct (procs s process_graph) as [| | | |d q tl0|o0|o0 tl0 saved0];
    cbn in Htl, Hg, Hgraph; try done.
  injection Htl as ->. destruct Hg as (_ & _ & _ & Hloop).
  cbn in Hloop. by injection Hloop as <-.
Qed.

(** X13. When an exception leaves the scoring stage on the frames that the
    capture stage puts (the scoring function raises something else than
    [ValueError]), the sentinel never reaches the graph stage and
    [run_video_processes] never returns: under any interleaving the graph
    process does not end, no figure is saved, and the orchestrator does not
    get past its joins. *)
Theorem run_video_processes_waits_after_scoring_error (graph_dir : string)
    (s : sys) (e : exn) (out : list pyval) :
  compute_metrics (Got <$> all_frames) = (Raised e, out) ->
  reachable graph_dir s ->
  e <> ValueError
  /\ main s <> []
  /\ exited (procs s process_graph) = false.
Proof.
  intros Hrun Hs%reachable_consistent.
  split; [by eapply compute_metrics_Raised|].
  destruct (compute_metrics_Raised_records _ _ _ Hrun) as (recs & -> & Hrecs).
  pose proof (graph_loop_waits recs Hrecs) as Hwait.
  destruct (graph_loop timeline_empty (Got <$> (PyVideoMetrics <$> recs)))
    as [o tl] eqn:Hloop.
  cbn [fst] in Hwait. subst o.
  destruct (consistent_waiting graph_dir s tl) as [Hgraph Hmain]; [|done|done].
  unfold all_records. by rewrite Hrun.
Qed.

End Waiting.

(** ** Runs that return: no deadlock *)

Section Progress.

Context {MetricType : Type} `{Countable MetricType} {ndarray : Type}.
Variable members : list MetricType.
Variable value : MetricType -> string.
Variable savefig : string -> figure -> result unit.
Variable windows : list window.
Variable now : nat -> datetime.
Variable capture_image : Z -> nat -> result ndarray.
Variable time_sleep : float -> result unit.
Variable get_no_ref_score : ndarray -> MetricType -> result float.
Variable fuel : nat.

Local Abbreviation pyval := (@pyval MetricType _ _ ndarray).
Local Abbreviation get_result := (@get_result MetricType _ _ ndarray).
Local Abbreviation VideoMetrics := (@VideoMetrics MetricType _ _).
Local Abbreviation timeline := (@timeline MetricType _ _).
Local Abbreviation sys := (@sys MetricType _ _ ndarray).
Local Abbreviation proc := (@proc MetricType _ _ ndarray).
Local Abbreviation consistent :=
  (consistent members value savefig windows now capture_image time_sleep
     get_no_ref_score fuel).
Local Abbreviation tracked :=
  (tracked members windows now capture_image time_sleep get_no_ref_score fuel).
Local Abbreviation reachable :=
  (reachable members value savefig windows now capture_image time_sleep
     get_no_ref_score fuel).
Local Abbreviation all_frames :=
  (@all_frames MetricType _ _ ndarray windows now capture_image time_sleep fuel).
Local Abbreviation all_records :=
  (all_records members windows now capture_image time_sleep get_no_ref_score fuel).
Local Abbreviation capture_rest :=
  (@capture_rest MetricType _ _ ndarray windows now capture_image time_sleep fuel).
Local Abbreviation main_step := (main_step windows now capture_image time_sleep fuel).
Local Abbreviation proc_step := (proc_step members value savefig get_no_ref_score).
Local Abbreviation step :=
  (step members value savefig windows now capture_image time_sleep
     get_no_ref_score fuel).
Local Abbreviation compute_metrics := (compute_metrics members get_no_ref_score).
Local Abbreviation compute_metrics_try := (compute_metrics_try members get_no_ref_score).
Local Abbreviation graph_loop := (@graph_loop MetricType _ _ members ndarray).
Local Abbreviation graph_metrics := (@graph_metrics MetricType _ _ members value ndarray savefig).
Local Abbreviation scores_well := (scores_well members get_no_ref_score).
Local Abbreviation capture_loop := (@capture_loop MetricType _ _ ndarray).
Local Abbreviation capture_images := (@capture_images MetricType _ _ ndarray).
Local Abbreviation frame := (@frame MetricType _ _ ndarray).

Ltac upd :=
  repeat first [ rewrite fn_lookup_insert
               | rewrite fn_lookup_insert_ne by discriminate ].

Lemma boot_tracked (graph_dir : string) : tracked (boot graph_dir).
Proof.
  exists []. cbn. split; [by rewrite app_nil_r || done|]. split; done.
Qed.

Lemma main_step_tracked (graph_dir : string) (s s' : sys) :
  consistent graph_dir s -> tracked s -> main_step s = Some s' -> tracked s'.
Proof.
  intros (k & done & Hmain & Hc & Ha & Hg & HqA & HqB & Hrec)
         (taken & Hframes & Hending & Htaken) Hstep.
  unfold main_step in Hstep. rewrite Hmain in Hstep.
  destruct k as [|[|[|[|[|[|[|[|[|[|[|k]]]]]]]]]]];
    cbn [drop skipn run_video_processes] in Hstep; [..|by destruct k].
  all: destruct (procs s process_capture) as [|tc|qc todo ending| | |oc|] eqn:Ec;
    cbn in Hc; try (exfalso; by intuition lia).
  all: destruct (procs s process_analysis) as [|ta| |dq rq| |oa|] eqn:Ea;
    cbn in Ha; try (exfalso; by intuition lia).
  all: destruct (procs s process_graph) as [|tg| | |d q tl|og|og tl saved] eqn:Eg;
    cbn in Hg; try (exfalso; by intuition lia).
  all: cbn [exited] in Hstep; try discriminate Hstep.
  all: injection Hstep as <-.
  all: exists taken; unfold tracked.
  all: cbn [main procs queues]; upd; rewrite ?Ec, ?Ea.
  all: try rewrite HqA in * by lia.
  all: repeat match goal with H : _ /\ _ |- _ => destruct H end; subst.
  all: unfold started.
  all: try (destruct (capture_images _ _ _ _ _) as [o evs] eqn:Hcap).
  all: cbn [capture_rest exited] in Hframes, Htaken |- *.
  all: split_and!; try done.
  all: try (intros q0 todo0 ending0 [= _ _ <-]; by apply Hending).
  - assert (all_frames = puts evs) as Hall by (unfold all_frames; by rewrite Hcap).
    by rewrite <- Hall.
  - by intros q0 todo0 ending0 [= _ _ <-].
Qed.

Lemma proc_step_tracked (graph_dir : string) (p : pid) (s s' : sys) :
  consistent graph_dir s -> tracked s -> proc_step p s = Some s' -> tracked s'.
Proof.
  intros (k & done & Hmain & Hc & Ha & Hg & HqA & HqB & Hrec)
         (taken & Hframes & Hending & Htaken) Hstep.
  unfold proc_step in Hstep.
  destruct p.
  - (* the capture process *)
    destruct (procs s process_capture) as [|tc|qc todo ending| | |oc|] eqn:Ec;
      cbn in Hc; try done.
    destruct Hc as [-> Hk].
    destruct todo as [|ev todo].
    + destruct ending; try done; injection Hstep as <-.
      all: exists taken; cbn [main procs queues]; upd.
      all: split_and!; try done.
    + injection Hstep as <-.
      exists taken; cbn [main procs queues]; upd.
      set (qs := match ev with Put v => _ | _ => _ end).
      assert (qs packet_queue ++ puts todo
              = queues s packet_queue ++ puts (ev :: todo)) as Hp.
      { subst qs. destruct ev; unfold put; upd; cbn; try done.
        by rewrite <- app_assoc. }
      cbn [capture_rest] in Hframes |- *. split_and!; [by rewrite Hp| |done].
      intros q0 todo0 ending0 [= _ _ <-]. by eapply Hending.
  - (* the scoring process *)
    destruct (procs s process_analysis) as [|ta| |dq rq| |oa|] eqn:Ea;
      cbn in Ha; try done.
    destruct Ha as (-> & -> & Hk).
    destruct (queues s packet_queue) as [|res waiting] eqn:EA; [done|].
    specialize (Htaken eq_refl).
    destruct (compute_metrics (Got <$> taken)) as [o out] eqn:Hrun.
    cbn [fst] in Htaken. subst o.
    pose proof (compute_metrics_app members get_no_ref_score _ [Got res] _ Hrun)
      as Happ.
    cbn [compute_metrics] in Happ.
    destruct (except_ValueError _) as [v| |e]; injection Hstep as <-.
    all: exists (taken ++ [res]).
    all: cbn [main procs queues]; unfold put; upd; rewrite ?Ea.
    all: split_and!; try done.
    all: try by rewrite <- app_assoc.
    intros _. rewrite fmap_app. cbn [fmap list_fmap]. by rewrite Happ.
  - (* the graph process *)
    destruct (procs s process_graph) as [|tg| | |d q tl|og|og tl saved] eqn:Eg;
      cbn in Hg; try done.
    destruct Hg as (-> & -> & Hk & Hdone).
    destruct (queues s metrics_queue) as [|metric_record waiting] eqn:EB; [done|].
    destruct (graph_metrics_try members tl (Got metric_record)) as [tl' f] eqn:Htry.
    injection Hstep as <-.
    exists taken. cbn [main procs queues]; upd. done.
Qed.

Lemma reachable_tracked (graph_dir : string) (s : sys) :
  reachable graph_dir s -> consistent graph_dir s /\ tracked s.
Proof.
  unfold reachable. revert s. apply rtc_ind_r.
  - split; [apply boot_consistent|apply boot_tracked].
  - intros s s' _ Hstep [Hs Ht]. split; [by eapply step_consistent|].
    destruct Hstep as [Hmain|p Hp].
    + by eapply main_step_tracked.
    + by eapply proc_step_tracked.
Qed.

(** A capture stage that returns has put frames and the sentinel last. *)
Lemma all_frames_Returned :
  fst (capture_images windows now capture_image time_sleep fuel 30)
  = Returned ->
  exists fs : list (datetime * ndarray),
    all_frames = (uncurry PyTuple2 <$> fs) ++ [PyInt FINISH].
Proof.
  unfold all_frames, capture_images.
  destruct (get_zoom_window_id windows) as [w|e]; [|done].
  destruct (PrimFloat.eqb 30 0); [done|].
  intros Hret.
  destruct (capture_loop_puts (MetricType := MetricType) now capture_image
              time_sleep fuel w (PrimFloat.div 1 30) 0) as (bufs & Hputs & _).
  change (1 + 3 * 0)%nat with 1%nat in Hputs. rewrite Hputs, Hret.
  eexists. f_equal. apply frames_tuples.
Qed.

(** When the capture stage returns and every frame it puts scores well, the
    scoring stage puts one score vector per frame and then the sentinel, and
    the graph stage, on these, leaves its loop. *)
Lemma all_records_Returned :
  fst (capture_images windows now capture_image time_sleep fuel 30) = Returned ->
  (forall t a, PyTuple2 t a ∈ all_frames -> scores_well a) ->
  exists (fs : list (datetime * ndarray)) (recs : list VideoMetrics),
    all_frames = (uncurry PyTuple2 <$> fs) ++ [PyInt FINISH]
    /\ compute_metrics (Got <$> all_frames)
       = (Returned, (PyVideoMetrics <$> recs) ++ [PyInt FINISH])
    /\ time <$> recs = fs.*1
    /\ Forall (complete members) recs
    /\ fst (graph_loop timeline_empty (Got <$> all_records)) = Returned.
Proof.
  intros Hret Hwell.
  destruct (all_frames_Returned Hret) as [fs Hfs].
  assert (Forall (fun f => scores_well f.2) fs) as Hgood.
  { apply Forall_forall. intros [t a] Hin. apply (Hwell t). rewrite Hfs.
    apply elem_of_app. left.
    by apply (list_elem_of_fmap_2 (uncurry PyTuple2) _ (t, a)). }
  destruct (compute_metrics_frames members get_no_ref_score fs Hgood)
    as (recs & Hrun & Hvec).
  destruct (Forall2_score_vector_times members get_no_ref_score _ _ Hvec)
    as [Htimes Hcomplete].
  assert (compute_metrics (Got <$> all_frames)
          = (Returned, (PyVideoMetrics <$> recs) ++ [PyInt FINISH])) as Hall.
  { rewrite Hfs, fmap_app.
    by rewrite (compute_metrics_app members get_no_ref_score _ _ _ Hrun). }
  exists fs, recs. split_and!; try done.
  unfold all_records. rewrite Hall. cbn [snd]. rewrite fmap_app.
  by rewrite (graph_loop_app members _ _ _ _ (graph_loop_records members _ recs Hcomplete)).
Qed.

(** As long as the orchestrator has statements left, someone can move. *)
Lemma reachable_can_move (graph_dir : string) (s : sys) :
  fst (capture_images windows now capture_image time_sleep fuel 30) = Returned ->
  (forall t a, PyTuple2 t a ∈ all_frames -> scores_well a) ->
  reachable graph_dir s ->
  main s <> [] ->
  exists s', step s s'.
Proof.
  intros Hret Hwell Hs Hmain0.
  destruct (all_records_Returned Hret Hwell)
    as (fs & recs & _ & Hscored%(f_equal fst) & _ & _ & Hgraphed).
  cbn [fst] in Hscored.
  destruct (reachable_tracked _ _ Hs)
    as [(k & done & Hmain & Hc & Ha & Hg & HqA & HqB & Hrec)
        (taken & Hframes & Hending & Htaken)].
  assert (forall s', main_step s = Some s' -> exists s', step s s') as Hgo.
  { intros s' Hs'. exists s'. by apply step_main. }
  assert (forall p s', proc_step p s = Some s' -> exists s', step s s') as Hgop.
  { intros p s' Hs'. exists s'. by apply step_proc with p. }
  unfold records_ahead in Hrec.
  unfold main_step in Hgo. rewrite Hmain in Hgo, Hmain0.
  destruct k as [|[|[|[|[|[|[|[|[|[|[|k]]]]]]]]]]];
    cbn [drop skipn run_video_processes] in Hgo, Hmain0; [..|by destruct k].
  1-5: by eapply Hgo.
  - (* Start process_capture *)
    destruct (procs s process_capture) as [|tc|qc todo ending| | |oc|] eqn:Ec;
      cbn in Hc; try (exfalso; by intuition lia).
    by eapply Hgo.
  - (* Start process_analysis *)
    destruct (procs s process_analysis) as [|ta| |dq rq| |oa|] eqn:Ea;
      cbn in Ha; try (exfalso; by intuition lia).
    by eapply Hgo.
  - (* Start process_graph *)
    destruct (procs s process_graph) as [|tg| | |d q tl|og|og tl saved] eqn:Eg;
      cbn in Hg; try (exfalso; by intuition lia).
    by eapply Hgo.
  - (* Join process_capture *)
    destruct (procs s process_capture) as [|tc|qc todo ending| | |oc|] eqn:Ec;
      cbn in Hc; try (exfalso; by intuition lia).
    + apply (Hgop process_capture
               (match todo with
                | ev :: todo' =>
                  {| main := main s;
                     procs := <[process_capture := Capturing qc todo' ending]> (procs s);
                     queues := match ev with
                               | Put v => put qc v (queues s)
                               | _ => queues s
                               end |}
                | [] =>
                  {| main := main s;
                     procs := <[process_capture := Exited ending]> (procs s);
                     queues := queues s |}
                end)).
      unfold proc_step. rewrite Ec.
      destruct todo as [|ev todo]; [|done].
      rewrite (Hending _ _ _ eq_refl), Hret. done.
    + by eapply Hgo.
  - (* Join process_analysis *)
    destruct (procs s process_analysis) as [|ta| |dq rq| |oa|] eqn:Ea;
      cbn in Ha; try (exfalso; by intuition lia).
    2: by eapply Hgo.
    destruct Ha as (-> & -> & _).
    destruct (queues s packet_queue) as [|res waiting] eqn:EA.
    + exfalso.
      destruct (procs s process_capture) as [|tc|qc todo ending| | |oc|] eqn:Ec;
        cbn in Hc; try (exfalso; by intuition lia).
      cbn [capture_rest app] in Hframes. rewrite app_nil_r in Hframes.
      specialize (Htaken eq_refl). rewrite <- Hframes, Hscored in Htaken. done.
    + assert (is_Some (proc_step process_analysis s)) as [s' Hs'].
      { unfold proc_step. rewrite Ea, EA.
        by destruct (except_ValueError _). }
      by eapply Hgop.
  - (* Join process_graph *)
    destruct (procs s process_graph) as [|tg| | |d q tl|og|og tl saved] eqn:Eg;
      cbn in Hg; try (exfalso; by intuition lia).
    2: by eapply Hgo.
    destruct Hg as (-> & -> & _ & Hdone).
    destruct (queues s metrics_queue) as [|metric_record waiting] eqn:EB.
    + exfalso.
      destruct (procs s process_analysis) as [|ta| |dq rq| |oa|] eqn:Ea;
        cbn in Ha; try (exfalso; by intuition lia).
      cbn [analysis_rest app] in Hrec. rewrite app_nil_r in Hrec.
      rewrite Hrec, Hdone in Hgraphed. done.
    + assert (is_Some (proc_step process_graph s)) as [s' Hs'].
      { unfold proc_step. rewrite Eg, EB.
        by destruct (graph_metrics_try members tl (Got metric_record)). }
      by eapply Hgop.
Qed.

End Progress.

(** ** A bound on the moves of a run *)

Section Termination.

Context {MetricType : Type} `{Countable MetricType} {ndarray : Type}.
Variable members : list MetricType.
Variable value : MetricType -> string.
Variable savefig : string -> figure -> result unit.
Variable windows : list window.
Variable now : nat -> datetime.
Variable capture_image : Z -> nat -> result ndarray.
Variable time_sleep : float -> result unit.
Variable get_no_ref_score : ndarray -> MetricType -> result float.
Variable fuel : nat.

Local Abbreviation pyval := (@pyval MetricType _ _ ndarray).
Local Abbreviation sys := (@sys MetricType _ _ ndarray).
Local Abbreviation consistent :=
  (consistent members value savefig windows now capture_image time_sleep
     get_no_ref_score fuel).
Local Abbreviation reachable :=
  (reachable members value savefig windows now capture_image time_sleep
     get_no_ref_score fuel).
Local Abbreviation all_frames :=
  (@all_frames MetricType _ _ ndarray windows now capture_image time_sleep fuel).
Local Abbreviation main_step := (main_step windows now capture_image time_sleep fuel).
Local Abbreviation proc_step := (proc_step members value savefig get_no_ref_score).
Local Abbreviation step :=
  (step members value savefig windows now capture_image time_sleep
     get_no_ref_score fuel).
Local Abbreviation capture_images := (@capture_images MetricType _ _ ndarray).
Local Abbreviation moves_left :=
  (@moves_left MetricType _ _ ndarray windows now capture_image time_sleep fuel).

Ltac upd :=
  repeat first [ rewrite fn_lookup_insert
               | rewrite fn_lookup_insert_ne by discriminate ].

Lemma main_step_moves_left (graph_dir : string) (s s' : sys) :
  consistent graph_dir s -> main_step s = Some s' ->
  (moves_left s' < moves_left s)%nat.
Proof.
  intros (k & done & Hmain & Hc & Ha & Hg & HqA & HqB & Hrec) Hstep.
  unfold main_step in Hstep. unfold moves_left. rewrite Hmain in Hstep |- *.
  destruct k as [|[|[|[|[|[|[|[|[|[|[|k]]]]]]]]]]];
    cbn [drop skipn run_video_processes] in Hstep |- *; [..|by destruct k].
  all: destruct (procs s process_capture) as [|tc|qc todo ending| | |oc|] eqn:Ec;
    cbn in Hc; try (exfalso; by intuition lia).
  all: destruct (procs s process_analysis) as [|ta| |dq rq| |oa|] eqn:Ea;
    cbn in Ha; try (exfalso; by intuition lia).
  all: destruct (procs s process_graph) as [|tg| | |d q tl|og|og tl saved] eqn:Eg;
    cbn in Hg; try (exfalso; by intuition lia).
  all: cbn [exited] in Hstep; try discriminate Hstep.
  all: injection Hstep as <-.
  all: cbn [main procs queues]; upd; rewrite ?Ec, ?Ea, ?Eg.
  all: try rewrite HqA in * by lia; try rewrite HqB in * by lia.
  all: repeat match goal with H : _ /\ _ |- _ => destruct H end; subst.
  all: unfold started.
  all: try (destruct (decide (packet_queue = packet_queue)); [|done]).
  all: cbn [length]; try lia.
  unfold all_frames.
  destruct (capture_images windows now capture_image time_sleep fuel 30) as [o evs].
  cbn [snd]. lia.
Qed.

Lemma proc_step_moves_left (graph_dir : string) (p : pid) (s s' : sys) :
  consistent graph_dir s -> proc_step p s = Some s' ->
  (moves_left s' < moves_left s)%nat.
Proof.
  intros (k & done & Hmain & Hc & Ha & Hg & HqA & HqB & Hrec) Hstep.
  unfold proc_step in Hstep. unfold moves_left.
  destruct p.
  - (* the capture process *)
    destruct (procs s process_capture) as [|tc|qc todo ending| | |oc|] eqn:Ec;
      cbn in Hc; try done.
    destruct Hc as [-> Hk].
    destruct todo as [|ev todo].
    + destruct ending; try done; injection Hstep as <-.
      all: cbn [main procs queues]; upd; cbn [length]; lia.
    + injection Hstep as <-.
      cbn [main procs queues]; upd.
      destruct ev as [v|d|]; unfold put; upd.
      * change (puts (Put v :: todo)) with (v :: puts todo).
        rewrite length_app. cbn [length]. lia.
      * change (puts (Sleep d :: todo)) with (puts todo). cbn [length]. lia.
      * change (puts (Close :: todo)) with (puts todo). cbn [length]. lia.
  - (* the scoring process *)
    destruct (procs s process_analysis) as [|ta| |dq rq| |oa|] eqn:Ea;
      cbn in Ha; try done.
    destruct Ha as (-> & -> & Hk).
    assert (procs s process_capture = procs s process_capture) as Ec by done.
    destruct (queues s packet_queue) as [|res waiting] eqn:EA; [done|].
    destruct (except_ValueError _) as [v| |e]; injection Hstep as <-.
    all: cbn [main procs queues]; unfold put; upd.
    all: rewrite ?length_app; cbn [length]; lia.
  - (* the graph process *)
    destruct (procs s process_graph) as [|tg| | |d q tl|og|og tl saved] eqn:Eg;
      cbn in Hg; try done.
    destruct Hg as (-> & -> & Hk & Hdone).
    destruct (queues s metrics_queue) as [|metric_record waiting] eqn:EB; [done|].
    destruct (graph_metrics_try members tl (Got metric_record)) as [tl' f] eqn:Htry.
    injection Hstep as <-.
    cbn [main procs queues]; upd. cbn [length]. lia.
Qed.

Lemma step_moves_left (graph_dir : string) (s s' : sys) :
  consistent graph_dir s -> step s s' -> (moves_left s' < moves_left s)%nat.
Proof.
  intros Hs [Hmain|p Hp].
  - by eapply main_step_moves_left.
  - by eapply proc_step_moves_left.
Qed.

(** X14. A run whose capture stage ends, by returning or by an exception,
    makes a bounded number of moves. Under any interleaving, the moves of
    the orchestrator and of the three processes from the start of
    [run_video_processes] are then at most 12, plus one per event of the
    capture stage, plus two per item that the capture stage puts: the
    scoring process and the graph process go round their loops no more
    often than there are items for them. *)
Theorem run_video_processes_moves_bounded (graph_dir : string) (n : nat)
    (s : sys) :
  fst (capture_images windows now capture_image time_sleep fuel 30)
  <> Unfinished ->
  nsteps step n (boot graph_dir) s ->
  (n <= 12 + length (snd (capture_images windows now capture_image time_sleep
                            fuel 30))
        + 2 * length all_frames)%nat.
Proof.
  intros _ Hrun.
  assert (forall s0 s1 : sys,
            nsteps step n s0 s1 -> consistent graph_dir s0 ->
            (n + moves_left s1 <= moves_left s0)%nat) as Hbound.
  { clear. induction 1 as [s0|n s0 s1 s2 Hstep _ IH]; intros Hs0; [done|].
    pose proof (step_moves_left _ _ _ Hs0 Hstep).
    pose proof (IH (step_consistent _ _ _ _ _ _ _ _ _ _ _ _ Hs0 Hstep)). lia. }
  pose proof (Hbound _ _ Hrun (boot_consistent _ _ _ _ _ _ _ _ _ _)) as Hle.
  unfold moves_left in Hle at 2. cbn in Hle. lia.
Qed.

End Termination.

Section Liveness.

Context {MetricType : Type} `{Countable MetricType} {ndarray : Type}.
Variable members : list MetricType.
Variable value : MetricType -> string.
Variable savefig : string -> figure -> result unit.
Variable windows : list window.
Variable now : nat -> datetime.
Variable capture_image : Z -> nat -> result ndarray.
Variable time_sleep : float -> result unit.
Variable get_no_ref_score : ndarray -> MetricType -> result float.
Variable fuel : nat.

Local Abbreviation pyval := (@pyval MetricType _ _ ndarray).
Local Abbreviation VideoMetrics := (@VideoMetrics MetricType _ _).
Local Abbreviation timeline := (@timeline MetricType _ _).
Local Abbreviation sys := (@sys MetricType _ _ ndarray).
Local Abbreviation consistent :=
  (consistent members value savefig windows now capture_image time_sleep
     get_no_ref_score fuel).
Local Abbreviation reachable :=
  (reachable members value savefig windows now capture_image time_sleep
     get_no_ref_score fuel).
Local Abbreviation all_frames :=
  (@all_frames MetricType _ _ ndarray windows now capture_image time_sleep fuel).
Local Abbreviation all_records :=
  (all_records members windows now capture_image time_sleep get_no_ref_score fuel).
Local Abbreviation step :=
  (step members value savefig windows now capture_image time_sleep
     get_no_ref_score fuel).
Local Abbreviation capture_images := (@capture_images MetricType _ _ ndarray).
Local Abbreviation moves_left :=
  (@moves_left MetricType _ _ ndarray windows now capture_image time_sleep fuel).
Local Abbreviation scores_well := (scores_well members get_no_ref_score).
Local Abbreviation frame_times := (@frame_times MetricType _ _ ndarray).
Local Abbreviation pipeline :=
  (pipeline members value savefig windows now capture_image time_sleep
     get_no_ref_score fuel).
Local Abbreviation graph_metrics := (@graph_metrics MetricType _ _ members value ndarray savefig).

(** X15. No deadlock. When the capture stage returns and every frame it
    puts scores well, then under any interleaving, as long as
    [run_video_processes] has not returned, the orchestrator or one of the
    three processes can move: no state is reached in which the orchestrator
    waits in a [join] for a process that waits in a [get] that nothing will
    answer. And from every state that is reached the run can be brought to
    the return of [run_video_processes]; the graph process has then left
    its loop with a timeline whose [times] are the capture times of all the
    frames, and gone through the plotting code: with two distinct metric
    kinds or more and a [savefig] that accepts the file it has returned and
    saved the figure of that timeline; with fewer than two metric kinds
    the plotting code has raised and nothing is saved. *)
Theorem run_video_processes_no_deadlock (graph_dir : string) (s : sys) :
  fst (capture_images windows now capture_image time_sleep fuel 30) = Returned ->
  (forall t a, PyTuple2 t a ∈ all_frames -> scores_well a) ->
  reachable graph_dir s ->
  (main s <> [] -> exists s', step s s')
  /\ exists (s' : sys) (tl : timeline),
       rtc step s s'
       /\ main s' = []
       /\ times tl = frame_times all_frames
       /\ (exists o saved,
             procs s' process_graph = Graphed o tl saved
             /\ graph_finish members value savefig graph_dir tl = (o, tl, saved))
       /\ (NoDup members -> (2 <= length members)%nat ->
           (forall fig,
              savefig (graph_dir ++ "/" ++ "frame_timeline.png") fig = Ok tt) ->
           exists fig,
             plot members value graph_dir tl = Ok fig
             /\ procs s' process_graph = Graphed Returned tl (Some fig))
       /\ ((length members < 2)%nat ->
           procs s' process_graph
           = Graphed (Raised (match members with
                              | [] => ValueError
                              | _ => TypeError
                              end)) tl None).
Proof.
  intros Hret Hwell Hs.
  split; [by apply (reachable_can_move members value savefig windows now
                      capture_image time_sleep get_no_ref_score fuel graph_dir)|].
  assert (exists s', rtc step s s' /\ main s' = []) as (s' & Hrun & Hend).
  { remember (moves_left s) as n eqn:Hn. revert s Hs Hn.
    induction n as [n IH] using lt_wf_ind. intros s Hs ->.
    destruct (main s) as [|c rest] eqn:Hmain.
    - exists s. by split.
    - destruct (reachable_can_move members value savefig windows now
                  capture_image time_sleep get_no_ref_score fuel graph_dir s
                  Hret Hwell Hs) as [s1 Hstep];
        [by rewrite Hmain|].
      assert (reachable graph_dir s1) as Hs1.
      { unfold reachable in Hs |- *. by eapply rtc_r. }
      pose proof (step_moves_left members value _ _ _ _ _ _ _ _ _ _
                    (reachable_consistent _ _ _ _ _ _ _ _ _ _ _ Hs) Hstep) as Hlt.
      destruct (IH _ Hlt s1 Hs1 eq_refl) as (s' & Hrun & Hend).
      exists s'. split; [by eapply rtc_l|done]. }
  assert (reachable graph_dir s') as Hs'.
  { unfold reachable in Hs |- *. by trans s. }
  apply reachable_consistent in Hs'.
  destruct (all_records_Returned members windows now capture_image time_sleep
              get_no_ref_score fuel Hret Hwell)
    as (fs & recs & Hfs & Hscored & Htimes & Hcomplete & _).
  destruct (graph_metrics_records (ndarray := ndarray) members value savefig
              graph_dir recs Hcomplete) as [_ Hgraph].
  assert (pipeline 30 graph_dir
          = graph_metrics graph_dir
              (Got <$> (PyVideoMetrics <$> recs) ++ [PyInt FINISH])) as Hpipe.
  { rewrite pipeline_all_records. unfold all_records.
    fold all_frames. by rewrite Hscored. }
  rewrite Hgraph in Hpipe.
  pose proof Hs' as Hcons.
  destruct Hs' as (k & done & Hmain & Hc & Ha & Hg & HqA & HqB & Hrec).
  rewrite Hend in Hmain.
  assert (11 <= k)%nat as Hk.
  { apply (f_equal length) in Hmain. rewrite length_drop in Hmain.
    cbn in Hmain. lia. }
  destruct (procs s' process_graph) as [|tg| | |d q tl0|og|og tl0 saved] eqn:Eg;
    cbn in Hg; try (exfalso; by intuition lia).
  assert (pipeline 30 graph_dir = (og, tl0, saved)) as Hpipe'.
  { apply (consistent_Graphed members value savefig windows now capture_image
             time_sleep get_no_ref_score fuel graph_dir s'); done. }
  rewrite Hpipe in Hpipe'.
  destruct (graph_finish_ended members value savefig graph_dir
              (foldl (with_record members) timeline_empty recs)) as [_ Htl].
  rewrite Hpipe' in Htl. cbn [fst snd] in Htl. subst tl0.
  destruct (graph_finish_records members value savefig graph_dir recs Hcomplete)
    as (Hsaved & Hfew & _).
  exists s', (foldl (with_record members) timeline_empty recs).
  split; [done|]. split; [done|]. split.
  { rewrite times_foldl_with_record, Htimes, Hfs.
    rewrite (frame_times_app (MetricType := MetricType)).
    rewrite (frame_times_tuples (MetricType := MetricType)). cbn.
    by rewrite app_nil_r. }
  split; [by exists og, saved|]. split.
  - intros Hnd Hlen Hacc.
    destruct (Hsaved Hnd Hlen Hacc) as (fig & Hplot & _ & Hfin).
    exists fig. split; [done|].
    rewrite Hfin in Hpipe'. by injection Hpipe' as <- <-.
  - intros Hlen. rewrite (Hfew Hlen) in Hpipe'. by injection Hpipe' as <- <-.
Qed.

End Liveness.

(** ** The sentinel on the queues of the running system *)

Section SentinelOnQueues.

Context {MetricType : Type} `{Countable MetricType} {ndarray : Type}.
Variable members : list MetricType.
Variable value : MetricType -> string.
Variable savefig : string -> figure -> result unit.
Variable windows : list window.
Variable now : nat -> datetime.
Variable capture_image : Z -> nat -> result ndarray.
Variable time_sleep : float -> result unit.
Variable get_no_ref_score : ndarray -> MetricType -> result float.
Variable fuel : nat.

Local Abbreviation pyval := (@pyval MetricType _ _ ndarray).
Local Abbreviation VideoMetrics := (@VideoMetrics MetricType _ _).
Local Abbreviation sys := (@sys MetricType _ _ ndarray).
Local Abbreviation reachable :=
  (reachable members value savefig windows now capture_image time_sleep
     get_no_ref_score fuel).
Local Abbreviation all_frames :=
  (@all_frames MetricType _ _ ndarray windows now capture_image time_sleep fuel).
Local Abbreviation all_records :=
  (all_records members windows now capture_image time_sleep get_no_ref_score fuel).
Local Abbreviation capture_rest :=
  (@capture_rest MetricType _ _ ndarray windows now capture_image time_sleep fuel).
Local Abbreviation analysis_rest :=
  (@analysis_rest MetricType _ _ ndarray members get_no_ref_score).

(** Where the sentinel is in a list made of other items and then the
    sentinel or nothing. *)
Lemma sentinel_position (items tail front back : list pyval) :
  Forall (fun v => is_FINISH v = false) items ->
  tail = [] \/ tail = [PyInt FINISH] ->
  items ++ tail = front ++ PyInt FINISH :: back ->
  front = items /\ back = [].
Proof.
  intros Hitems Htail. revert front.
  induction Hitems as [|v items Hv _ IH]; intros front Heq.
  - destruct Htail as [-> | ->]; cbn [app] in Heq.
    + by destruct front.
    + destruct front as [|v front]; [|by destruct front].
      by injection Heq as <-.
  - destruct front as [|v' front]; cbn [app] in Heq.
    + injection Heq as -> _. by vm_compute in Hv.
    + injection Heq as <- Heq. apply IH in Heq as [-> ->]. done.
Qed.

(** X16. The sentinel on the live queues. In every state that the system
    reaches, under any interleaving, a sentinel that waits on a queue is the
    last item of that queue and the only sentinel on it, and nothing will be
    put after it: on the packet queue the capture process has nothing left
    to put, on the metrics queue the scoring process has nothing left to
    put, whatever waits on the packet queue. *)
Theorem sentinel_last_on_queues (graph_dir : string) (s : sys) (q : qid)
    (pre post : list pyval) :
  reachable graph_dir s ->
  queues s q = pre ++ PyInt FINISH :: post ->
  post = []
  /\ Forall (fun v => is_FINISH v = false) pre
  /\ match q with
     | packet_queue => capture_rest (procs s process_capture) = []
     | metrics_queue =>
       analysis_rest (procs s process_analysis)
         (queues s packet_queue ++ capture_rest (procs s process_capture)) = []
     end.
Proof.
  intros Hs Hq.
  destruct (reachable_tracked _ _ _ _ _ _ _ _ _ _ _ Hs)
    as [(k & done & _ & _ & _ & _ & _ & _ & Hrec) (taken & Hframes & _)].
  destruct q.
  - destruct (all_frames_shape (MetricType := MetricType) windows now
                capture_image time_sleep fuel) as (fs & tail & Hshape & Htail).
    rewrite Hq, Hshape in Hframes.
    rewrite <- (app_assoc pre), app_assoc in Hframes. cbn [app] in Hframes.
    apply sentinel_position in Hframes as [Hfront Hback]; [|  |done].
    + apply app_eq_nil in Hback as [-> ->]. split; [done|]. split; [|done].
      assert (Forall (fun v : pyval => is_FINISH v = false) (taken ++ pre)) as Hall.
      { rewrite Hfront. apply Forall_fmap, Forall_true. by intros []. }
      by apply Forall_app in Hall as [_ ?].
    + apply Forall_fmap, Forall_true. by intros [].
  - unfold records_ahead in Hrec. rewrite Hq in Hrec.
    destruct (compute_metrics_scored members get_no_ref_score all_frames)
      as (scored & recs & tail & _ & Hout & Htail & _).
    fold all_records in Hout. rewrite Hout in Hrec.
    rewrite <- (app_assoc pre), app_assoc in Hrec. cbn [app] in Hrec.
    apply sentinel_position in Hrec as [Hfront Hback]; [|  |done].
    + apply app_eq_nil in Hback as [-> ->]. split; [done|]. split; [|done].
      assert (Forall (fun v : pyval => is_FINISH v = false) (done ++ pre)) as Hall.
      { rewrite Hfront. apply Forall_fmap, Forall_true. done. }
      by apply Forall_app in Hall as [_ ?].
    + apply Forall_fmap, Forall_true. done.
Qed.

End SentinelOnQueues.

(** ** A run without frames *)

Section NoFrames.

Context {MetricType : Type} `{Countable MetricType} {ndarray : Type}.
Variable members : list MetricType.
Variable value : MetricType -> string.
Variable savefig : string -> figure -> result unit.
Variable windows : list window.
Variable now : nat -> datetime.
Variable capture_image : Z -> nat -> result ndarray.
Variable time_sleep : float -> result unit.
Variable get_no_ref_score : ndarray -> MetricType -> result float.

Local Abbreviation pyval := (@pyval MetricType _ _ ndarray).
Local Abbreviation timeline := (@timeline MetricType _ _).
Local Abbreviation capture_images :=
  (@capture_images MetricType _ _ ndarray windows now capture_image time_sleep).
Local Abbreviation compute_metrics := (compute_metrics members get_no_ref_score).
Local Abbreviation pipeline :=
  (pipeline members value savefig windows now capture_image time_sleep
     get_no_ref_score).
Local Abbreviation graph_finish := (graph_finish members value savefig).
Local Abbreviation plot := (plot members value).

(** X17. A run without frames. When the first test of the capture loop
    already finds more than five seconds elapsed since the start of the
    capture (the process was held up between the two clock readings), the
    capture stage puts the sentinel alone, the scoring stage passes it on
    without calling the scoring function, and the graph stage leaves its
    loop with nothing in its accumulators and goes on to the plotting code.
    With two metric kinds or more and a [savefig] that accepts the file it
    returns and saves a figure all the same: one row per member of
    [MetricType], each with no time and no score. With one metric kind
    [ax[row_idx]] raises [TypeError], with none [plt.subplots] raises
    [ValueError], and nothing is saved. *)
Theorem pipeline_without_frames (fuel : nat) (frame_rate : float)
    (graph_dir : string) (w : Z) :
  get_zoom_window_id windows = Ok w ->
  PrimFloat.eqb frame_rate 0 = false ->
  within_deadline now 0 = false ->
  (0 < fuel)%nat ->
  puts (snd (capture_images fuel frame_rate)) = [PyInt FINISH]
  /\ compute_metrics (Got <$> puts (snd (capture_images fuel frame_rate)))
     = (Returned, [PyInt FINISH])
  /\ pipeline fuel frame_rate graph_dir = graph_finish graph_dir timeline_empty
  /\ ((2 <= length members)%nat ->
      (forall fig,
         savefig (graph_dir ++ "/" ++ "frame_timeline.png") fig = Ok tt) ->
      exists fig,
        plot graph_dir timeline_empty = Ok fig
        /\ pipeline fuel frame_rate graph_dir
           = (Returned, timeline_empty, Some fig)
        /\ Forall (fun ax => plot_x ax = [] /\ plot_y ax = []) (rows fig)
        /\ length (rows fig) = length members)
  /\ ((length members < 2)%nat ->
      pipeline fuel frame_rate graph_dir
      = (Raised (match members with [] => ValueError | _ => TypeError end),
         timeline_empty, None)).
Proof.
  intros Hw Hr Hout Hfuel.
  assert (puts (snd (capture_images fuel frame_rate)) = [PyInt FINISH : pyval])
    as Hputs.
  { rewrite (capture_images_loop windows now capture_image time_sleep _ _ w)
      by done.
    destruct (capture_loop_first (MetricType := MetricType) now capture_image
                time_sleep fuel w (PrimFloat.div 1 frame_rate) Hfuel)
      as [Hlate _].
    by rewrite (Hlate Hout). }
  assert (pipeline fuel frame_rate graph_dir
          = graph_finish graph_dir timeline_empty) as Hpipe.
  { unfold pipeline. rewrite Hputs. reflexivity. }
  split; [done|]. split; [by rewrite Hputs|]. split; [done|].
  rewrite Hpipe. split.
  - intros Hlen Hsave.
    assert (plot graph_dir timeline_empty
            = Ok {| rows := plot_row value timeline_empty <$> members;
                    image_filename := graph_dir ++ "/" ++ "frame_timeline.png" |})
      as Hplot.
    { unfold plot.
      assert (forallb (plot_date_fits (timeline_empty (MetricType := MetricType)))
                members = true) as ->.
      { apply forallb_forall. intros m _. unfold plot_date_fits.
        cbn [timeline_empty times image_scores]. by rewrite lookup_total_empty. }
      destruct members as [|m1 [|m2 ms]]; cbn [length] in Hlen; [lia..|done]. }
    eexists. split; [exact Hplot|]. split.
    + unfold graph_finish. rewrite Hplot. cbn [image_filename].
      by rewrite Hsave.
    + cbn [rows]. split; [|by rewrite length_fmap].
      apply Forall_fmap, Forall_forall. intros m _. cbn.
      by rewrite lookup_total_empty.
  - intros Hlen. unfold graph_finish.
    by rewrite (plot_few_members members value graph_dir timeline_empty Hlen).
Qed.

End NoFrames.

(** ** Schedules as runs *)

Section Schedules.

Context {MetricType : Type} `{Countable MetricType} {ndarray : Type}.
Variable members : list MetricType.
Variable value : MetricType -> string.
Variable savefig : string -> figure -> result unit.
Variable windows : list window.
Variable now : nat -> datetime.
Variable capture_image : Z -> nat -> result ndarray.
Variable time_sleep : float -> result unit.
Variable get_no_ref_score : ndarray -> MetricType -> result float.
Variable fuel : nat.

Local Abbreviation sys := (@sys MetricType _ _ ndarray).
Local Abbreviation step :=
  (step members value savefig windows now capture_image time_sleep
     get_no_ref_score fuel).
Local Abbreviation schedule :=
  (schedule members value savefig windows now capture_image time_sleep
     get_no_ref_score fuel).

(** A schedule makes one move per entry. *)
Lemma schedule_nsteps (whos : list (option pid)) (s s' : sys) :
  schedule whos s = Some s' -> nsteps step (length whos) s s'.
Proof.
  revert s.
  induction whos as [|who whos IH]; intros s Hrun; cbn [schedule] in Hrun.
  - injection Hrun as <-. apply nsteps_O.
  - destruct (move _ _ _ _ _ _ _ _ _ who s) as [s1|] eqn:Hmove; [|done].
    apply nsteps_l with s1; [|by apply IH].
    destruct who as [p|]; cbn [move] in Hmove.
    + by apply step_proc with p.
    + by apply step_main.
Defined.

End Schedules.

(** ** The further properties on the instance *)

Section SampleRuns.

Import Demo Samples.

Local Abbreviation pyval := (@pyval string _ _ Z).
Local Abbreviation get_result := (@get_result string _ _ Z).
Local Abbreviation capture_images := (@capture_images string _ _ Z).
Local Abbreviation compute_metrics := (compute_metrics members get_no_ref_score).
Local Abbreviation graph_metrics :=
  (@graph_metrics string _ _ members value Z savefig).
Local Abbreviation step_on windows :=
  (step members value savefig windows now capture_image time_sleep
     get_no_ref_score).
Local Abbreviation pipeline_on windows clock :=
  (pipeline members value savefig windows clock capture_image time_sleep
     get_no_ref_score).
Local Abbreviation all_frames := (@all_frames string _ _ Z).

Lemma passed_by_finder : Forall passed_by [finder].
Proof.
  constructor; [|constructor]. split; [by eexists|reflexivity].
Defined.

(** The Zoom meeting window after another window: its number is returned,
    and the window without owner name that follows is not looked at. *)
Lemma get_zoom_window_id_first_match_demo :
  get_zoom_window_id ([finder] ++ zoom :: [ownerless]) = Ok 77.
Proof.
  apply get_zoom_window_id_first_match.
  - exact passed_by_finder.
  - reflexivity.
  - reflexivity.
Defined.

Lemma get_zoom_window_id_sound_demo :
  (77 = -1 /\ Forall passed_by [finder; zoom])
  \/ (exists before win after,
        [finder; zoom] = before ++ win :: after
        /\ Forall passed_by before
        /\ is_zoom_meeting win = true
        /\ kCGWindowNumber win = Some 77).
Proof. apply get_zoom_window_id_sound. reflexivity. Defined.

(** A window without owner name before the Zoom meeting window: [KeyError];
    a Zoom meeting window without number: [ValueError]; a window without
    name is passed by. *)
Lemma get_zoom_window_id_raises_demo :
  get_zoom_window_id ([finder] ++ ownerless :: [zoom]) = Raise KeyError
  /\ get_zoom_window_id ([finder] ++ numberless :: [zoom]) = Raise ValueError
  /\ get_zoom_window_id ([] ++ finder :: [zoom]) = get_zoom_window_id [zoom].
Proof.
  destruct (get_zoom_window_id_raises [finder] [zoom] ownerless passed_by_finder)
    as (Hkey & _ & _).
  destruct (get_zoom_window_id_raises [finder] [zoom] numberless passed_by_finder)
    as (_ & Hvalue & _).
  destruct (get_zoom_window_id_raises [] [zoom] finder (Forall_nil_2 _))
    as (_ & _ & Hname).
  split; [apply Hkey; reflexivity|].
  split; [apply Hvalue; reflexivity|].
  apply Hname; [by eexists|reflexivity].
Defined.

Lemma well_laid_out_image : Strided.well_laid_out (screen 77).
Proof. split; cbn; lia. Defined.

(** The last element of the sample image: the byte at place 18. *)
Lemma capture_image_in_bounds_demo :
  exists b,
    Strided.getitem (Strided.capture_image screen 77) 1 1 2 = Strided.Value b
    /\ Strided.CGDataProviderCopyData (screen 77) !! (1 * 12 + 4 * 1 + 2)%nat
       = Some b.
Proof.
  apply (capture_image_in_bounds screen 77 1 1 2).
  - exact well_laid_out_image.
  - cbn; lia.
  - cbn; lia.
  - lia.
Defined.

Lemma capture_image_no_alias_demo :
  Strided.offset (Strided.capture_image screen 77) 0 1 2
  <> Strided.offset (Strided.capture_image screen 77) 1 0 0.
Proof.
  apply (capture_image_no_alias screen 77 0 1 2 1 0 0).
  - cbn; lia.
  - cbn; lia.
  - lia.
  - cbn; lia.
  - lia.
  - discriminate.
Defined.

(** The last element of the sample image is not the fourth byte of its
    pixel, at place 19, nor the padding byte at place 9 of the first row. *)
Lemma capture_image_skips_fourth_byte_and_padding_demo :
  Strided.offset (Strided.capture_image screen 77) 1 1 2
  <> (1 * 12 + 4 * 1 + 3)%nat
  /\ Strided.offset (Strided.capture_image screen 77) 1 1 2
     <> (0 * 12 + 9)%nat.
Proof.
  destruct (capture_image_skips_fourth_byte_and_padding screen 77 1 1 2)
    as [Hfourth Hpadding].
  - cbn; lia.
  - cbn; lia.
  - lia.
  - split.
    + apply (Hfourth 1%nat 1%nat). cbn; lia.
    + apply (Hpadding 0%nat 9%nat). cbn; lia.
Defined.

(** The graph stage on what the scoring stage puts for the five frames: two
    records and the sentinel. *)
Lemma graph_metrics_figure_after_end_of_stream_demo :
  let gets := Got <$> snd (compute_metrics (Got <$> five_frames)) in
  let o := (graph_metrics "out" gets).1.1 in
  let tl := (graph_metrics "out" gets).1.2 in
  let fig := default {| rows := []; image_filename := "" |}
               (graph_metrics "out" gets).2 in
  exists recs g rest,
    gets = (Got <$> (PyVideoMetrics <$> recs)) ++ g :: rest
    /\ Forall (complete members) recs
    /\ (g = Got (PyInt FINISH) \/ g = GetRaises ValueError)
    /\ o = Returned
    /\ tl = foldl (with_record members) timeline_empty recs
    /\ times tl = time <$> recs
    /\ plot members value "out" tl = Ok fig
    /\ savefig (image_filename fig) fig = Ok tt.
Proof.
  intros gets o tl fig.
  apply (graph_metrics_figure_after_end_of_stream members value savefig "out"
           gets o tl fig).
  vm_compute. reflexivity.
Defined.


Lemma complete_full_record : Forall (complete members) [full_record].
Proof.
  constructor; [|constructor].
  intros m Hm. apply is_Some_run.
  apply elem_of_cons in Hm as [->|Hm]; [vm_compute; exact I|].
  apply list_elem_of_singleton in Hm as ->. vm_compute. exact I.
Defined.

(** A record without the score of "noise" after a record with both scores:
    [KeyError], no figure, two times and one score of "noise". *)
Lemma graph_metrics_KeyError_demo :
  exists tl,
    graph_metrics "out"
      ((Got <$> (PyVideoMetrics <$> [full_record]))
       ++ Got (PyVideoMetrics partial_record) :: [Got (PyInt FINISH)])
    = (Raised KeyError, tl, None)
    /\ times tl = (time <$> [full_record]) ++ [time partial_record]
    /\ length (times tl) = S (length (image_scores tl !!! "noise"%string)).
Proof.
  apply (graph_metrics_KeyError members value savefig "out" [full_record]
           partial_record
           [Got (PyInt FINISH)] "noise"%string).
  - exact NoDup_members.
  - exact complete_full_record.
  - apply elem_of_cons. right. apply list_elem_of_singleton. reflexivity.
  - vm_compute. reflexivity.
Defined.

(** The scoring function raises [RuntimeError] on the third frame, for the
    first metric kind: two records, no sentinel, and the graph stage
    waits. *)
Lemma compute_metrics_dies_without_sentinel_demo :
  exists recs,
    compute_metrics ((Got <$> (uncurry PyTuple2 <$> [(10, 1); (20, 2)]))
                     ++ Got (PyTuple2 30 7)
                        :: (Got <$> [PyTuple2 40 4; PyInt FINISH]))
    = (Raised RuntimeError, PyVideoMetrics <$> recs)
    /\ Forall2 (fun f r => score_vector_of members get_no_ref_score f.1 f.2 r)
               [(10, 1); (20, 2)] recs
    /\ exists tl,
         graph_metrics "out" (Got <$> (PyVideoMetrics <$> recs))
         = (Unfinished, tl, None)
         /\ times tl = [(10, 1); (20, 2)].*1.
Proof.
  apply (compute_metrics_dies_without_sentinel members value savefig
           get_no_ref_score
           "out" [(10, 1); (20, 2)] 30 7 (Got <$> [PyTuple2 40 4; PyInt FINISH])
           [] ["noise"%string] "sharpness"%string RuntimeError).
  - repeat constructor; intros m _; eexists; reflexivity.
  - reflexivity.
  - intros m Hm. by apply elem_of_nil in Hm.
  - reflexivity.
  - discriminate.
Defined.

Lemma tick_passes_now_fast_all (i : nat) :
  tick_passes now_fast capture_image time_sleep raw 77 (PrimFloat.div 1 2) i.
Proof.
  split; [reflexivity|].
  unfold tick_sleep, tick_diff.
  replace (now_fast (3 + 3 * i) - now_fast (2 + 3 * i)) with 250000
    by (unfold now_fast; lia).
  vm_compute. repeat constructor.
Defined.

(** On the clock that shows a quarter of a second per reading, the test
    before tick 9 fails; the loop has ended before, after seven ticks at
    most nine. *)
Lemma capture_images_ends_at_first_late_reading_demo :
  exists n, (n <= 9)%nat
    /\ makes_ticks now_fast n
    /\ forall fuel, (n < fuel)%nat ->
         capture_images [finder; zoom] now_fast capture_image time_sleep fuel 2
         = (Returned,
            ticks_events now_fast raw 77 (PrimFloat.div 1 2) 0 n
            ++ [Put (PyInt FINISH); Close]).
Proof.
  destruct (capture_images_ends_at_first_late_reading (MetricType := string)
              [finder; zoom] now_fast capture_image time_sleep raw 2 77)
    as [Hend _].
  - reflexivity.
  - reflexivity.
  - destruct (Hend 9%nat) as (n & Hn & Hticks & Hrun); [reflexivity|].
    exists n. split; [exact Hn|]. split; [exact Hticks|].
    apply Hrun. intros j _. apply tick_passes_now_fast_all.
Defined.

(** The only window has no owner name: the capture process ends with
    [KeyError], the orchestrator gets past its first [join] and no
    further. *)
Lemma run_video_processes_waits_after_lookup_error_demo :
  let s := run_on [ownerless] now get_no_ref_score 10 capture_first in
  main s <> []
  /\ exited (procs s process_graph) = false
  /\ queues s metrics_queue = []
  /\ (forall tl, timeline_of (procs s process_graph) = Some tl ->
                 tl = timeline_empty).
Proof.
  intros s.
  apply (run_video_processes_waits_after_lookup_error members value savefig
           [ownerless] now capture_image time_sleep get_no_ref_score 10 "out" s
           KeyError).
  - reflexivity.
  - apply reachable_run_on, is_Some_run. vm_compute. exact I.
Defined.

(** The scoring function raises [RuntimeError] on the only frame. *)
Lemma run_video_processes_waits_after_scoring_error_demo :
  let s := run_on [finder] now get_no_ref_score_broken 10 capture_then_score in
  RuntimeError <> ValueError
  /\ main s <> []
  /\ exited (procs s process_graph) = false.
Proof.
  intros s.
  apply (run_video_processes_waits_after_scoring_error members value savefig
           [finder] now capture_image time_sleep get_no_ref_score_broken 10
           "out" s RuntimeError []).
  - vm_compute. reflexivity.
  - apply reachable_run_on, is_Some_run. vm_compute. exact I.
Defined.

Lemma all_frames_score_well (t : datetime) (a : Z) :
  PyTuple2 t a ∈ all_frames [finder] now capture_image time_sleep 10 ->
  scores_well members get_no_ref_score a.
Proof.
  assert (all_frames [finder] now capture_image time_sleep 10
          = [PyTuple2 4000000 (-100); PyInt FINISH]) as -> by (vm_compute; reflexivity).
  intros Hin. apply elem_of_cons in Hin as [Heq|Hin].
  - injection Heq as -> ->. intros m _. eexists. reflexivity.
  - apply list_elem_of_singleton in Hin. discriminate Hin.
Defined.

(** Half-way through the schedule in which the processes take turns: someone
    can move, and the run can be brought to its return with the figure
    saved. *)
Lemma run_video_processes_no_deadlock_demo :
  let s := run 10 (take 9 taking_turns) in
  (main s <> [] -> exists s', step_on [finder] 10 s s')
  /\ exists s' tl fig,
       rtc (step_on [finder] 10) s s'
       /\ main s' = []
       /\ times tl
          = frame_times (all_frames [finder] now capture_image time_sleep 10)
       /\ procs s' process_graph = Graphed Returned tl (Some fig).
Proof.
  intros s.
  destruct (run_video_processes_no_deadlock members value savefig [finder] now
              capture_image time_sleep get_no_ref_score 10 "out" s)
    as [Hmove (s' & tl & Hrun & Hend & Htimes & _ & Hsaved & _)].
  - vm_compute. reflexivity.
  - exact all_frames_score_well.
  - apply reachable_run, is_Some_run. vm_compute. exact I.
  - split; [exact Hmove|].
    destruct Hsaved as (fig & _ & Hfig).
    + exact NoDup_members.
    + cbn. lia.
    + exact (savefig_accepts "out").
    + exists s', tl, fig. repeat split; assumption.
Defined.

(** The schedule in which each process runs to its end makes nineteen moves,
    which is the bound: twelve, three events of the capture stage and two
    items on the packet queue. *)
Lemma run_video_processes_moves_bounded_demo :
  (19 <= 12 + length (snd (capture_images [finder] now capture_image time_sleep
                             10 30))
         + 2 * length (all_frames [finder] now capture_image time_sleep 10))%nat.
Proof.
  apply (run_video_processes_moves_bounded members value savefig [finder] now
           capture_image time_sleep get_no_ref_score 10 "out" 19
           (run 10 stage_by_stage)).
  - vm_compute. discriminate.
  - apply (schedule_nsteps members value savefig [finder] now capture_image
             time_sleep get_no_ref_score 10 stage_by_stage (boot "out")).
    vm_compute. reflexivity.
Defined.

(** The capture process has put the frame and the sentinel, nothing has
    been taken yet. *)
Lemma sentinel_last_on_queues_demo :
  let s := run 10 capture_puts in
  (@nil pyval) = []
  /\ Forall (fun v => is_FINISH v = false) [PyTuple2 4000000 (-100) : pyval]
  /\ capture_rest [finder] now capture_image time_sleep 10
       (procs s process_capture) = [].
Proof.
  intros s.
  apply (sentinel_last_on_queues members value savefig [finder] now
           capture_image time_sleep get_no_ref_score 10 "out" s packet_queue
           [PyTuple2 4000000 (-100)] []).
  - apply reachable_run, is_Some_run. vm_compute. exact I.
  - vm_compute. reflexivity.
Defined.

(** On the clock that jumps by six seconds after its first reading. *)
Lemma pipeline_without_frames_demo :
  puts (snd (capture_images [finder; zoom] now_late capture_image time_sleep
               10 30))
  = [PyInt FINISH]
  /\ exists fig,
       pipeline_on [finder; zoom] now_late 10 30 "out"
       = (Returned, timeline_empty, Some fig)
       /\ Forall (fun ax => plot_x ax = [] /\ plot_y ax = []) (rows fig)
       /\ length (rows fig) = 2%nat.
Proof.
  destruct (pipeline_without_frames members value savefig [finder; zoom]
              now_late capture_image time_sleep get_no_ref_score 10 30 "out" 77)
    as (Hputs & _ & _ & Hsaved & _).
  - reflexivity.
  - reflexivity.
  - reflexivity.
  - lia.
  - split; [exact Hputs|].
    destruct Hsaved as (fig & _ & Hpipe & Hrows & Hlen).
    + cbn. lia.
    + exact (savefig_accepts "out").
    + exists fig. repeat split; assumption.
Defined.

End SampleRuns.
